(** * learn-mcp-sampling: the sampling workflow, embedded and verified

    The repository is a set of Go programs around the MCP "sampling" call:
    - the enhanced server, whose [analyze_file] tool reads a file, wraps it
      in a content value and asks the connected client to sample an LLM;
    - the enhanced client, whose [CreateMessage] handler turns the pushed
      request into a backend request and converts the answer back.

    The correlation layer between the two (sessions, the pending request
    table, the envelope codec) is the one described by the design document;
    the programs only call it through [RequestSampling].  It is modelled
    in [Module Protocol] below from the document's words.

    Go values are embedded as follows: [string] is a Go string (a byte
    sequence), [list byte] a [[]byte], [Z] an [int] or a [time.Duration]
    in nanoseconds, [Q] a decimal literal of type [float64]; a Go result
    pair [(T, error)] coming from a library is a sum [T + error], and the
    pair returned by a function of the repository is a pair of options
    ([None] is [nil]), so that "exactly one of the two is set" is a
    property to prove and not a consequence of the type. *)

From Stdlib Require Import String Ascii List ZArith NArith QArith Lia Bool.
From Stdlib.Strings Require Import Byte.
From Stdlib Require Import DecimalString.
From stdpp Require Import base gmap sets list strings.

Import ListNotations.
Local Open Scope string_scope.
Local Open Scope Z_scope.

(** Go's [error] values are observed only through their message. *)
Definition error := string.

(** The double quote character, as [%q] prints it around a key. *)
Definition dquote : string := String (ascii_of_nat 34) EmptyString.

(** * Library values used by the programs *)

Module mcp.

Inductive Role := RoleUser | RoleAssistant.

(** [mcp.Content] is an interface.  The programs build and inspect two of
    its implementations; every other one is [OtherContent], known only
    by a name. *)
Inductive Content :=
| TextContent (Type_ Text : string)
| ImageContent (Type_ Data MIMEType : string)
| OtherContent (name : string).

Record SamplingMessage := {
  Role_ : Role;
  Content_ : Content;
}.

Record CreateMessageRequest := {
  Messages : list SamplingMessage;
  SystemPrompt : string;
  MaxTokens : Z;
  Temperature : Q;
}.

Record CreateMessageResult := {
  ResultRole : Role;
  ResultContent : Content;
  Model : string;
  StopReason : string;
}.

Record CallToolResult := {
  ToolContent : list Content;
  IsError : bool;
}.

(** Arguments of a tool call: [map[string]any]. *)
Inductive any := AnyString (s : string) | AnyOther.

Record CallToolRequest := { Arguments : gmap string any }.

(** [request.RequireString(key)]: the string stored under [key], an
    error when the key is missing or holds another type. *)
Definition RequireString (r : CallToolRequest) (key : string) : string + error :=
  match Arguments r !! key with
  | Some (AnyString s) => inl s
  | Some AnyOther => inr ("argument " ++ dquote ++ key ++ dquote ++ " is not a string")%string
  | None => inr ("required argument " ++ dquote ++ key ++ dquote ++ " not found")%string
  end.

(** [request.GetString(key, default)]. *)
Definition GetString (r : CallToolRequest) (key : string) (default : string) : string :=
  match Arguments r !! key with
  | Some (AnyString s) => s
  | _ => default
  end.

End mcp.

(** * The Go standard library, as far as the programs use it

    [Platform] collects the library and operating-system calls made by the
    server's tool handler.  The handler is a function of a platform, and
    the theorems about it hold for every platform; [Unix.platform] below
    is one concrete platform on which the handler can be run. *)

Inductive StatResult := StatInfo | StatErrNotExist | StatErrOther.

(** [os.IsNotExist] applied to the error of [os.Stat]. *)
Definition os_IsNotExist (r : StatResult) : bool :=
  match r with StatErrNotExist => true | _ => false end.

Record Platform := {
  filepath_Join : string -> string -> string;
  filepath_Abs : string -> string + error;
  filepath_Ext : string -> string;
  strings_ToLower : string -> string;
  mime_TypeByExtension : string -> string;
  base64_EncodeToString : list byte -> string;
  os_Stat : string -> StatResult;
  os_ReadFile : string -> list byte + error;
  (* [serverFromCtx.RequestSampling(samplingCtx, request)]; the first
     argument is the timeout given to [context.WithTimeout] to make
     [samplingCtx], in nanoseconds *)
  RequestSampling : Z -> mcp.CreateMessageRequest -> mcp.CreateMessageResult + error;
  (* [fmt.Sprintf("%v", c)] on a content value *)
  fmt_v : mcp.Content -> string;
}.

(** [strings.HasPrefix(s, prefix)]. *)
Definition strings_HasPrefix (s prefix : string) : bool := String.prefix prefix s.

(** [string(b)] for a byte slice. *)
Definition string_of_bytes (b : list byte) : string := string_of_list_byte b.

(** [time.Minute], in nanoseconds. *)
Definition time_Minute : Z := 60 * 1000000000.

(** * The enhanced server: the [analyze_file] tool handler

    Source: mcp-implementations/cmd/enhanced_server/main.go, the function
    literal registered for the tool [analyze_file].  The handler's calls
    to the file system and to the sampling layer are recorded, in order,
    in a list of effects, so that "the file is never read" is a statement
    about that list.  Calls to [log.Printf] are not recorded. *)

Module Server.
Import mcp.

Definition DEFAULT_FILES_DIR : string := "./files".

Inductive Effect :=
| EStat (path : string)
| EReadFile (path : string)
| ERequestSampling (timeout : Z) (request : CreateMessageRequest).

(** The handler's Go result [( *mcp.CallToolResult, error)]. *)
Definition ToolReturn : Type := option CallToolResult * option error.

(** [&mcp.CallToolResult{Content: []mcp.Content{mcp.TextContent{Type:
    "text", Text: text}}, IsError: isError}, nil]. *)
Definition text_result (text : string) (isError : bool) : ToolReturn :=
  (Some {| ToolContent := [TextContent "text" text]; IsError := isError |}, None).

Definition nl : string := String (ascii_of_nat 10) EmptyString.

(** The [switch analysisType] and the [customPrompt] override. *)
Definition basePrompt (analysisType customPrompt : string) : string :=
  let basePrompt :=
    if String.eqb analysisType "summarize" then
      "Please provide a clear and concise summary of this content."
    else if String.eqb analysisType "explain" then
      "Please explain what this content is about and its main purpose."
    else if String.eqb analysisType "analyze" then
      "Please provide a detailed analysis of this content, including its structure, key components, and any notable patterns."
    else if String.eqb analysisType "extract_key_points" then
      "Please extract the key points and main ideas from this content."
    else
      "Please analyze this content and provide insights." in
  if negb (String.eqb customPrompt EmptyString) then customPrompt else basePrompt.

(** [mimeType], with the fallback for an unknown extension. *)
Definition mimeType_of (P : Platform) (ext : string) : string :=
  let mimeType := mime_TypeByExtension P ext in
  if String.eqb mimeType EmptyString then "application/octet-stream" else mimeType.

(** The condition of the first branch of the content selection. *)
Definition text_branch (mimeType ext : string) : bool :=
  strings_HasPrefix mimeType "text/" || String.eqb ext ".md" || String.eqb ext ".txt"
  || String.eqb ext ".json" || String.eqb ext ".xml" || String.eqb ext ".csv".

(** The condition of the second branch. *)
Definition image_branch (mimeType : string) : bool :=
  strings_HasPrefix mimeType "image/".

Definition contentForLLM (P : Platform) (mimeType ext : string) (fileContent : list byte) : Content :=
  if text_branch mimeType ext then
    TextContent "text" (string_of_bytes fileContent)
  else if image_branch mimeType then
    let base64Content := base64_EncodeToString P fileContent in
    ImageContent "image" base64Content mimeType
  else
    let base64Content := base64_EncodeToString P fileContent in
    TextContent "text"
      ("This is a binary file (" ++ mimeType ++ ") encoded in base64:" ++ nl ++ nl ++ base64Content).

Definition systemPrompt (basePrompt mimeType ext filename : string) : string :=
  if text_branch mimeType ext then
    basePrompt ++ " The content is a " ++ mimeType ++ " file named '" ++ filename ++ "'."
  else if image_branch mimeType then
    basePrompt ++ " The content is an image file named '" ++ filename ++ "' of type " ++ mimeType ++ "."
  else
    basePrompt ++ " The content is a binary file named '" ++ filename ++ "' of type " ++ mimeType
      ++ ", provided as base64-encoded data.".

Definition samplingRequest (contentForLLM : Content) (systemPrompt : string) : CreateMessageRequest :=
  {| Messages := [ {| Role_ := RoleUser; Content_ := contentForLLM |} ];
     SystemPrompt := systemPrompt;
     MaxTokens := 2000;
     Temperature := 3 # 10 |}.

(** "Extract response text safely". *)
Definition responseText (P : Platform) (result : CreateMessageResult) : string :=
  match ResultContent result with
  | TextContent _ text => text
  | c => fmt_v P c
  end.

Definition analysis_report (filename mimeType analysisType model responseText : string) : string :=
  "File Analysis Results" ++ nl ++
  "=====================" ++ nl ++
  "File: " ++ filename ++ nl ++
  "Type: " ++ mimeType ++ nl ++
  "Analysis: " ++ analysisType ++ nl ++
  "Model: " ++ model ++ nl ++ nl ++
  responseText.

Definition analyze_file (P : Platform) (request : CallToolRequest) : ToolReturn * list Effect :=
  match RequireString request "filename" with
  | inr err => ((None, Some err), [])
  | inl filename =>
    let analysisType := GetString request "analysis_type" "summarize" in
    let customPrompt := GetString request "custom_prompt" EmptyString in
    let filePath := filepath_Join P DEFAULT_FILES_DIR filename in
    match filepath_Abs P filePath with
    | inr err => (text_result ("Error resolving file path: " ++ err) true, [])
    | inl absFilePath =>
    match filepath_Abs P DEFAULT_FILES_DIR with
    | inr err => (text_result ("Error resolving directory path: " ++ err) true, [])
    | inl absDirPath =>
    if negb (strings_HasPrefix absFilePath absDirPath) then
      (text_result "Access denied: File must be within the files directory" true, [])
    else if os_IsNotExist (os_Stat P filePath) then
      (text_result ("File not found: " ++ filename) true, [EStat filePath])
    else
    match os_ReadFile P filePath with
    | inr err =>
      (text_result ("Error reading file: " ++ err) true, [EStat filePath; EReadFile filePath])
    | inl fileContent =>
      let ext := strings_ToLower P (filepath_Ext P filename) in
      let mimeType := mimeType_of P ext in
      let basePrompt := basePrompt analysisType customPrompt in
      let contentForLLM := contentForLLM P mimeType ext fileContent in
      let systemPrompt := systemPrompt basePrompt mimeType ext filename in
      let samplingRequest := samplingRequest contentForLLM systemPrompt in
      let timeout := 5 * time_Minute in
      let effects :=
        [EStat filePath; EReadFile filePath; ERequestSampling timeout samplingRequest] in
      match RequestSampling P timeout samplingRequest with
      | inr err => (text_result ("Error requesting sampling: " ++ err) true, effects)
      | inl result =>
        (text_result
           (analysis_report filename mimeType analysisType (Model result) (responseText P result))
           false,
         effects)
      end
    end
    end
    end
  end.

End Server.

(** * A concrete platform

    The library functions on a Unix system, written after Go's
    documentation of [path/filepath], [strings], [mime] and
    [encoding/base64]; [strings_ToLower] is restricted to ASCII letters,
    and the MIME table is the one built into the [mime] package.  The file
    system is a finite map from cleaned absolute paths to file contents. *)

Module Unix.

Definition slash : ascii := ascii_of_nat 47.
Definition dot : ascii := ascii_of_nat 46.

(** The elements of a path between separators, left to right. *)
Fixpoint split_path (cur : string) (s : string) : list string :=
  match s with
  | EmptyString => [cur]
  | String c rest =>
    if Ascii.eqb c slash then cur :: split_path EmptyString rest
    else split_path (cur ++ String c EmptyString) rest
  end.

(** One element pushed on the stack of kept elements (most recent first). *)
Definition clean_step (rooted : bool) (stack : list string) (elem : string) : list string :=
  if String.eqb elem EmptyString || String.eqb elem "." then stack
  else if String.eqb elem ".." then
    match stack with
    | top :: below => if String.eqb top ".." then elem :: stack else below
    | [] => if rooted then [] else [elem]
    end
  else elem :: stack.

Fixpoint join_with_slash (elems : list string) : string :=
  match elems with
  | [] => EmptyString
  | [e] => e
  | e :: rest => e ++ "/" ++ join_with_slash rest
  end.

Definition is_abs (path : string) : bool := strings_HasPrefix path "/".

(** [filepath.Clean]. *)
Definition Clean (path : string) : string :=
  let rooted := is_abs path in
  let kept := rev (fold_left (clean_step rooted) (split_path EmptyString path) []) in
  if rooted then "/" ++ join_with_slash kept
  else match kept with [] => "." | _ => join_with_slash kept end.

(** [filepath.Join] of two elements. *)
Definition Join (a b : string) : string :=
  if String.eqb a EmptyString then
    if String.eqb b EmptyString then EmptyString else Clean b
  else Clean (a ++ "/" ++ b).

(** [filepath.Abs]; [wd] is the result of [os.Getwd]. *)
Definition Abs (wd : string + error) (path : string) : string + error :=
  if is_abs path then inl (Clean path)
  else match wd with
       | inr err => inr err
       | inl wd => inl (Join wd path)
       end.

(** [filepath.Ext]: the suffix starting at the last dot of the last
    element, empty when there is none. *)
Fixpoint ext_from (acc : string) (s : string) : string :=
  match s with
  | EmptyString => acc
  | String c rest =>
    if Ascii.eqb c slash then ext_from EmptyString rest
    else if Ascii.eqb c dot then ext_from (String c EmptyString) rest
    else if String.eqb acc EmptyString then ext_from acc rest
    else ext_from (acc ++ String c EmptyString) rest
  end.

Definition Ext (path : string) : string := ext_from EmptyString path.

Definition lower_ascii (c : ascii) : ascii :=
  let n := nat_of_ascii c in
  if (65 <=? n)%nat && (n <=? 90)%nat then ascii_of_nat (n + 32) else c.

Fixpoint ToLower (s : string) : string :=
  match s with
  | EmptyString => EmptyString
  | String c rest => String (lower_ascii c) (ToLower rest)
  end.

(** The table [builtinTypesLower] of package [mime]. *)
Definition builtinTypesLower : list (string * string) :=
  [ (".avif", "image/avif"); (".css", "text/css; charset=utf-8");
    (".gif", "image/gif"); (".htm", "text/html; charset=utf-8");
    (".html", "text/html; charset=utf-8"); (".jpeg", "image/jpeg");
    (".jpg", "image/jpeg"); (".js", "text/javascript; charset=utf-8");
    (".json", "application/json"); (".mjs", "text/javascript; charset=utf-8");
    (".pdf", "application/pdf"); (".png", "image/png");
    (".svg", "image/svg+xml"); (".wasm", "application/wasm");
    (".webp", "image/webp"); (".xml", "text/xml; charset=utf-8") ].

Fixpoint assoc (key : string) (table : list (string * string)) : string :=
  match table with
  | [] => EmptyString
  | (k, v) :: rest => if String.eqb k key then v else assoc key rest
  end.

Definition TypeByExtension (ext : string) : string := assoc ext builtinTypesLower.

(** [base64.StdEncoding.EncodeToString]. *)
Definition encodeStd : string :=
  "ABCDEFGHIJKLMNOPQRSTUVWXYZabcdefghijklmnopqrstuvwxyz0123456789+/".

Definition sextet (n : N) : string :=
  match String.get (N.to_nat n) encodeStd with
  | Some c => String c EmptyString
  | None => "="
  end.

Fixpoint EncodeToString (src : list byte) : string :=
  match src with
  | [] => EmptyString
  | [a] =>
    let x := Byte.to_N a in
    (sextet (x / 4) ++ sextet ((x mod 4) * 16) ++ "==")%string
  | [a; b] =>
    let x := Byte.to_N a in
    let y := Byte.to_N b in
    (sextet (x / 4) ++ sextet ((x mod 4) * 16 + y / 16) ++ sextet ((y mod 16) * 4) ++ "=")%string
  | a :: b :: c :: rest =>
    let x := Byte.to_N a in
    let y := Byte.to_N b in
    let z := Byte.to_N c in
    (sextet (x / 4) ++ sextet ((x mod 4) * 16 + y / 16)
     ++ sextet ((y mod 16) * 4 + z / 64) ++ sextet (z mod 64) ++ EncodeToString rest)%string
  end%N.

(** [%v] of a content value that is not a text content: the fields in
    braces, as [fmt] prints a struct. *)
Definition Sprint_v (c : mcp.Content) : string :=
  match c with
  | mcp.TextContent t text => "{" ++ t ++ " " ++ text ++ "}"
  | mcp.ImageContent t data m => "{" ++ t ++ " " ++ data ++ " " ++ m ++ "}"
  | mcp.OtherContent name => "{" ++ name ++ "}"
  end.

Definition platform (wd : string + error) (files : gmap string (list byte))
    (sampler : Z -> mcp.CreateMessageRequest -> mcp.CreateMessageResult + error) : Platform :=
  {| filepath_Join := Join;
     filepath_Abs := Abs wd;
     filepath_Ext := Ext;
     strings_ToLower := ToLower;
     mime_TypeByExtension := TypeByExtension;
     base64_EncodeToString := EncodeToString;
     os_Stat := fun path =>
       match Abs wd path with
       | inl p => match files !! p with Some _ => StatInfo | None => StatErrNotExist end
       | inr _ => StatErrOther
       end;
     os_ReadFile := fun path =>
       match Abs wd path with
       | inl p => match files !! p with
                  | Some content => inl content
                  | None => inr ("open " ++ path ++ ": no such file or directory")%string
                  end
       | inr err => inr err
       end;
     RequestSampling := sampler;
     fmt_v := Sprint_v |}.

End Unix.


(** * The enhanced client: the sampling handler [CreateMessage]

    Source: the enhanced client program (the second program of
    mcp-implementations/cmd/enhanced_server/main.go), type
    [AnthropicSamplingHandler].  The JSON and HTTP libraries are a
    [Backend]; every request handed to [HTTPClient.Do] is recorded. *)

Module Client.

Record TextContent := { TextContent_Type : string; TextContent_Text : string }.

Record Source := {
  Source_Type : string;
  Source_MediaType : string;
  Source_Data : string;
}.

Record ImageContent := { ImageContent_Type : string; ImageContent_Source : Source }.

(** [type Content interface{}]: the handler stores either a
    [[]TextContent] or a [[]interface{}] of image blocks in it. *)
Inductive Content :=
| TextBlocks (blocks : list TextContent)
| ImageBlocks (blocks : list ImageContent).

Record Message := { Message_Role : string; Message_Content : Content }.

Record AnthropicRequest := {
  Request_Model : string;
  Request_MaxTokens : Z;
  Request_Messages : list Message;
  Request_System : string;
  Request_Temperature : Q;
}.

Record AnthropicTextContent := { Block_Type : string; Block_Text : string }.

Record AnthropicUsage := { InputTokens : Z; OutputTokens : Z }.

Record AnthropicResponse := {
  Response_ID : string;
  Response_Type : string;
  Response_Role : string;
  Response_Content : list AnthropicTextContent;
  Response_Model : string;
  Response_StopReason : string;
  Response_StopSequence : string;
  Response_Usage : AnthropicUsage;
}.

Record HTTPRequest := {
  Method : string;
  URL : string;
  Header : gmap string string;
  Body : string;
}.

Record HTTPResponse := { StatusCode : Z; ResponseBody : string }.

Record Backend := {
  json_Marshal : AnthropicRequest -> string + error;
  http_NewRequestWithContext : string -> string -> string -> HTTPRequest + error;
  HTTPClient_Do : HTTPRequest -> HTTPResponse + error;
  json_Decode : string -> AnthropicResponse + error;
  (* [fmt.Sprintf("%v", c)] on a content value *)
  Sprint_v : mcp.Content -> string;
}.

Record AnthropicSamplingHandler := { APIKey : string; HTTPClient : Backend }.

(** [httpReq.Header.Set(key, value)]. *)
Definition Header_Set (r : HTTPRequest) (key value : string) : HTTPRequest :=
  {| Method := Method r; URL := URL r; Header := <[key := value]> (Header r); Body := Body r |}.

Definition http_StatusOK : Z := 200.

(** [%d] of an integer. *)
Definition Sprint_d (n : Z) : string := NilZero.string_of_int (Z.to_int n).

(** The handler's Go result [( *mcp.CreateMessageResult, error)]. *)
Definition HandlerReturn : Type := option mcp.CreateMessageResult * option error.

(** The body of the type switch on [mcpMsg.Content]. *)
Definition convert_content (B : Backend) (mcpContent : mcp.Content) : Content :=
  match mcpContent with
  | mcp.TextContent _ text =>
    TextBlocks [ {| TextContent_Type := "text"; TextContent_Text := text |} ]
  | mcp.ImageContent _ data mimeType =>
    ImageBlocks
      [ {| ImageContent_Type := "image";
           ImageContent_Source :=
             {| Source_Type := "base64"; Source_MediaType := mimeType; Source_Data := data |} |} ]
  | mcp.OtherContent _ =>
    TextBlocks [ {| TextContent_Type := "text"; TextContent_Text := Sprint_v B mcpContent |} ]
  end.

(** The body of the loop over [request.Messages]. *)
Definition convert_message (B : Backend) (mcpMsg : mcp.SamplingMessage) : Message :=
  let content := convert_content B (mcp.Content_ mcpMsg) in
  let role :=
    match mcp.Role_ mcpMsg with
    | mcp.RoleAssistant => "assistant"
    | _ => "user"
    end in
  {| Message_Role := role; Message_Content := content |}.

Definition CreateMessage (h : AnthropicSamplingHandler) (request : mcp.CreateMessageRequest)
    : HandlerReturn * list HTTPRequest :=
  let B := HTTPClient h in
  match mcp.Messages request with
  | [] => ((None, Some "no messages provided"), [])
  | _ :: _ =>
    let messages := map (convert_message B) (mcp.Messages request) in
    let anthropicReq :=
      {| Request_Model := "claude-3-5-sonnet-20241022";
         Request_MaxTokens := mcp.MaxTokens request;
         Request_Messages := messages;
         Request_System := mcp.SystemPrompt request;
         Request_Temperature := mcp.Temperature request |} in
    match json_Marshal B anthropicReq with
    | inr err => ((None, Some ("failed to marshal request: " ++ err)), [])
    | inl reqBody =>
    match http_NewRequestWithContext B "POST" "https://api.anthropic.com/v1/messages" reqBody with
    | inr err => ((None, Some ("failed to create request: " ++ err)), [])
    | inl httpReq =>
      let httpReq := Header_Set httpReq "Content-Type" "application/json" in
      let httpReq := Header_Set httpReq "x-api-key" (APIKey h) in
      let httpReq := Header_Set httpReq "anthropic-version" "2023-06-01" in
      match HTTPClient_Do B httpReq with
      | inr err => ((None, Some ("failed to send request: " ++ err)), [httpReq])
      | inl resp =>
        if negb (StatusCode resp =? http_StatusOK) then
          ((None, Some ("API request failed with status " ++ Sprint_d (StatusCode resp))), [httpReq])
        else
        match json_Decode B (ResponseBody resp) with
        | inr err => ((None, Some ("failed to decode response: " ++ err)), [httpReq])
        | inl anthropicResp =>
          let responseText :=
            match Response_Content anthropicResp with
            | first :: _ => Block_Text first
            | [] => EmptyString
            end in
          let result :=
            {| mcp.ResultRole := mcp.RoleAssistant;
               mcp.ResultContent := mcp.TextContent "text" responseText;
               mcp.Model := Response_Model anthropicResp;
               mcp.StopReason := Response_StopReason anthropicResp |} in
          ((Some result, None), [httpReq])
        end
      end
    end
    end
  end.

(** The all-in-one test client's handler, [SimpleAnthropicSamplingHandler]:
    a fixed answer for every request. *)
Definition Simple_CreateMessage (request : mcp.CreateMessageRequest) : HandlerReturn :=
  let responseText :=
    "MOCK RESPONSE: This is a summary of the requested file. The sampling workflow is working correctly!" in
  let result :=
    {| mcp.ResultRole := mcp.RoleAssistant;
       mcp.ResultContent := mcp.TextContent "text" responseText;
       mcp.Model := "mock-test-model";
       mcp.StopReason := "endTurn" |} in
  (Some result, None).

End Client.

(** * The correlation layer

    The programs reach the correlation layer only through
    [RequestSampling] and the handler interface; the layer itself is
    implemented by the mcp-go dependency.  This module follows the design
    document: sessions and their states, the two envelopes, the pending
    request table with its deadlines, and the responder's reply. *)

Module Protocol.

(** Modelled from the spec: the session states of section 4.1; the
    session and capability code is missing from the sources. *)
Inductive SessionState := Connecting | Negotiating | Active | Draining | Closed.

(** Modelled from the spec: the capability declaration fields of section 6. *)
Record Capabilities := { supportsSamplingPush : bool }.

(** Modelled from the spec: the session of section 3. *)
Record Session := {
  session_id : string;
  state : SessionState;
  peer : Capabilities;
  created : Z;
  last_activity : Z;
}.

(** Modelled from the spec: the request envelope of section 3; the
    structured payload is a content value of the programs. *)
Record RequestEnvelope := {
  request_id : Z;
  method : string;
  payload : mcp.Content;
  maxTokens : Z;
  temperature : Q;
  systemPrompt : option string;
}.

(** Modelled from the spec: the success and failure payloads of a
    response envelope (sections 3 and 6). *)
Record SuccessPayload := {
  content : mcp.Content;
  model : string;
  stopReason : string;
}.

(** Modelled from the spec: the failure payload, an error code and a
    message (section 6). *)
Record FailurePayload := { failure_code : Z; failure_message : string }.

(** Modelled from the spec: the response envelope, with its two
    optional members as on the wire. *)
Record ResponseEnvelope := {
  response_id : Z;
  result : option SuccessPayload;
  failure : option FailurePayload;
}.

(** Modelled from the spec: the failure kinds reported to the caller of
    [send] (section 6). *)
Inductive Failure :=
| Timeout
| CapabilityNotSupported
| SessionClosed
| HandlerError (message : string).

(** Modelled from the spec: what the caller of [send] receives, content
    or a failure kind (section 6). *)
Inductive Outcome :=
| Answered (p : SuccessPayload)
| Failed (f : Failure).

(** Modelled from the spec: the pending entry of section 3.  Its
    completion slot is the cell of [completed] under the same identifier:
    empty while the caller waits, written once. *)
Record PendingEntry := {
  entry_id : Z;
  deadline : Z;
  owner : string;
}.

(** Modelled from the spec: a fulfilled completion slot, with the time
    at which it was fulfilled. *)
Record Resolution := { outcome : Outcome; resolved_at : Z }.

(** Modelled from the spec: the initiator side of one session: the
    clock, the pending request table, the frames written on the push
    channel (oldest first), the completion slots and the diagnostic
    counter of discarded responses. *)
Record Initiator := {
  session : Session;
  now : Z;
  table : gmap Z PendingEntry;
  pushed : list RequestEnvelope;
  completed : gmap Z Resolution;
  stale : nat;
}.

Definition set_state (s : Session) (st : SessionState) : Session :=
  {| session_id := session_id s; state := st; peer := peer s;
     created := created s; last_activity := last_activity s |}.

Definition set_peer (s : Session) (caps : Capabilities) : Session :=
  {| session_id := session_id s; state := state s; peer := caps;
     created := created s; last_activity := last_activity s |}.

Definition touch (s : Session) (t : Z) : Session :=
  {| session_id := session_id s; state := state s; peer := peer s;
     created := created s; last_activity := t |}.

(** Modelled from the spec: a session that has just been opened, in
    state [Connecting], with nothing negotiated and nothing pending. *)
Definition open_session (sid : string) (t : Z) : Initiator :=
  {| session := {| session_id := sid; state := Connecting;
                   peer := {| supportsSamplingPush := false |};
                   created := t; last_activity := t |};
     now := t; table := ∅; pushed := []; completed := ∅; stale := 0 |}.

(** Modelled from the spec: single assignment of a completion slot. *)
Definition fulfil (id : Z) (o : Outcome) (t : Z) (slots : gmap Z Resolution)
    : gmap Z Resolution :=
  match slots !! id with
  | Some _ => slots
  | None => <[id := {| outcome := o; resolved_at := t |}]> slots
  end.

(** Modelled from the spec: a response envelope with exactly one member
    is a result or a handler failure; any other is malformed. *)
Definition response_outcome (resp : ResponseEnvelope) : option Outcome :=
  match result resp, failure resp with
  | Some p, None => Some (Answered p)
  | None, Some f => Some (Failed (HandlerError (failure_message f)))
  | _, _ => None
  end.

(** Modelled from the spec: [send] of section 4.3 up to the point where
    the caller starts waiting, with the capability gate of section 4.1.
    [Some f] is an immediate failure; [None] means the entry is
    registered and the envelope transmitted. *)
Definition send (st : Initiator) (env : RequestEnvelope) (timeout : Z)
    : Initiator * option Failure :=
  if negb (supportsSamplingPush (peer (session st))) then (st, Some CapabilityNotSupported)
  else match state (session st) with
  | Active =>
    let entry := {| entry_id := request_id env; deadline := now st + timeout;
                    owner := session_id (session st) |} in
    ({| session := touch (session st) (now st); now := now st;
        table := <[request_id env := entry]> (table st);
        pushed := pushed st ++ [env];
        completed := completed st; stale := stale st |}, None)
  | _ => (st, Some SessionClosed)
  end.

(** Modelled from the spec: receipt of a response envelope (section 4.3). *)
Definition deliver (st : Initiator) (sid : string) (resp : ResponseEnvelope) : Initiator :=
  let discard :=
    {| session := session st; now := now st; table := table st; pushed := pushed st;
       completed := completed st; stale := S (stale st) |} in
  match response_outcome resp with
  | None => st
  | Some o =>
    match table st !! response_id resp with
    | Some entry =>
      if String.eqb (owner entry) sid then
        {| session := touch (session st) (now st); now := now st;
           table := delete (response_id resp) (table st);
           pushed := pushed st;
           completed := fulfil (response_id resp) o (now st) (completed st);
           stale := stale st |}
      else discard
    | None => discard
    end
  end.

(** Modelled from the spec: the resolutions by timeout and by closure. *)
Definition timed_out (t : Z) (e : PendingEntry) : Resolution :=
  {| outcome := Failed Timeout; resolved_at := t |}.

Definition session_closed (t : Z) (e : PendingEntry) : Resolution :=
  {| outcome := Failed SessionClosed; resolved_at := t |}.

(** Modelled from the spec: entries whose deadline has been reached are
    removed and their callers receive [Timeout]. *)
Definition expire (st : Initiator) : Initiator :=
  {| session := session st; now := now st;
     table := filter (fun kv => now st < deadline kv.2) (table st);
     pushed := pushed st;
     completed := completed st ∪
       (timed_out (now st) <$> filter (fun kv => deadline kv.2 <= now st) (table st));
     stale := stale st |}.

(** Modelled from the spec: the transition [Active -> Draining]. *)
Definition close (st : Initiator) : Initiator :=
  match state (session st) with
  | Active =>
    {| session := set_state (session st) Draining; now := now st;
       table := ∅; pushed := pushed st;
       completed := completed st ∪ (session_closed (now st) <$> table st);
       stale := stale st |}
  | _ => st
  end.

Definition with_session (st : Initiator) (s : Session) : Initiator :=
  {| session := s; now := now st; table := table st; pushed := pushed st;
     completed := completed st; stale := stale st |}.

(** Modelled from the spec: what can happen to the initiator side of a
    session: the two steps of the negotiation, a call to [send], a
    response arriving on the delivery path, a unit of time passing, a
    close request or fatal transport error, and the end of draining. *)
Inductive Event :=
| Hello
| Announce (caps : Capabilities)
| Send (env : RequestEnvelope) (timeout : Z)
| Deliver (sid : string) (resp : ResponseEnvelope)
| Tick
| Close
| Finish.

(** Modelled from the spec: the effect of one event, by the transitions
    of section 4.1 and the operations above; an event that is not valid in
    the current state changes nothing. *)
Definition apply (ev : Event) (st : Initiator) : Initiator :=
  match ev with
  | Hello =>
    match state (session st) with
    | Connecting => with_session st (set_state (session st) Negotiating)
    | _ => st
    end
  | Announce caps =>
    match state (session st) with
    | Negotiating => with_session st (set_state (set_peer (session st) caps) Active)
    | _ => st
    end
  | Send env timeout => fst (send st env timeout)
  | Deliver sid resp => deliver st sid resp
  | Tick =>
    {| session := session st; now := now st + 1; table := table st; pushed := pushed st;
       completed := completed st; stale := stale st |}
  | Close => close st
  | Finish =>
    match state (session st) with
    | Draining => with_session st (set_state (session st) Closed)
    | _ => st
    end
  end.

(** Modelled from the spec: one event followed by the removal of the
    entries whose deadline it reached. *)
Definition step (st : Initiator) (ev : Event) : Initiator := expire (apply ev st).

(** The state after a trace of events, oldest first. *)
Definition run (st : Initiator) (tr : list Event) : Initiator := fold_left step tr st.

(** Modelled from the spec: the responder's reply (section 4.4) to a
    request it was pushed: the handler's Go result, checked for an error
    first, under the request's identifier.  [code] is the error code the
    responder puts on the wire. *)
Definition respond (code : Z) (id : Z) (ret : option mcp.CreateMessageResult * option error)
    : ResponseEnvelope :=
  match snd ret with
  | Some err =>
    {| response_id := id; result := None;
       failure := Some {| failure_code := code; failure_message := err |} |}
  | None =>
    match fst ret with
    | Some r =>
      {| response_id := id;
         result := Some {| content := mcp.ResultContent r; model := mcp.Model r;
                           stopReason := mcp.StopReason r |};
         failure := None |}
    | None => {| response_id := id; result := None; failure := None |}
    end
  end.

(** ** The envelope codec *)

#[local] Unset Elimination Schemes.

(** Modelled from the spec: the wire representation of section 6, one
    JSON object per frame.  The codec is missing from the sources; a frame
    is a JSON value, and a decoder reads the members of an object by
    name. *)
Inductive JSON :=
| JNull
| JBool (b : bool)
| JNumber (q : Q)
| JString (s : string)
| JArray (items : list JSON)
| JObject (members : list (string * JSON)).

#[local] Set Elimination Schemes.

(** The first member of an object with the given name. *)
Fixpoint member (key : string) (members : list (string * JSON)) : option JSON :=
  match members with
  | [] => None
  | (k, v) :: rest => if String.eqb k key then Some v else member key rest
  end.

(** A member read as a string, as an integer, as a number. *)
Definition as_string (j : option JSON) : option string :=
  match j with Some (JString s) => Some s | _ => None end.

Definition as_int (j : option JSON) : option Z :=
  match j with
  | Some (JNumber q) => if Pos.eqb (Qden q) 1 then Some (Qnum q) else None
  | _ => None
  end.

Definition as_number (j : option JSON) : option Q :=
  match j with Some (JNumber q) => Some q | _ => None end.

(** Modelled from the spec: a content value of the tagged union, whose
    discriminant names its variant. *)
Definition tagged (c : mcp.Content) : bool :=
  match c with
  | mcp.TextContent ty _ => String.eqb ty "text"
  | mcp.ImageContent ty _ _ => String.eqb ty "image"
  | mcp.OtherContent _ => false
  end.

(** Modelled from the spec: the [content] member of a push frame, the
    discriminant [type] and the type-specific fields. *)
Definition encode_content (c : mcp.Content) : JSON :=
  match c with
  | mcp.TextContent ty text => JObject [("type", JString ty); ("text", JString text)]
  | mcp.ImageContent ty data mimeType =>
    JObject [("type", JString ty); ("data", JString data); ("mimeType", JString mimeType)]
  | mcp.OtherContent name => JObject [("type", JString name)]
  end.

(** Modelled from the spec: decoding of the [content] member; [None] is
    a malformed envelope. *)
Definition decode_content (j : JSON) : option mcp.Content :=
  match j with
  | JObject ms =>
    match as_string (member "type" ms) with
    | Some ty =>
      if String.eqb ty "text" then
        match as_string (member "text" ms) with
        | Some text => Some (mcp.TextContent "text" text)
        | None => None
        end
      else if String.eqb ty "image" then
        match as_string (member "data" ms), as_string (member "mimeType" ms) with
        | Some data, Some mimeType => Some (mcp.ImageContent "image" data mimeType)
        | _, _ => None
        end
      else None
    | None => None
    end
  | _ => None
  end.

(** Modelled from the spec: the push frame [{id, method, params:
    {content, systemPrompt, maxTokens, temperature}}]; an absent system
    prompt is left out. *)
Definition encode_request (e : RequestEnvelope) : JSON :=
  JObject
    [ ("id", JNumber (inject_Z (request_id e)));
      ("method", JString (method e));
      ("params",
       JObject
         ([("content", encode_content (payload e))]
          ++ match systemPrompt e with
             | Some s => [("systemPrompt", JString s)]
             | None => []
             end
          ++ [("maxTokens", JNumber (inject_Z (maxTokens e)));
              ("temperature", JNumber (temperature e))])) ].

(** Modelled from the spec: decoding of a push frame; [None] is a
    malformed envelope. *)
Definition decode_request (j : JSON) : option RequestEnvelope :=
  match j with
  | JObject ms =>
    match as_int (member "id" ms), as_string (member "method" ms), member "params" ms with
    | Some id, Some m, Some (JObject ps) =>
      match member "content" ps, as_int (member "maxTokens" ps),
            as_number (member "temperature" ps) with
      | Some c, Some n, Some t =>
        match decode_content c, member "systemPrompt" ps with
        | Some p, None =>
          Some {| request_id := id; method := m; payload := p; maxTokens := n;
                  temperature := t; systemPrompt := None |}
        | Some p, Some (JString s) =>
          Some {| request_id := id; method := m; payload := p; maxTokens := n;
                  temperature := t; systemPrompt := Some s |}
        | _, _ => None
        end
      | _, _, _ => None
      end
    | _, _, _ => None
    end
  | _ => None
  end.

(** Modelled from the spec: the request envelope that carries one
    message content of a sampling request of the server, under identifier
    [id] and method name [m]. *)
Definition envelope_of (id : Z) (m : string) (request : mcp.CreateMessageRequest)
    (c : mcp.Content) : RequestEnvelope :=
  {| request_id := id; method := m; payload := c;
     maxTokens := mcp.MaxTokens request; temperature := mcp.Temperature request;
     systemPrompt := Some (mcp.SystemPrompt request) |}.

End Protocol.

(** * A running example

    A working directory with four files under [files] and one next to it,
    and the all-in-one client's handler answering the sampling calls. *)

Module Demo.

Definition wd : string + error := inl "/srv/app".

Definition files : gmap string (list byte) :=
  list_to_map
    [ ("/srv/app/files/notes.md", list_byte_of_string "# Notes");
      ("/srv/app/files/data.json", list_byte_of_string "{}");
      ("/srv/app/files/logo.png", list_byte_of_string "PNG");
      ("/srv/app/files/report.pdf", list_byte_of_string "%PDF");
      ("/srv/app/files-private/key.pem", list_byte_of_string "secret") ].

Definition sampler (timeout : Z) (request : mcp.CreateMessageRequest)
    : mcp.CreateMessageResult + error :=
  match Client.Simple_CreateMessage request with
  | (_, Some err) => inr err
  | (Some r, None) => inl r
  | (None, None) => inr EmptyString
  end.

(** A client that never answers in time. *)
Definition silent (timeout : Z) (request : mcp.CreateMessageRequest)
    : mcp.CreateMessageResult + error := inr "context deadline exceeded".

Definition P : Platform := Unix.platform wd files sampler.

(** The same platform with the client that never answers. *)
Definition Q : Platform := Unix.platform wd files silent.

Definition call (filename : string) : mcp.CallToolRequest :=
  {| mcp.Arguments := {[ "filename" := mcp.AnyString filename ]} |}.

(** A backend that accepts every request and answers with one text block. *)
Definition backend : Client.Backend :=
  {| Client.json_Marshal := fun _ => inl "{}";
     Client.http_NewRequestWithContext := fun m url body =>
       inl {| Client.Method := m; Client.URL := url; Client.Header := ∅; Client.Body := body |};
     Client.HTTPClient_Do := fun _ =>
       inl {| Client.StatusCode := 200; Client.ResponseBody := "{}" |};
     Client.json_Decode := fun _ =>
       inl {| Client.Response_ID := "msg_1"; Client.Response_Type := "message";
              Client.Response_Role := "assistant";
              Client.Response_Content :=
                [ {| Client.Block_Type := "text"; Client.Block_Text := "A summary." |} ];
              Client.Response_Model := "claude-3-5-sonnet-20241022";
              Client.Response_StopReason := "end_turn";
              Client.Response_StopSequence := EmptyString;
              Client.Response_Usage := {| Client.InputTokens := 12; Client.OutputTokens := 4 |} |};
     Client.Sprint_v := Unix.Sprint_v |}.

Definition handler : Client.AnthropicSamplingHandler :=
  {| Client.APIKey := "sk-test"; Client.HTTPClient := backend |}.

(** A sampling request without messages. *)
Definition empty_request : mcp.CreateMessageRequest :=
  {| mcp.Messages := []; mcp.SystemPrompt := "Summarize."; mcp.MaxTokens := 2000;
     mcp.Temperature := 3 # 10 |}.

(** A request envelope with an image payload. *)
Definition image_envelope : Protocol.RequestEnvelope :=
  {| Protocol.request_id := 7; Protocol.method := "sampling/createMessage";
     Protocol.payload := mcp.ImageContent "image" "UE5H" "image/png";
     Protocol.maxTokens := 2000; Protocol.temperature := 3 # 10;
     Protocol.systemPrompt := Some "Describe the image." |}.

(** Two request envelopes of one session and a trace that opens the
    session with the push capability, sends both, lets one tick pass and
    delivers the answer to the first. *)
Definition text_envelope (id : Z) : Protocol.RequestEnvelope :=
  {| Protocol.request_id := id; Protocol.method := "sampling/createMessage";
     Protocol.payload := mcp.TextContent "text" "# Notes";
     Protocol.maxTokens := 2000; Protocol.temperature := 3 # 10;
     Protocol.systemPrompt := None |}.

Definition answer (id : Z) : Protocol.ResponseEnvelope :=
  Protocol.respond (-32603) id (Client.Simple_CreateMessage empty_request).

Definition opening : list Protocol.Event :=
  [ Protocol.Hello; Protocol.Announce {| Protocol.supportsSamplingPush := true |} ].

Definition trace : list Protocol.Event :=
  (opening ++
   [ Protocol.Send (text_envelope 7) 2; Protocol.Send (text_envelope 42) 2;
     Protocol.Tick; Protocol.Deliver "s1" (answer 7) ])%list.

(** The session after the opening and one accepted send. *)
Definition waiting : Protocol.Initiator :=
  Protocol.run (Protocol.open_session "s1" 0)
    (opening ++ [Protocol.Send (text_envelope 7) 2])%list.

(** The request issued by the server for [notes.md]. *)
Definition notes_request : mcp.CreateMessageRequest :=
  Server.samplingRequest (mcp.TextContent "text" "# Notes")
    "Please provide a clear and concise summary of this content. The content is a application/octet-stream file named 'notes.md'.".

(** A session whose peer did not declare the push capability. *)
Definition mute : Protocol.Initiator :=
  Protocol.run (Protocol.open_session "s2" 0)
    [ Protocol.Hello; Protocol.Announce {| Protocol.supportsSamplingPush := false |} ].

End Demo.


(** * Definitions used by the statements *)


(** The content the design document's wording selects: by MIME type
    alone.  Compared with [Server.contentForLLM] below. *)
Definition content_by_mime_type (P : Platform) (mimeType : string) (fileContent : list byte)
    : mcp.Content :=
  if strings_HasPrefix mimeType "text/" then
    mcp.TextContent "text" (string_of_bytes fileContent)
  else if strings_HasPrefix mimeType "image/" then
    mcp.ImageContent "image" (base64_EncodeToString P fileContent) mimeType
  else
    mcp.TextContent "text"
      ("This is a binary file (" ++ mimeType ++ ") encoded in base64:" ++ Server.nl ++ Server.nl
       ++ base64_EncodeToString P fileContent).

(** The extensions the handler treats as text whatever their MIME type. *)
Definition text_extensions : list string := [".md"; ".txt"; ".json"; ".xml"; ".csv"].

(** Exactly one of two optional values is present. *)
Definition exactly_one {A B : Type} (a : option A) (b : option B) : Prop :=
  (is_Some a /\ b = None) \/ (a = None /\ is_Some b).

(** ** Traces of the correlation layer

    The vocabulary of the statements about the pending request table:
    what it means for a send to be accepted, for an event to resolve a
    request, and for a request to be outstanding after a trace. *)

(** The session is active and the peer declared the push capability. *)
Definition accepts (st : Protocol.Initiator) : bool :=
  Protocol.supportsSamplingPush (Protocol.peer (Protocol.session st))
  && match Protocol.state (Protocol.session st) with
     | Protocol.Active => true
     | _ => false
     end.

(** The number of clock ticks in a trace. *)
Fixpoint ticks (tr : list Protocol.Event) : Z :=
  match tr with
  | [] => 0
  | Protocol.Tick :: rest => 1 + ticks rest
  | _ :: rest => ticks rest
  end.

(** The identifiers of the requests sent in a trace, in order. *)
Fixpoint sent_ids (tr : list Protocol.Event) : list Z :=
  match tr with
  | [] => []
  | Protocol.Send env _ :: rest => Protocol.request_id env :: sent_ids rest
  | _ :: rest => sent_ids rest
  end.

(** Request identifiers are never reused within the session. *)
Definition collision_free (tr : list Protocol.Event) : Prop := NoDup (sent_ids tr).

(** The event resolves request [id] of session [sid] other than by
    timeout: a well-formed response for it addressed to the session, or
    the closure of the session. *)
Definition resolves (sid : string) (id : Z) (ev : Protocol.Event) : Prop :=
  match ev with
  | Protocol.Deliver sid' resp =>
    sid' = sid /\ Protocol.response_id resp = id /\ is_Some (Protocol.response_outcome resp)
  | Protocol.Close => True
  | _ => False
  end.

(** Request [id] has been sent (and accepted) in the trace, and since
    then no response, timeout or closure has resolved it. *)
Definition outstanding (sid : string) (t0 : Z) (tr : list Protocol.Event) (id : Z) : Prop :=
  exists (pre : list Protocol.Event) env timeout (post : list Protocol.Event),
    tr = (pre ++ Protocol.Send env timeout :: post)%list /\
    Protocol.request_id env = id /\
    accepts (Protocol.run (Protocol.open_session sid t0) pre) = true /\
    Forall (fun ev => ~ resolves sid id ev) post /\
    ticks post < timeout.

(** Two states that differ at most in the diagnostic counter. *)
Definition same_but_counter (a b : Protocol.Initiator) : Prop :=
  Protocol.session a = Protocol.session b /\
  Protocol.now a = Protocol.now b /\
  Protocol.table a = Protocol.table b /\
  Protocol.pushed a = Protocol.pushed b /\
  Protocol.completed a = Protocol.completed b.



(** * The other tools of the enhanced server

    Source: mcp-implementations/cmd/enhanced_server/main.go, the function
    literals registered for the tools [list_files] and [echo]. *)

Module Tools.
Import mcp.

(** An [os.DirEntry] as the handler uses it: its name, whether it is a
    directory, and the size of its [Info()] or the error of that call. *)
Record DirEntry := {
  Name : string;
  IsDir : bool;
  Info : Z + error;
}.

(** [strings.Join(elems, sep)]. *)
Fixpoint strings_Join (elems : list string) (sep : string) : string :=
  match elems with
  | [] => EmptyString
  | [e] => e
  | e :: rest => e ++ sep ++ strings_Join rest sep
  end.

(** The line appended for one entry: [fmt.Sprintf("- %s (%d bytes, %s)",
    entry.Name(), size, mimeType)], with the handler's MIME fallback. *)
Definition file_line (P : Platform) (entry : DirEntry) (size : Z) : string :=
  let mimeType := mime_TypeByExtension P (strings_ToLower P (filepath_Ext P (Name entry))) in
  let mimeType :=
    if String.eqb mimeType EmptyString then "application/octet-stream" else mimeType in
  "- " ++ Name entry ++ " (" ++ Client.Sprint_d size ++ " bytes, " ++ mimeType ++ ")".

(** The body of the loop over [entries], on the list built so far. *)
Definition list_step (P : Platform) (fileList : list string) (entry : DirEntry) : list string :=
  if negb (IsDir entry) then
    match Info entry with
    | inr _ => fileList
    | inl size => (fileList ++ [file_line P entry size])%list
    end
  else fileList.

(** [fileList] after the loop. *)
Definition fileList (P : Platform) (entries : list DirEntry) : list string :=
  fold_left (list_step P) entries [].

(** The handler of [list_files]; [os_ReadDir] is [os.ReadDir]. *)
Definition list_files (P : Platform) (os_ReadDir : string -> list DirEntry + error)
    (request : CallToolRequest) : Server.ToolReturn :=
  match os_ReadDir Server.DEFAULT_FILES_DIR with
  | inr err => Server.text_result ("Error reading files directory: " ++ err) true
  | inl entries =>
    let fileList := fileList P entries in
    match fileList with
    | [] =>
      Server.text_result ("No files found in " ++ Server.DEFAULT_FILES_DIR ++ " directory") false
    | _ :: _ =>
      Server.text_result
        ("Available files in " ++ Server.DEFAULT_FILES_DIR ++ ":" ++ Server.nl ++ Server.nl
         ++ strings_Join fileList Server.nl) false
    end
  end.

(** The handler of [echo]. *)
Definition echo (request : CallToolRequest) : Server.ToolReturn :=
  let message := GetString request "message" EmptyString in
  Server.text_result ("Echo: " ++ message) false.

End Tools.

(** * The test clients' reading of a tool result

    The workflow test and the simulation read [result.Content[0]] without
    testing the length; the all-in-one client tests it and shortens the
    text it shows. *)

Module Reader.

(** What reading the first content of a result does: the index is out of
    range (a run-time panic), the content is not a text content (nothing
    is printed), or there is a text to print. *)
Inductive FirstText :=
| IndexOutOfRange
| NotText
| Text (text : string).

(** [result.Content[0].(mcp.TextContent)]. *)
Definition first_text (result : mcp.CallToolResult) : FirstText :=
  match mcp.ToolContent result with
  | [] => IndexOutOfRange
  | mcp.TextContent _ text :: _ => Text text
  | _ :: _ => NotText
  end.

(** The all-in-one client's display of a text:
    [if len(text) > 500 { text = text[:500] + "..." }]. *)
Definition display_text (text : string) : string :=
  if (500 <? String.length text)%nat then String.substring 0 500 text ++ "..." else text.

End Reader.

(** * The simulation of the workflow

    Source: the program after working-examples/README.md, which calls the
    backend directly: its own simplified [AnthropicSamplingHandler] and
    its [main]. *)

Module Simulate.

Record Message := { Message_Role : string; Message_Content : string }.

Record AnthropicRequest := {
  Request_Model : string;
  Request_MaxTokens : Z;
  Request_Messages : list Message;
  Request_System : string;
  Request_Temperature : Q;
}.

Record AnthropicContent := { Content_Type : string; Content_Text : string }.

Record AnthropicResponse := {
  Response_Content : list AnthropicContent;
  Response_Model : string;
}.

Record Backend := {
  json_Marshal : AnthropicRequest -> string + error;
  http_NewRequestWithContext : string -> string -> string -> Client.HTTPRequest + error;
  HTTPClient_Do : Client.HTTPRequest -> Client.HTTPResponse + error;
  json_Decode : string -> AnthropicResponse + error;
  (* [fmt.Sprintf("%v", c)] on a content value *)
  Sprint_v : mcp.Content -> string;
}.

Record AnthropicSamplingHandler := { APIKey : string; HTTPClient : Backend }.

(** [NewAnthropicSamplingHandler(apiKey)]; the HTTP client it creates is
    the backend. *)
Definition NewAnthropicSamplingHandler (B : Backend) (apiKey : string)
    : AnthropicSamplingHandler :=
  {| APIKey := apiKey; HTTPClient := B |}.

(** The body of the loop over [request.Messages]. *)
Definition convert_message (B : Backend) (mcpMsg : mcp.SamplingMessage) : Message :=
  let content :=
    match mcp.Content_ mcpMsg with
    | mcp.TextContent _ text => text
    | c => Sprint_v B c
    end in
  let role :=
    match mcp.Role_ mcpMsg with
    | mcp.RoleAssistant => "assistant"
    | _ => "user"
    end in
  {| Message_Role := role; Message_Content := content |}.

Definition CreateMessage (h : AnthropicSamplingHandler) (request : mcp.CreateMessageRequest)
    : Client.HandlerReturn * list Client.HTTPRequest :=
  let B := HTTPClient h in
  let messages := map (convert_message B) (mcp.Messages request) in
  let anthropicReq :=
    {| Request_Model := "claude-3-5-sonnet-20241022";
       Request_MaxTokens := mcp.MaxTokens request;
       Request_Messages := messages;
       Request_System := mcp.SystemPrompt request;
       Request_Temperature := mcp.Temperature request |} in
  match json_Marshal B anthropicReq with
  | inr err => ((None, Some ("failed to marshal request: " ++ err)), [])
  | inl reqBody =>
  match http_NewRequestWithContext B "POST" "https://api.anthropic.com/v1/messages" reqBody with
  | inr err => ((None, Some ("failed to create request: " ++ err)), [])
  | inl httpReq =>
    let httpReq := Client.Header_Set httpReq "Content-Type" "application/json" in
    let httpReq := Client.Header_Set httpReq "x-api-key" (APIKey h) in
    let httpReq := Client.Header_Set httpReq "anthropic-version" "2023-06-01" in
    match HTTPClient_Do B httpReq with
    | inr err => ((None, Some ("failed to send request: " ++ err)), [httpReq])
    | inl resp =>
      if negb (Client.StatusCode resp =? Client.http_StatusOK) then
        ((None, Some ("API request failed with status "
                      ++ Client.Sprint_d (Client.StatusCode resp))), [httpReq])
      else
      match json_Decode B (Client.ResponseBody resp) with
      | inr err => ((None, Some ("failed to decode response: " ++ err)), [httpReq])
      | inl anthropicResp =>
        let responseText :=
          match Response_Content anthropicResp with
          | first :: _ => Content_Text first
          | [] => EmptyString
          end in
        ((Some {| mcp.ResultRole := mcp.RoleAssistant;
                  mcp.ResultContent := mcp.TextContent "text" responseText;
                  mcp.Model := Response_Model anthropicResp;
                  mcp.StopReason := "endTurn" |}, None), [httpReq])
      end
    end
  end
  end.

(** What [main] depends on: the environment variable, the results of
    connecting to the server and of the [list_files] call, the file
    system and the backend. *)
Record Environment := {
  ANTHROPIC_API_KEY : string;
  transport_NewStreamableHTTP : option error;
  mcpClient_Start : option error;
  mcpClient_Initialize : option error;
  CallTool_list_files : mcp.CallToolResult + error;
  os_ReadFile : string -> list byte + error;
  backend : Backend;
}.

(** How [main] ends: it returns, [log.Fatalf] stops the program, or a
    run-time panic does. *)
Inductive Exit :=
| Returned
| Fatal (message : string)
| Panicked.

(** [string(content)[:100]]: [None] when the slice bound is out of
    range. *)
Definition head100 (content : list byte) : option string :=
  if (length content <? 100)%nat then None
  else Some (String.substring 0 100 (string_of_bytes content)).

(** The sampling request [main] builds for the file it read. *)
Definition samplingRequest (analysisType filename : string) (content : list byte)
    : mcp.CreateMessageRequest :=
  {| mcp.Messages :=
       [ {| mcp.Role_ := mcp.RoleUser;
            mcp.Content_ := mcp.TextContent "text" (string_of_bytes content) |} ];
     mcp.SystemPrompt :=
       "Please " ++ analysisType ++ " this content. The content is a markdown file named '"
       ++ filename ++ "'.";
     mcp.MaxTokens := 2000;
     mcp.Temperature := 3 # 10 |}.

(** [main]: how it ends, and the requests handed to the HTTP client.
    What it prints is not recorded. *)
Definition main (E : Environment) : Exit * list Client.HTTPRequest :=
  let apiKey := ANTHROPIC_API_KEY E in
  if String.eqb apiKey EmptyString then (Returned, [])
  else
  match transport_NewStreamableHTTP E with
  | Some err => (Fatal ("Failed to create HTTP transport: " ++ err), [])
  | None =>
  match mcpClient_Start E with
  | Some err => (Fatal ("Failed to start client: " ++ err), [])
  | None =>
  match mcpClient_Initialize E with
  | Some err => (Fatal ("Failed to initialize MCP session: " ++ err), [])
  | None =>
  match CallTool_list_files E with
  | inr _ => (Returned, [])
  | inl listResult =>
  match Reader.first_text listResult with
  | Reader.IndexOutOfRange => (Panicked, [])
  | _ =>
    let filename := "sample_document.md" in
    let analysisType := "summarize" in
    match os_ReadFile E ("files/" ++ filename) with
    | inr _ => (Returned, [])
    | inl content =>
    match head100 content with
    | None => (Panicked, [])
    | Some _ =>
      let handler := NewAnthropicSamplingHandler (backend E) apiKey in
      let samplingRequest := samplingRequest analysisType filename content in
      (Returned, snd (CreateMessage handler samplingRequest))
    end
    end
  end
  end
  end
  end
  end.

End Simulate.

(** * More of the running example

    A directory listing, a file the platform cannot read, backends for
    the two handlers and environments for the simulation. *)

Module Samples.

Definition entries : list Tools.DirEntry :=
  [ {| Tools.Name := "notes.md"; Tools.IsDir := false; Tools.Info := inl 7 |};
    {| Tools.Name := "archive"; Tools.IsDir := true; Tools.Info := inl 4096 |};
    {| Tools.Name := "broken.bin"; Tools.IsDir := false; Tools.Info := inr "stat failed" |};
    {| Tools.Name := "logo.PNG"; Tools.IsDir := false; Tools.Info := inl 3 |} ].

Definition readDir (path : string) : list Tools.DirEntry + error := inl entries.

(** The platform of the running example, on which no file can be read. *)
Definition locked : Platform :=
  {| filepath_Join := filepath_Join Demo.P;
     filepath_Abs := filepath_Abs Demo.P;
     filepath_Ext := filepath_Ext Demo.P;
     strings_ToLower := strings_ToLower Demo.P;
     mime_TypeByExtension := mime_TypeByExtension Demo.P;
     base64_EncodeToString := base64_EncodeToString Demo.P;
     os_Stat := os_Stat Demo.P;
     os_ReadFile := fun path => inr ("open " ++ path ++ ": permission denied");
     RequestSampling := RequestSampling Demo.P;
     fmt_v := fmt_v Demo.P |}.

(** A backend of the enhanced client that answers every request with
    the status 529 and one that answers with no content block. *)
Definition overloaded : Client.Backend :=
  {| Client.json_Marshal := Client.json_Marshal Demo.backend;
     Client.http_NewRequestWithContext := Client.http_NewRequestWithContext Demo.backend;
     Client.HTTPClient_Do := fun _ =>
       inl {| Client.StatusCode := 529; Client.ResponseBody := "overloaded" |};
     Client.json_Decode := Client.json_Decode Demo.backend;
     Client.Sprint_v := Client.Sprint_v Demo.backend |}.

Definition wordless_response : Client.AnthropicResponse :=
  {| Client.Response_ID := "msg_2"; Client.Response_Type := "message";
     Client.Response_Role := "assistant"; Client.Response_Content := [];
     Client.Response_Model := "claude-3-5-sonnet-20241022";
     Client.Response_StopReason := "max_tokens";
     Client.Response_StopSequence := EmptyString;
     Client.Response_Usage := {| Client.InputTokens := 12; Client.OutputTokens := 0 |} |}.

Definition wordless : Client.Backend :=
  {| Client.json_Marshal := Client.json_Marshal Demo.backend;
     Client.http_NewRequestWithContext := Client.http_NewRequestWithContext Demo.backend;
     Client.HTTPClient_Do := Client.HTTPClient_Do Demo.backend;
     Client.json_Decode := fun _ => inl wordless_response;
     Client.Sprint_v := Client.Sprint_v Demo.backend |}.

(** A backend of the simulation that accepts every request. *)
Definition sim_response : Simulate.AnthropicResponse :=
  {| Simulate.Response_Content :=
       [ {| Simulate.Content_Type := "text"; Simulate.Content_Text := "A summary." |} ];
     Simulate.Response_Model := "claude-3-5-sonnet-20241022" |}.

Definition sim_backend : Simulate.Backend :=
  {| Simulate.json_Marshal := fun _ => inl "{}";
     Simulate.http_NewRequestWithContext := fun m url body =>
       inl {| Client.Method := m; Client.URL := url; Client.Header := ∅; Client.Body := body |};
     Simulate.HTTPClient_Do := fun _ =>
       inl {| Client.StatusCode := 200; Client.ResponseBody := "{}" |};
     Simulate.json_Decode := fun _ => inl sim_response;
     Simulate.Sprint_v := Unix.Sprint_v |}.

Definition sim_handler : Simulate.AnthropicSamplingHandler :=
  Simulate.NewAnthropicSamplingHandler sim_backend "sk-test".

(** A listing as the server returns it, a document of 120 bytes and one
    of 7 bytes. *)
Definition listing : mcp.CallToolResult :=
  {| mcp.ToolContent := [mcp.TextContent "text" "Available files in ./files:"];
     mcp.IsError := false |}.

Definition long_document : list byte := repeat x61 120.

Definition short_document : list byte := list_byte_of_string "# Notes".

Definition environment (document : list byte) : Simulate.Environment :=
  {| Simulate.ANTHROPIC_API_KEY := "sk-test";
     Simulate.transport_NewStreamableHTTP := None;
     Simulate.mcpClient_Start := None;
     Simulate.mcpClient_Initialize := None;
     Simulate.CallTool_list_files := inl listing;
     Simulate.os_ReadFile := fun path =>
       if String.eqb path "files/sample_document.md" then inl document
       else inr ("open " ++ path ++ ": no such file or directory");
     Simulate.backend := sim_backend |}.

(** A platform whose files directory holds the simulation's document and
    whose client is the all-in-one handler. *)
Definition library : Platform :=
  Unix.platform Demo.wd
    (<["/srv/app/files/sample_document.md" := long_document]> Demo.files) Demo.sampler.

(** A request for an analysis with a prompt of the caller's own. *)
Definition custom_call : mcp.CallToolRequest :=
  {| mcp.Arguments :=
       <["custom_prompt" := mcp.AnyString "List the headings."]>
         (<["analysis_type" := mcp.AnyString "explain"]>
            {[ "filename" := mcp.AnyString "notes.md" ]}) |}.

End Samples.

(** * Facts about the server's tool handler *)

Lemma text_branch_spec (mimeType ext : string) :
  Server.text_branch mimeType ext = true <->
  strings_HasPrefix mimeType "text/" = true \/ In ext text_extensions.
Proof.
  unfold Server.text_branch, text_extensions. simpl.
  rewrite !orb_true_iff, !String.eqb_eq. intuition (subst; auto).
Qed.

(** Every run of the handler that reaches the sampling call went through
    all the guards, made exactly three calls, in this order, and returns
    what the sampling call gave it. *)
Lemma analyze_file_sampling (P : Platform) (request : mcp.CallToolRequest)
    (t : Z) (req : mcp.CreateMessageRequest) :
  In (Server.ERequestSampling t req) (snd (Server.analyze_file P request)) ->
  exists filename absFilePath absDirPath fileContent,
    let filePath := filepath_Join P Server.DEFAULT_FILES_DIR filename in
    let ext := strings_ToLower P (filepath_Ext P filename) in
    let mimeType := Server.mimeType_of P ext in
    let analysisType := mcp.GetString request "analysis_type" "summarize" in
    let basePrompt :=
      Server.basePrompt analysisType (mcp.GetString request "custom_prompt" EmptyString) in
    mcp.RequireString request "filename" = inl filename /\
    filepath_Abs P filePath = inl absFilePath /\
    filepath_Abs P Server.DEFAULT_FILES_DIR = inl absDirPath /\
    strings_HasPrefix absFilePath absDirPath = true /\
    os_IsNotExist (os_Stat P filePath) = false /\
    os_ReadFile P filePath = inl fileContent /\
    t = 5 * time_Minute /\
    req = Server.samplingRequest (Server.contentForLLM P mimeType ext fileContent)
            (Server.systemPrompt basePrompt mimeType ext filename) /\
    snd (Server.analyze_file P request) =
      [Server.EStat filePath; Server.EReadFile filePath; Server.ERequestSampling t req] /\
    fst (Server.analyze_file P request) =
      match RequestSampling P t req with
      | inr err => Server.text_result ("Error requesting sampling: " ++ err) true
      | inl result =>
        Server.text_result
          (Server.analysis_report filename mimeType analysisType (mcp.Model result)
             (Server.responseText P result)) false
      end.
Proof.
  unfold Server.analyze_file.
  destruct (mcp.RequireString request "filename") as [filename|e0] eqn:Hname;
    [|simpl; tauto].
  destruct (filepath_Abs P (filepath_Join P Server.DEFAULT_FILES_DIR filename))
    as [absFilePath|e1] eqn:Habs; [|simpl; tauto].
  destruct (filepath_Abs P Server.DEFAULT_FILES_DIR) as [absDirPath|e2] eqn:Hdir;
    [|simpl; tauto].
  destruct (strings_HasPrefix absFilePath absDirPath) eqn:Hpre; [|simpl; tauto].
  cbn [negb].
  destruct (os_IsNotExist (os_Stat P (filepath_Join P Server.DEFAULT_FILES_DIR filename)))
    eqn:Hstat.
  { simpl. intros [H|[]]. discriminate H. }
  destruct (os_ReadFile P (filepath_Join P Server.DEFAULT_FILES_DIR filename))
    as [fileContent|e3] eqn:Hread.
  2:{ simpl. intros [H|[H|[]]]; discriminate H. }
  intros Hin.
  assert (Heff : t = 5 * time_Minute /\
            req = Server.samplingRequest
                    (Server.contentForLLM P
                       (Server.mimeType_of P (strings_ToLower P (filepath_Ext P filename)))
                       (strings_ToLower P (filepath_Ext P filename)) fileContent)
                    (Server.systemPrompt
                       (Server.basePrompt (mcp.GetString request "analysis_type" "summarize")
                          (mcp.GetString request "custom_prompt" EmptyString))
                       (Server.mimeType_of P (strings_ToLower P (filepath_Ext P filename)))
                       (strings_ToLower P (filepath_Ext P filename)) filename)).
  { destruct (RequestSampling P _ _); simpl in Hin;
      destruct Hin as [H|[H|[H|[]]]]; try discriminate H; injection H; auto. }
  destruct Heff as [-> ->].
  exists filename, absFilePath, absDirPath, fileContent. cbv zeta.
  repeat split; auto; destruct (RequestSampling P _ _); reflexivity.
Qed.

(** A run of the handler that reads the file went through the prefix
    check and the existence check, in this order. *)
Lemma analyze_file_read (P : Platform) (request : mcp.CallToolRequest) (path : string) :
  In (Server.EReadFile path) (snd (Server.analyze_file P request)) ->
  exists filename absFilePath absDirPath,
    mcp.RequireString request "filename" = inl filename /\
    path = filepath_Join P Server.DEFAULT_FILES_DIR filename /\
    filepath_Abs P path = inl absFilePath /\
    filepath_Abs P Server.DEFAULT_FILES_DIR = inl absDirPath /\
    strings_HasPrefix absFilePath absDirPath = true /\
    os_IsNotExist (os_Stat P path) = false.
Proof.
  unfold Server.analyze_file.
  destruct (mcp.RequireString request "filename") as [filename|e0] eqn:Hname;
    [|simpl; tauto].
  destruct (filepath_Abs P (filepath_Join P Server.DEFAULT_FILES_DIR filename))
    as [absFilePath|e1] eqn:Habs; [|simpl; tauto].
  destruct (filepath_Abs P Server.DEFAULT_FILES_DIR) as [absDirPath|e2] eqn:Hdir;
    [|simpl; tauto].
  destruct (strings_HasPrefix absFilePath absDirPath) eqn:Hpre; [|simpl; tauto].
  cbn [negb].
  destruct (os_IsNotExist (os_Stat P (filepath_Join P Server.DEFAULT_FILES_DIR filename)))
    eqn:Hstat.
  { simpl. intros [H|[]]. discriminate H. }
  intros Hin.
  assert (Hpath : path = filepath_Join P Server.DEFAULT_FILES_DIR filename).
  { destruct (os_ReadFile P _); [destruct (RequestSampling P _ _)|]; simpl in Hin;
      repeat (destruct Hin as [Hin|Hin]; [try discriminate Hin; try (injection Hin; auto)|]);
      try contradiction. }
  subst path. exists filename, absFilePath, absDirPath. auto 10.
Qed.

(** The handler on the running example: an image is sent as an image
    content with its base64 data and MIME type. *)
Example analyze_file_image :
  snd (Server.analyze_file Demo.P (Demo.call "logo.png")) =
    [ Server.EStat "files/logo.png"; Server.EReadFile "files/logo.png";
      Server.ERequestSampling (5 * time_Minute)
        (Server.samplingRequest (mcp.ImageContent "image" "UE5H" "image/png")
           "Please provide a clear and concise summary of this content. The content is an image file named 'logo.png' of type image/png.") ].
Proof. vm_compute. reflexivity. Qed.

(** A PDF is sent as text that names the MIME type and carries the
    base64 data. *)
Example analyze_file_binary :
  snd (Server.analyze_file Demo.P (Demo.call "report.pdf")) =
    [ Server.EStat "files/report.pdf"; Server.EReadFile "files/report.pdf";
      Server.ERequestSampling (5 * time_Minute)
        (Server.samplingRequest
           (mcp.TextContent "text"
              ("This is a binary file (application/pdf) encoded in base64:"
               ++ Server.nl ++ Server.nl ++ "JVBERg=="))
           "Please provide a clear and concise summary of this content. The content is a binary file named 'report.pdf' of type application/pdf, provided as base64-encoded data.") ].
Proof. vm_compute. reflexivity. Qed.

(** A file that is missing is reported after [os.Stat] and never read;
    a call without a file name fails before any file system call. *)
Example analyze_file_missing :
  Server.analyze_file Demo.P (Demo.call "nothing.txt") =
    (Server.text_result "File not found: nothing.txt" true, [Server.EStat "files/nothing.txt"]) /\
  snd (Server.analyze_file Demo.P {| mcp.Arguments := ∅ |}) = [] /\
  fst (fst (Server.analyze_file Demo.P {| mcp.Arguments := ∅ |})) = None.
Proof. vm_compute. repeat split; reflexivity. Qed.

(** The check is a comparison of strings: [/srv/app/files-private]
    starts with [/srv/app/files], so a file of that sibling directory
    passes it. *)
Example analyze_file_sibling_directory :
  filepath_Abs Demo.P (filepath_Join Demo.P Server.DEFAULT_FILES_DIR "../files-private/key.pem")
    = inl "/srv/app/files-private/key.pem" /\
  In (Server.EReadFile "files-private/key.pem")
     (snd (Server.analyze_file Demo.P (Demo.call "../files-private/key.pem"))).
Proof. vm_compute. split; [reflexivity|]. right. left. reflexivity. Qed.

(** C5, as the code has it: the content placed in the sampling request
    is the only message of the request, sent in the user role, and is one
    of three shapes.  It is the file's text when the MIME type starts with
    [text/] or the extension is one of [.md .txt .json .xml .csv]; failing
    that, an image content with the base64 data and the MIME type when the
    MIME type starts with [image/]; failing both, a text content that
    names the MIME type and carries the base64 data. *)
Theorem analyze_file_content_by_type_and_extension
    (P : Platform) (request : mcp.CallToolRequest) (t : Z) (req : mcp.CreateMessageRequest) :
  In (Server.ERequestSampling t req) (snd (Server.analyze_file P request)) ->
  exists filename fileContent c,
    let ext := strings_ToLower P (filepath_Ext P filename) in
    let mimeType := Server.mimeType_of P ext in
    let is_text := strings_HasPrefix mimeType "text/" = true \/ In ext text_extensions in
    mcp.RequireString request "filename" = inl filename /\
    os_ReadFile P (filepath_Join P Server.DEFAULT_FILES_DIR filename) = inl fileContent /\
    mcp.Messages req = [ {| mcp.Role_ := mcp.RoleUser; mcp.Content_ := c |} ] /\
    (is_text -> c = mcp.TextContent "text" (string_of_bytes fileContent)) /\
    (~ is_text -> strings_HasPrefix mimeType "image/" = true ->
     c = mcp.ImageContent "image" (base64_EncodeToString P fileContent) mimeType) /\
    (~ is_text -> strings_HasPrefix mimeType "image/" = false ->
     c = mcp.TextContent "text"
           ("This is a binary file (" ++ mimeType ++ ") encoded in base64:"
            ++ Server.nl ++ Server.nl ++ base64_EncodeToString P fileContent)).
Proof.
  intros Hin.
  destruct (analyze_file_sampling P request t req Hin)
    as (filename & absFilePath & absDirPath & fileContent & H).
  cbv zeta in H.
  destruct H as (Hname & _ & _ & _ & _ & Hread & _ & Hreq & _).
  exists filename, fileContent.
  eexists. cbv zeta.
  split; [exact Hname|]. split; [exact Hread|].
  split; [rewrite Hreq; reflexivity|].
  unfold Server.contentForLLM, Server.image_branch.
  set (ext := strings_ToLower P (filepath_Ext P filename)).
  set (mimeType := Server.mimeType_of P ext).
  pose proof (text_branch_spec mimeType ext) as Hspec.
  destruct (Server.text_branch mimeType ext).
  - split; [reflexivity|].
    split; intros Hn; exfalso; apply Hn, Hspec; reflexivity.
  - split; [|split].
    + intros Hc. apply Hspec in Hc. discriminate Hc.
    + intros _ ->. reflexivity.
    + intros _ ->. reflexivity.
Qed.

(** C5 at a concrete file: [data.json] is read and its text is sent as a
    text content, as the theorem says for the extension [.json]. *)
Lemma analyze_file_content_by_type_and_extension_witness :
  In (Server.ERequestSampling (5 * time_Minute)
        (Server.samplingRequest (mcp.TextContent "text" "{}")
           "Please provide a clear and concise summary of this content. The content is a application/json file named 'data.json'."))
     (snd (Server.analyze_file Demo.P (Demo.call "data.json"))) /\
  exists filename fileContent c,
    mcp.RequireString (Demo.call "data.json") "filename" = inl filename /\
    os_ReadFile Demo.P (filepath_Join Demo.P Server.DEFAULT_FILES_DIR filename) = inl fileContent /\
    (In (strings_ToLower Demo.P (filepath_Ext Demo.P filename)) text_extensions ->
     c = mcp.TextContent "text" (string_of_bytes fileContent)).
Proof.
  assert (Hin : In (Server.ERequestSampling (5 * time_Minute)
        (Server.samplingRequest (mcp.TextContent "text" "{}")
           "Please provide a clear and concise summary of this content. The content is a application/json file named 'data.json'."))
     (snd (Server.analyze_file Demo.P (Demo.call "data.json")))).
  { vm_compute. right. right. left. reflexivity. }
  split; [exact Hin|].
  destruct (analyze_file_content_by_type_and_extension Demo.P (Demo.call "data.json") _ _ Hin)
    as (filename & fileContent & c & H).
  cbv zeta in H. destruct H as (Hname & Hread & _ & Htext & _).
  exists filename, fileContent, c.
  split; [exact Hname|]. split; [exact Hread|].
  intros Hext. apply Htext. right. exact Hext.
Defined.

(** C5 as worded fails: [data.json] has the MIME type [application/json],
    which is neither a text nor an image type, and yet the handler sends
    the file's text as it is, not the base64 form the wording calls for. *)
Lemma content_by_mime_type_fails_on_json :
  Server.mimeType_of Demo.P (strings_ToLower Demo.P (filepath_Ext Demo.P "data.json"))
    = "application/json" /\
  strings_HasPrefix "application/json" "text/" = false /\
  strings_HasPrefix "application/json" "image/" = false /\
  os_ReadFile Demo.P (filepath_Join Demo.P Server.DEFAULT_FILES_DIR "data.json")
    = inl (list_byte_of_string "{}") /\
  snd (Server.analyze_file Demo.P (Demo.call "data.json")) =
    [ Server.EStat "files/data.json"; Server.EReadFile "files/data.json";
      Server.ERequestSampling (5 * time_Minute)
        (Server.samplingRequest (mcp.TextContent "text" "{}")
           "Please provide a clear and concise summary of this content. The content is a application/json file named 'data.json'.") ] /\
  content_by_mime_type Demo.P "application/json" (list_byte_of_string "{}") =
    mcp.TextContent "text"
      ("This is a binary file (application/json) encoded in base64:" ++ Server.nl ++ Server.nl ++ "e30=") /\
  Server.contentForLLM Demo.P "application/json" ".json" (list_byte_of_string "{}") <>
    content_by_mime_type Demo.P "application/json" (list_byte_of_string "{}").
Proof.
  repeat split; try (vm_compute; reflexivity).
  vm_compute. discriminate.
Qed.

(** C8: every sampling request the handler issues asks for at most 2000
    tokens at temperature 0.3, a temperature between 0 and 1, and so does
    every request envelope made from it. *)
Theorem analyze_file_numeric_parameters
    (P : Platform) (request : mcp.CallToolRequest) (t : Z) (req : mcp.CreateMessageRequest) :
  In (Server.ERequestSampling t req) (snd (Server.analyze_file P request)) ->
  mcp.MaxTokens req = 2000 /\
  mcp.Temperature req = 3 # 10 /\
  (0 <= mcp.Temperature req)%Q /\ (mcp.Temperature req <= 1)%Q /\
  forall (id : Z) (m : string) (c : mcp.Content),
    Protocol.maxTokens (Protocol.envelope_of id m req c) = 2000 /\
    (0 <= Protocol.temperature (Protocol.envelope_of id m req c))%Q /\
    (Protocol.temperature (Protocol.envelope_of id m req c) <= 1)%Q.
Proof.
  intros Hin.
  destruct (analyze_file_sampling P request t req Hin)
    as (filename & absFilePath & absDirPath & fileContent & H).
  cbv zeta in H.
  destruct H as (_ & _ & _ & _ & _ & _ & _ & Hreq & _).
  subst req. cbn.
  assert (H0 : (0 <= 3 # 10)%Q) by (unfold Qle; simpl; lia).
  assert (H1 : (3 # 10 <= 1)%Q) by (unfold Qle; simpl; lia).
  repeat split; auto.
Qed.

(** C8 at a concrete file: the request issued for [notes.md]. *)
Lemma analyze_file_numeric_parameters_witness :
  In (Server.ERequestSampling (5 * time_Minute)
        (Server.samplingRequest (mcp.TextContent "text" "# Notes")
           "Please provide a clear and concise summary of this content. The content is a application/octet-stream file named 'notes.md'."))
     (snd (Server.analyze_file Demo.P (Demo.call "notes.md"))) /\
  mcp.MaxTokens
    (Server.samplingRequest (mcp.TextContent "text" "# Notes")
       "Please provide a clear and concise summary of this content. The content is a application/octet-stream file named 'notes.md'.")
  = 2000.
Proof.
  assert (Hin : In (Server.ERequestSampling (5 * time_Minute)
        (Server.samplingRequest (mcp.TextContent "text" "# Notes")
           "Please provide a clear and concise summary of this content. The content is a application/octet-stream file named 'notes.md'."))
     (snd (Server.analyze_file Demo.P (Demo.call "notes.md")))).
  { vm_compute. right. right. left. reflexivity. }
  split; [exact Hin|].
  exact (proj1 (analyze_file_numeric_parameters Demo.P (Demo.call "notes.md") _ _ Hin)).
Defined.

(** C9: when the absolute path of the requested file does not start with
    the absolute path of the files directory, the handler answers "Access
    denied" and makes no call to the file system; and whenever the handler
    reads a file, the prefix check passed on that file's path and
    [os.Stat] did not report it missing. *)
Theorem analyze_file_access_denied (P : Platform) (request : mcp.CallToolRequest) :
  (forall filename absFilePath absDirPath : string,
     mcp.RequireString request "filename" = inl filename ->
     filepath_Abs P (filepath_Join P Server.DEFAULT_FILES_DIR filename) = inl absFilePath ->
     filepath_Abs P Server.DEFAULT_FILES_DIR = inl absDirPath ->
     strings_HasPrefix absFilePath absDirPath = false ->
     Server.analyze_file P request =
       (Server.text_result "Access denied: File must be within the files directory" true, []))
  /\
  (forall path : string,
     In (Server.EReadFile path) (snd (Server.analyze_file P request)) ->
     exists filename absFilePath absDirPath,
       mcp.RequireString request "filename" = inl filename /\
       path = filepath_Join P Server.DEFAULT_FILES_DIR filename /\
       filepath_Abs P path = inl absFilePath /\
       filepath_Abs P Server.DEFAULT_FILES_DIR = inl absDirPath /\
       strings_HasPrefix absFilePath absDirPath = true /\
       os_IsNotExist (os_Stat P path) = false).
Proof.
  split.
  - intros filename absFilePath absDirPath Hname Habs Hdir Hpre.
    unfold Server.analyze_file. rewrite Hname, Habs, Hdir, Hpre. reflexivity.
  - intros path Hin. exact (analyze_file_read P request path Hin).
Qed.

(** C9 at a concrete request: [../../../etc/passwd] resolves to
    [/etc/passwd], outside [/srv/app/files]. *)
Lemma analyze_file_access_denied_witness :
  mcp.RequireString (Demo.call "../../../etc/passwd") "filename" = inl "../../../etc/passwd" /\
  filepath_Abs Demo.P (filepath_Join Demo.P Server.DEFAULT_FILES_DIR "../../../etc/passwd")
    = inl "/etc/passwd" /\
  filepath_Abs Demo.P Server.DEFAULT_FILES_DIR = inl "/srv/app/files" /\
  strings_HasPrefix "/etc/passwd" "/srv/app/files" = false /\
  Server.analyze_file Demo.P (Demo.call "../../../etc/passwd") =
    (Server.text_result "Access denied: File must be within the files directory" true, []).
Proof.
  assert (H1 : mcp.RequireString (Demo.call "../../../etc/passwd") "filename"
               = inl "../../../etc/passwd") by (vm_compute; reflexivity).
  assert (H2 : filepath_Abs Demo.P
                 (filepath_Join Demo.P Server.DEFAULT_FILES_DIR "../../../etc/passwd")
               = inl "/etc/passwd") by (vm_compute; reflexivity).
  assert (H3 : filepath_Abs Demo.P Server.DEFAULT_FILES_DIR = inl "/srv/app/files")
    by (vm_compute; reflexivity).
  assert (H4 : strings_HasPrefix "/etc/passwd" "/srv/app/files" = false)
    by (vm_compute; reflexivity).
  split; [exact H1|]. split; [exact H2|]. split; [exact H3|]. split; [exact H4|].
  exact (proj1 (analyze_file_access_denied Demo.P (Demo.call "../../../etc/passwd"))
           _ _ _ H1 H2 H3 H4).
Defined.

(** * Facts about the client's sampling handler *)

(** C4: whatever the request and whatever the backend does, the handler
    returns a result or an error and never both or neither; a result is an
    assistant message with a text content, a model label and a stop
    reason.  The response envelope the responder builds from the return
    value has exactly one of its two members, carrying that result or that
    error message. *)
Theorem CreateMessage_result_or_failure
    (h : Client.AnthropicSamplingHandler) (request : mcp.CreateMessageRequest) (code id : Z) :
  let ret := fst (Client.CreateMessage h request) in
  let envelope := Protocol.respond code id ret in
  exactly_one (fst ret) (snd ret) /\
  exactly_one (Protocol.result envelope) (Protocol.failure envelope) /\
  Protocol.response_id envelope = id /\
  (forall r, fst ret = Some r ->
     mcp.ResultRole r = mcp.RoleAssistant /\
     (exists text, mcp.ResultContent r = mcp.TextContent "text" text) /\
     Protocol.result envelope =
       Some {| Protocol.content := mcp.ResultContent r; Protocol.model := mcp.Model r;
               Protocol.stopReason := mcp.StopReason r |}) /\
  (forall err, snd ret = Some err ->
     Protocol.failure envelope =
       Some {| Protocol.failure_code := code; Protocol.failure_message := err |}).
Proof.
  unfold Client.CreateMessage.
  destruct (mcp.Messages request) as [|m ms].
  { cbn. unfold exactly_one. repeat split; eauto; try discriminate.
    intros err [= <-]. reflexivity. }
  destruct (Client.json_Marshal _ _) as [reqBody|e1].
  2:{ cbn. unfold exactly_one. repeat split; eauto; try discriminate.
      intros err [= <-]. reflexivity. }
  destruct (Client.http_NewRequestWithContext _ _ _ _) as [httpReq|e2].
  2:{ cbn. unfold exactly_one. repeat split; eauto; try discriminate.
      intros err [= <-]. reflexivity. }
  destruct (Client.HTTPClient_Do _ _) as [resp|e3].
  2:{ cbn. unfold exactly_one. repeat split; eauto; try discriminate.
      intros err [= <-]. reflexivity. }
  destruct (negb (Client.StatusCode resp =? Client.http_StatusOK)).
  { cbn. unfold exactly_one. repeat split; eauto; try discriminate.
    intros err [= <-]. reflexivity. }
  destruct (Client.json_Decode _ _) as [anthropicResp|e4].
  2:{ cbn. unfold exactly_one. repeat split; eauto; try discriminate.
      intros err [= <-]. reflexivity. }
  cbn. unfold exactly_one.
  split; [left; eauto|]. split; [left; eauto|]. split; [reflexivity|].
  split.
  - intros r [= <-]. cbn. repeat split; eauto.
  - intros err H. discriminate H.
Qed.

(** The handler on the running example: one text message is turned
    into one backend request with the three headers set, and the
    backend's first text block comes back as the result. *)
Example CreateMessage_text :
  Client.CreateMessage Demo.handler Demo.notes_request =
    ((Some {| mcp.ResultRole := mcp.RoleAssistant;
              mcp.ResultContent := mcp.TextContent "text" "A summary.";
              mcp.Model := "claude-3-5-sonnet-20241022";
              mcp.StopReason := "end_turn" |}, None),
     [ {| Client.Method := "POST"; Client.URL := "https://api.anthropic.com/v1/messages";
          Client.Header :=
            <["anthropic-version" := "2023-06-01"]>
              (<["x-api-key" := "sk-test"]> (<["Content-Type" := "application/json"]> ∅));
          Client.Body := "{}" |} ]).
Proof. vm_compute. reflexivity. Qed.

(** C10: a request with an empty message list is refused with the error
    "no messages provided", and nothing is handed to the HTTP client. *)
Theorem CreateMessage_no_messages
    (h : Client.AnthropicSamplingHandler) (request : mcp.CreateMessageRequest) :
  mcp.Messages request = [] ->
  Client.CreateMessage h request = ((None, Some "no messages provided"), []).
Proof.
  intros Hempty. unfold Client.CreateMessage. rewrite Hempty. reflexivity.
Qed.

(** C10 at a concrete request and handler. *)
Lemma CreateMessage_no_messages_witness :
  mcp.Messages Demo.empty_request = [] /\
  Client.CreateMessage Demo.handler Demo.empty_request =
    ((None, Some "no messages provided"), []).
Proof.
  assert (H : mcp.Messages Demo.empty_request = []) by reflexivity.
  split; [exact H|].
  exact (CreateMessage_no_messages Demo.handler Demo.empty_request H).
Defined.

(** * Facts about the envelope codec *)

Lemma decode_encode_content (c : mcp.Content) :
  Protocol.tagged c = true ->
  Protocol.decode_content (Protocol.encode_content c) = Some c.
Proof.
  destruct c as [ty text|ty data mimeType|name]; cbn [Protocol.tagged]; intros Htag.
  - apply String.eqb_eq in Htag. subst ty. reflexivity.
  - apply String.eqb_eq in Htag. subst ty. reflexivity.
  - discriminate Htag.
Qed.

Lemma contentForLLM_tagged (P : Platform) (mimeType ext : string) (fileContent : list byte) :
  Protocol.tagged (Server.contentForLLM P mimeType ext fileContent) = true.
Proof.
  unfold Server.contentForLLM.
  destruct (Server.text_branch mimeType ext); [reflexivity|].
  destruct (Server.image_branch mimeType); reflexivity.
Qed.

(** C6: a request envelope whose payload is a text or an image content
    decodes, after encoding, to the same envelope: identifier, method,
    payload with its type and fields, numeric parameters and system
    prompt.  The three contents the server builds (text, image, binary as
    text) are such payloads.  On the client, the conversion of a received
    payload to the backend's format keeps the type and every field: two
    payloads with the same conversion are equal. *)
Theorem request_envelope_round_trip :
  (forall e : Protocol.RequestEnvelope,
     Protocol.tagged (Protocol.payload e) = true ->
     Protocol.decode_request (Protocol.encode_request e) = Some e) /\
  (forall (P : Platform) (mimeType ext : string) (fileContent : list byte)
          (id : Z) (m : string) (req : mcp.CreateMessageRequest),
     let e := Protocol.envelope_of id m req (Server.contentForLLM P mimeType ext fileContent) in
     Protocol.decode_request (Protocol.encode_request e) = Some e) /\
  (forall (B : Client.Backend) (c1 c2 : mcp.Content),
     Protocol.tagged c1 = true -> Protocol.tagged c2 = true ->
     Client.convert_content B c1 = Client.convert_content B c2 -> c1 = c2).
Proof.
  assert (Hround : forall e : Protocol.RequestEnvelope,
     Protocol.tagged (Protocol.payload e) = true ->
     Protocol.decode_request (Protocol.encode_request e) = Some e).
  { intros [id m p n t sp] Htag. cbn [Protocol.payload] in Htag.
    pose proof (decode_encode_content p Htag) as Hc.
    unfold Protocol.encode_request, Protocol.decode_request.
    cbn [Protocol.request_id Protocol.method Protocol.payload Protocol.maxTokens
         Protocol.temperature Protocol.systemPrompt].
    destruct sp as [s|]; cbn; rewrite Hc; reflexivity. }
  split; [exact Hround|]. split.
  - intros P mimeType ext fileContent id m req e.
    apply Hround. apply contentForLLM_tagged.
  - intros B [ty1 text1|ty1 data1 mime1|name1] [ty2 text2|ty2 data2 mime2|name2];
      cbn [Protocol.tagged Client.convert_content]; intros H1 H2 Heq;
      try discriminate.
    + apply String.eqb_eq in H1, H2. injection Heq as <-. congruence.
    + apply String.eqb_eq in H1, H2. injection Heq as <- <-. congruence.
Qed.

(** C6 at a concrete envelope: an image payload. *)
Lemma request_envelope_round_trip_witness :
  Protocol.tagged (Protocol.payload Demo.image_envelope) = true /\
  Protocol.decode_request (Protocol.encode_request Demo.image_envelope)
    = Some Demo.image_envelope.
Proof.
  assert (H : Protocol.tagged (Protocol.payload Demo.image_envelope) = true)
    by reflexivity.
  split; [exact H|].
  exact (proj1 request_envelope_round_trip Demo.image_envelope H).
Defined.

(** * Facts about the correlation layer *)

Section Expire.

Context (st : Protocol.Initiator).

Lemma expire_table_Some (id : Z) (e : Protocol.PendingEntry) :
  Protocol.table (Protocol.expire st) !! id = Some e <->
  Protocol.table st !! id = Some e /\ Protocol.now st < Protocol.deadline e.
Proof. unfold Protocol.expire. cbn. apply map_lookup_filter_Some. Qed.

Lemma expire_table_None (id : Z) :
  Protocol.table (Protocol.expire st) !! id = None <->
  forall e, Protocol.table st !! id = Some e -> Protocol.deadline e <= Protocol.now st.
Proof.
  unfold Protocol.expire. cbn. rewrite map_lookup_filter_None. cbn. split.
  - intros [Hn|Hall] e He; [congruence|]. specialize (Hall e He). lia.
  - intros Hall. destruct (Protocol.table st !! id) as [e|] eqn:He; [right|left; reflexivity].
    intros e' [= <-]. specialize (Hall e eq_refl). lia.
Qed.

Lemma expire_completed_Some (id : Z) (r : Protocol.Resolution) :
  Protocol.completed (Protocol.expire st) !! id = Some r <->
  Protocol.completed st !! id = Some r \/
  (Protocol.completed st !! id = None /\
   exists e, Protocol.table st !! id = Some e /\ Protocol.deadline e <= Protocol.now st /\
             r = Protocol.timed_out (Protocol.now st) e).
Proof.
  unfold Protocol.expire. cbn. rewrite lookup_union_Some_raw, lookup_fmap_Some.
  setoid_rewrite map_lookup_filter_Some. cbn. split.
  - intros [H|[Hn (e & Hr & He & Hd)]]; [left; exact H|right]. eauto 10.
  - intros [H|[Hn (e & He & Hd & Hr)]]; [left; exact H|right]. eauto 10.
Qed.

Lemma expire_completed_keeps (id : Z) (r : Protocol.Resolution) :
  Protocol.completed st !! id = Some r ->
  Protocol.completed (Protocol.expire st) !! id = Some r.
Proof. intros H. apply expire_completed_Some. left. exact H. Qed.

(** Nothing is due: the sweep changes nothing. *)
Lemma expire_nothing_due :
  (forall id e, Protocol.table st !! id = Some e -> Protocol.now st < Protocol.deadline e) ->
  Protocol.expire st = st.
Proof.
  intros Hall. unfold Protocol.expire. destruct st as [s n tb pu co sl]. cbn in *. f_equal.
  - apply map_eq. intros id. destruct (tb !! id) as [e|] eqn:He.
    + apply map_lookup_filter_Some. split; [exact He|]. cbn. eauto.
    + apply map_lookup_filter_None. left. exact He.
  - assert (Hnone : filter (fun kv : Z * Protocol.PendingEntry => Protocol.deadline kv.2 <= n) tb = ∅).
    { apply map_eq. intros id. rewrite lookup_empty. apply map_lookup_filter_None.
      destruct (tb !! id) as [e|] eqn:He; [right|left; reflexivity].
      intros e' [= <-]. cbn. specialize (Hall id e He). lia. }
    rewrite Hnone, fmap_empty. apply (right_id_L ∅ (∪)).
Qed.

End Expire.

Lemma accepts_spec (st : Protocol.Initiator) :
  accepts st = true <->
  Protocol.supportsSamplingPush (Protocol.peer (Protocol.session st)) = true /\
  Protocol.state (Protocol.session st) = Protocol.Active.
Proof.
  unfold accepts. rewrite andb_true_iff.
  destruct (Protocol.state (Protocol.session st)); intuition congruence.
Qed.

(** What [send] does, by cases on the gate. *)
Lemma send_cases (st : Protocol.Initiator) (env : Protocol.RequestEnvelope) (timeout : Z) :
  (accepts st = true /\
   Protocol.send st env timeout =
     ({| Protocol.session := Protocol.touch (Protocol.session st) (Protocol.now st);
         Protocol.now := Protocol.now st;
         Protocol.table :=
           <[Protocol.request_id env :=
               {| Protocol.entry_id := Protocol.request_id env;
                  Protocol.deadline := Protocol.now st + timeout;
                  Protocol.owner := Protocol.session_id (Protocol.session st) |}]>
             (Protocol.table st);
         Protocol.pushed := (Protocol.pushed st ++ [env])%list;
         Protocol.completed := Protocol.completed st;
         Protocol.stale := Protocol.stale st |}, None)) \/
  (accepts st = false /\
   exists f, Protocol.send st env timeout = (st, Some f) /\
             (f = Protocol.CapabilityNotSupported \/ f = Protocol.SessionClosed)).
Proof.
  unfold accepts, Protocol.send.
  destruct (Protocol.supportsSamplingPush (Protocol.peer (Protocol.session st))); cbn.
  - destruct (Protocol.state (Protocol.session st)); eauto 6.
  - right. eauto.
Qed.

(** What [deliver] does, by cases on the envelope and the table. *)
Lemma deliver_cases (st : Protocol.Initiator) (sid : string) (resp : Protocol.ResponseEnvelope) :
  (exists o e,
     Protocol.response_outcome resp = Some o /\
     Protocol.table st !! Protocol.response_id resp = Some e /\
     Protocol.owner e = sid /\
     Protocol.deliver st sid resp =
       {| Protocol.session := Protocol.touch (Protocol.session st) (Protocol.now st);
          Protocol.now := Protocol.now st;
          Protocol.table := delete (Protocol.response_id resp) (Protocol.table st);
          Protocol.pushed := Protocol.pushed st;
          Protocol.completed :=
            Protocol.fulfil (Protocol.response_id resp) o (Protocol.now st) (Protocol.completed st);
          Protocol.stale := Protocol.stale st |}) \/
  (same_but_counter (Protocol.deliver st sid resp) st /\
   (Protocol.response_outcome resp = None \/
    Protocol.table st !! Protocol.response_id resp = None \/
    exists e, Protocol.table st !! Protocol.response_id resp = Some e /\ Protocol.owner e <> sid)).
Proof.
  unfold Protocol.deliver, same_but_counter.
  destruct (Protocol.response_outcome resp) as [o|]; [|right; auto 10].
  destruct (Protocol.table st !! Protocol.response_id resp) as [e|] eqn:He;
    [|right; cbn; auto 10].
  destruct (String.eqb (Protocol.owner e) sid) eqn:Hsid.
  - apply String.eqb_eq in Hsid. left. exists o, e. auto.
  - apply String.eqb_neq in Hsid. right. cbn. split; [auto 10|].
    right. right. exists e. auto.
Qed.

Lemma fulfil_Some (id id' : Z) (o : Protocol.Outcome) (t : Z)
    (slots : gmap Z Protocol.Resolution) (r : Protocol.Resolution) :
  Protocol.fulfil id o t slots !! id' = Some r <->
  slots !! id' = Some r \/
  (id' = id /\ slots !! id = None /\
   r = {| Protocol.outcome := o; Protocol.resolved_at := t |}).
Proof.
  unfold Protocol.fulfil. destruct (slots !! id) as [r0|] eqn:Hid.
  - split; [auto|]. intros [H|(_ & H & _)]; [exact H|discriminate H].
  - rewrite lookup_insert_Some. split.
    + intros [[<- <-]|[Hne H]]; auto.
    + intros [H|(-> & _ & ->)]; [|auto].
      destruct (decide (id = id')) as [<-|Hne]; [congruence|auto].
Qed.

Lemma fulfil_keeps (id id' : Z) (o : Protocol.Outcome) (t : Z)
    (slots : gmap Z Protocol.Resolution) (r : Protocol.Resolution) :
  slots !! id' = Some r -> Protocol.fulfil id o t slots !! id' = Some r.
Proof. intros H. apply fulfil_Some. left. exact H. Qed.

Lemma run_snoc (st : Protocol.Initiator) (tr : list Protocol.Event) (ev : Protocol.Event) :
  Protocol.run st (tr ++ [ev]) = Protocol.step (Protocol.run st tr) ev.
Proof. unfold Protocol.run. rewrite fold_left_app. reflexivity. Qed.

Lemma run_app (st : Protocol.Initiator) (tr1 tr2 : list Protocol.Event) :
  Protocol.run st (tr1 ++ tr2) = Protocol.run (Protocol.run st tr1) tr2.
Proof. unfold Protocol.run. apply fold_left_app. Qed.

Lemma run_cons (st : Protocol.Initiator) (ev : Protocol.Event) (tr : list Protocol.Event) :
  Protocol.run st (ev :: tr) = Protocol.run (Protocol.step st ev) tr.
Proof. reflexivity. Qed.

Lemma ticks_app (tr1 tr2 : list Protocol.Event) : ticks (tr1 ++ tr2) = ticks tr1 + ticks tr2.
Proof.
  induction tr1 as [|ev tr1 IH]; [reflexivity|].
  destruct ev; cbn [ticks app]; rewrite IH; lia.
Qed.

Lemma ticks_nonneg (tr : list Protocol.Event) : 0 <= ticks tr.
Proof. induction tr as [|ev tr IH]; [reflexivity|]. destruct ev; cbn [ticks]; lia. Qed.

Lemma sent_ids_app (tr1 tr2 : list Protocol.Event) :
  sent_ids (tr1 ++ tr2) = (sent_ids tr1 ++ sent_ids tr2)%list.
Proof.
  induction tr1 as [|ev tr1 IH]; [reflexivity|].
  destruct ev; cbn [sent_ids app]; rewrite IH; reflexivity.
Qed.

Lemma now_step (st : Protocol.Initiator) (ev : Protocol.Event) :
  Protocol.now (Protocol.step st ev) = Protocol.now st + ticks [ev].
Proof.
  unfold Protocol.step. cbn [Protocol.expire Protocol.now].
  destruct ev as [|caps|env timeout|sid resp| | |]; cbn [Protocol.apply ticks].
  - destruct (Protocol.state _); cbn; lia.
  - destruct (Protocol.state _); cbn; lia.
  - destruct (send_cases st env timeout) as [[_ ->]|[_ (f & -> & _)]]; cbn; lia.
  - destruct (deliver_cases st sid resp) as [(o & e & _ & _ & _ & ->)|[(_ & -> & _) _]];
      cbn; lia.
  - cbn. lia.
  - unfold Protocol.close. destruct (Protocol.state _); cbn; lia.
  - destruct (Protocol.state _); cbn; lia.
Qed.

Lemma now_run (st : Protocol.Initiator) (tr : list Protocol.Event) :
  Protocol.now (Protocol.run st tr) = Protocol.now st + ticks tr.
Proof.
  induction tr as [|ev tr IH] using rev_ind; [cbn; lia|].
  rewrite run_snoc, now_step, IH, ticks_app. lia.
Qed.

Lemma session_id_step (st : Protocol.Initiator) (ev : Protocol.Event) :
  Protocol.session_id (Protocol.session (Protocol.step st ev)) =
  Protocol.session_id (Protocol.session st).
Proof.
  unfold Protocol.step. cbn [Protocol.expire Protocol.session].
  destruct ev as [|caps|env timeout|sid resp| | |]; cbn [Protocol.apply].
  - destruct (Protocol.state _); reflexivity.
  - destruct (Protocol.state _); reflexivity.
  - destruct (send_cases st env timeout) as [[_ ->]|[_ (f & -> & _)]]; reflexivity.
  - destruct (deliver_cases st sid resp) as [(o & e & _ & _ & _ & ->)|[(-> & _) _]];
      reflexivity.
  - reflexivity.
  - unfold Protocol.close. destruct (Protocol.state _); reflexivity.
  - destruct (Protocol.state _); reflexivity.
Qed.

Lemma session_id_run (sid : string) (t0 : Z) (tr : list Protocol.Event) :
  Protocol.session_id (Protocol.session (Protocol.run (Protocol.open_session sid t0) tr)) = sid.
Proof.
  induction tr as [|ev tr IH] using rev_ind; [reflexivity|].
  rewrite run_snoc, session_id_step. exact IH.
Qed.

Section Apply.

Context (st : Protocol.Initiator) (ev : Protocol.Event) (id : Z).

(** An entry found after an event was there before, or was just
    registered by an accepted send. *)
Lemma apply_table_Some (e : Protocol.PendingEntry) :
  Protocol.table (Protocol.apply ev st) !! id = Some e ->
  Protocol.table st !! id = Some e \/
  exists env timeout,
    ev = Protocol.Send env timeout /\ Protocol.request_id env = id /\ accepts st = true /\
    e = {| Protocol.entry_id := id; Protocol.deadline := Protocol.now st + timeout;
           Protocol.owner := Protocol.session_id (Protocol.session st) |}.
Proof.
  destruct ev as [|caps|env timeout|sid resp| | |]; cbn [Protocol.apply].
  - destruct (Protocol.state _); cbn; auto.
  - destruct (Protocol.state _); cbn; auto.
  - destruct (send_cases st env timeout) as [[Hacc ->]|[_ (f & -> & _)]]; cbn; [|auto].
    rewrite lookup_insert_Some. intros [[<- <-]|[_ H]]; [right|auto]. eauto 10.
  - destruct (deliver_cases st sid resp) as [(o & e' & _ & _ & _ & ->)|[(_ & _ & -> & _) _]];
      cbn; [|auto].
    rewrite lookup_delete_Some. intros [_ H]. auto.
  - cbn. auto.
  - unfold Protocol.close. destruct (Protocol.state _); cbn; auto.
    rewrite lookup_empty. discriminate.
  - destruct (Protocol.state _); cbn; auto.
Qed.

(** An entry that survives an event was not resolved by it. *)
Lemma apply_table_unresolved (e : Protocol.PendingEntry) :
  Protocol.table st !! id = Some e ->
  Protocol.owner e = Protocol.session_id (Protocol.session st) ->
  (Protocol.state (Protocol.session st) <> Protocol.Active -> Protocol.table st = ∅) ->
  is_Some (Protocol.table (Protocol.apply ev st) !! id) ->
  ~ resolves (Protocol.session_id (Protocol.session st)) id ev.
Proof.
  intros He Hown Hidle Hafter Hres.
  destruct ev as [|caps|env timeout|sid resp| | |]; cbn [resolves] in Hres; try contradiction.
  - destruct Hres as (-> & Hid & Hout). cbn [Protocol.apply] in Hafter.
    destruct (deliver_cases st (Protocol.session_id (Protocol.session st)) resp)
      as [(o & e' & _ & _ & _ & Heq)|[_ [Hn|[Hn|(e' & He' & Hne)]]]].
    + rewrite Heq in Hafter. cbn in Hafter. rewrite Hid, lookup_delete_eq in Hafter.
      destruct Hafter as [? [=]].
    + rewrite Hn in Hout. destruct Hout as [? [=]].
    + congruence.
    + rewrite Hid, He in He'. injection He' as <-. contradiction.
  - cbn [Protocol.apply] in Hafter. unfold Protocol.close in Hafter.
    destruct (Protocol.state (Protocol.session st)) eqn:Hs;
      try (rewrite Hidle in He by discriminate; rewrite lookup_empty in He; discriminate He).
    cbn in Hafter. rewrite lookup_empty in Hafter. destruct Hafter as [? [=]].
Qed.

(** An entry stays through an event that neither resolves it nor reuses
    its identifier. *)
Lemma apply_table_keep (e : Protocol.PendingEntry) :
  Protocol.table st !! id = Some e ->
  Protocol.owner e = Protocol.session_id (Protocol.session st) ->
  ~ resolves (Protocol.session_id (Protocol.session st)) id ev ->
  (forall env timeout, ev = Protocol.Send env timeout -> Protocol.request_id env <> id) ->
  Protocol.table (Protocol.apply ev st) !! id = Some e.
Proof.
  intros He Hown Hres Hfresh.
  destruct ev as [|caps|env timeout|sid resp| | |]; cbn [Protocol.apply].
  - destruct (Protocol.state _); cbn; auto.
  - destruct (Protocol.state _); cbn; auto.
  - specialize (Hfresh env timeout eq_refl).
    destruct (send_cases st env timeout) as [[Hacc ->]|[_ (f & -> & _)]]; cbn; [|auto].
    rewrite lookup_insert_ne by exact Hfresh. exact He.
  - destruct (deliver_cases st sid resp)
      as [(o & e' & Ho & He' & Hown' & ->)|[(_ & _ & -> & _) _]]; cbn; [|auto].
    destruct (decide (Protocol.response_id resp = id)) as [Heq|Hne].
    + exfalso. apply Hres. cbn. rewrite Heq, He in He'. injection He' as <-.
      rewrite Ho. split; [congruence|]. split; [exact Heq|]. eauto.
    + rewrite lookup_delete_ne by exact Hne. exact He.
  - cbn. exact He.
  - exfalso. apply Hres. exact I.
  - destruct (Protocol.state _); cbn; auto.
Qed.

(** A fulfilled slot is never rewritten. *)
Lemma apply_completed_keeps (r : Protocol.Resolution) :
  Protocol.completed st !! id = Some r ->
  Protocol.completed (Protocol.apply ev st) !! id = Some r.
Proof.
  intros Hr.
  destruct ev as [|caps|env timeout|sid resp| | |]; cbn [Protocol.apply].
  - destruct (Protocol.state _); cbn; auto.
  - destruct (Protocol.state _); cbn; auto.
  - destruct (send_cases st env timeout) as [[Hacc ->]|[_ (f & -> & _)]]; cbn; auto.
  - destruct (deliver_cases st sid resp)
      as [(o & e' & _ & _ & _ & ->)|[(_ & _ & _ & _ & ->) _]]; cbn; [|auto].
    apply fulfil_keeps. exact Hr.
  - cbn. exact Hr.
  - unfold Protocol.close. destruct (Protocol.state _); cbn; auto.
    apply lookup_union_Some_l. exact Hr.
  - destruct (Protocol.state _); cbn; auto.
Qed.

(** A slot fulfilled by an event belonged to an entry of the table, which
    the event removed; the resolution is stamped with the current time. *)
Lemma apply_completed_new (r : Protocol.Resolution) :
  Protocol.completed st !! id = None ->
  Protocol.completed (Protocol.apply ev st) !! id = Some r ->
  is_Some (Protocol.table st !! id) /\
  Protocol.table (Protocol.apply ev st) !! id = None /\
  Protocol.resolved_at r = Protocol.now st /\
  exists sid, resolves sid id ev.
Proof.
  intros Hn.
  destruct ev as [|caps|env timeout|sid resp| | |]; cbn [Protocol.apply].
  - destruct (Protocol.state _); cbn; congruence.
  - destruct (Protocol.state _); cbn; congruence.
  - destruct (send_cases st env timeout) as [[Hacc ->]|[_ (f & -> & _)]]; cbn; congruence.
  - destruct (deliver_cases st sid resp)
      as [(o & e' & Ho & He' & _ & ->)|[(_ & _ & _ & _ & ->) _]]; cbn; [|congruence].
    rewrite fulfil_Some. intros [H|(-> & _ & ->)]; [congruence|].
    rewrite lookup_delete_eq, He'. cbn.
    split; [eauto|]. split; [reflexivity|]. split; [reflexivity|].
    exists sid. rewrite Ho. eauto.
  - cbn. congruence.
  - unfold Protocol.close. destruct (Protocol.state _); cbn; try congruence.
    rewrite lookup_union_Some_raw, lookup_fmap_Some.
    intros [H|[_ (e & <- & He)]]; [congruence|].
    rewrite lookup_empty, He. cbn.
    split; [eauto|]. split; [reflexivity|]. split; [reflexivity|].
    exists EmptyString. exact I.
  - destruct (Protocol.state _); cbn; congruence.
Qed.

(** An event that does not resolve a request leaves its slot alone. *)
Lemma apply_completed_unresolved (sid : string) :
  ~ resolves sid id ev ->
  (forall e, Protocol.table st !! id = Some e -> Protocol.owner e = sid) ->
  Protocol.completed (Protocol.apply ev st) !! id = Protocol.completed st !! id.
Proof.
  intros Hres Hown.
  destruct ev as [|caps|env timeout|sid' resp| | |]; cbn [Protocol.apply].
  - destruct (Protocol.state _); cbn; auto.
  - destruct (Protocol.state _); cbn; auto.
  - destruct (send_cases st env timeout) as [[Hacc ->]|[_ (f & -> & _)]]; cbn; auto.
  - destruct (deliver_cases st sid' resp)
      as [(o & e' & Ho & He' & Hown' & ->)|[(_ & _ & _ & _ & ->) _]]; cbn; [|auto].
    destruct (decide (Protocol.response_id resp = id)) as [Heq|Hne].
    + exfalso. apply Hres. cbn. rewrite Heq in He'. rewrite Ho.
      split; [|split; eauto]. rewrite <- Hown'. eauto.
    + unfold Protocol.fulfil. destruct (Protocol.completed st !! Protocol.response_id resp);
        [reflexivity|]. apply lookup_insert_ne. exact Hne.
  - cbn. reflexivity.
  - exfalso. apply Hres. exact I.
  - destruct (Protocol.state _); cbn; auto.
Qed.

End Apply.

(** Outside the [Active] state the table is empty, and stays so. *)
Lemma step_idle (st : Protocol.Initiator) (ev : Protocol.Event) :
  (Protocol.state (Protocol.session st) <> Protocol.Active -> Protocol.table st = ∅) ->
  Protocol.state (Protocol.session (Protocol.step st ev)) <> Protocol.Active ->
  Protocol.table (Protocol.step st ev) = ∅.
Proof.
  intros Hidle. unfold Protocol.step. cbn [Protocol.expire Protocol.session Protocol.table].
  intros Hs.
  assert (Hempty : Protocol.table (Protocol.apply ev st) = ∅).
  { destruct ev as [|caps|env timeout|sid resp| | |]; cbn [Protocol.apply] in *.
    - destruct (Protocol.state (Protocol.session st)) eqn:Hst; cbn in *;
        try (apply Hidle; congruence); try congruence.
    - destruct (Protocol.state (Protocol.session st)) eqn:Hst; cbn in *;
        try (apply Hidle; congruence); try congruence.
    - destruct (send_cases st env timeout) as [[Hacc Heq]|[_ (f & Heq & _)]];
        rewrite Heq in *; cbn in *; [|auto].
      apply accepts_spec in Hacc. destruct Hacc as [_ Hacc]. contradiction.
    - destruct (deliver_cases st sid resp)
        as [(o & e' & _ & _ & _ & Heq)|[(Hsess & _ & Htab & _) _]].
      + rewrite Heq in *. cbn in *. rewrite (Hidle Hs). apply delete_empty.
      + rewrite Htab. apply Hidle. rewrite <- Hsess. exact Hs.
    - cbn in *. auto.
    - unfold Protocol.close in *.
      destruct (Protocol.state (Protocol.session st)) eqn:Hst; cbn in *;
        try (apply Hidle; congruence); try reflexivity.
    - destruct (Protocol.state (Protocol.session st)) eqn:Hst; cbn in *;
        try (apply Hidle; congruence); try congruence. }
  rewrite Hempty. apply map_filter_empty.
Qed.

(** What holds of every state a session can reach. *)
Lemma reachable_invariant (sid : string) (t0 : Z) (tr : list Protocol.Event) :
  let st := Protocol.run (Protocol.open_session sid t0) tr in
  (Protocol.state (Protocol.session st) <> Protocol.Active -> Protocol.table st = ∅) /\
  (forall id e, Protocol.table st !! id = Some e ->
     Protocol.entry_id e = id /\ Protocol.owner e = sid /\
     Protocol.now st < Protocol.deadline e /\ In id (sent_ids tr)) /\
  (forall id r, Protocol.completed st !! id = Some r -> In id (sent_ids tr)).
Proof.
  induction tr as [|ev tr IH] using rev_ind.
  { cbn. split; [reflexivity|]. split; intros id x; rewrite lookup_empty; discriminate. }
  cbv zeta in *. rewrite run_snoc.
  set (st := Protocol.run (Protocol.open_session sid t0) tr) in *.
  destruct IH as (Hidle & Htab & Hcom).
  assert (Hsid : Protocol.session_id (Protocol.session st) = sid)
    by apply session_id_run.
  assert (Hnew : forall id e, Protocol.table (Protocol.apply ev st) !! id = Some e ->
            Protocol.entry_id e = id /\ Protocol.owner e = sid /\ In id (sent_ids (tr ++ [ev]))).
  { intros id e He. rewrite sent_ids_app, in_app_iff.
    destruct (apply_table_Some st ev id e He) as [Hold|(env & timeout & -> & Hid & _ & ->)].
    - destruct (Htab id e Hold) as (? & ? & _ & ?). auto.
    - cbn. auto. }
  split; [apply step_idle; exact Hidle|]. split.
  - intros id e He. unfold Protocol.step in He. apply expire_table_Some in He.
    destruct He as [He Hnow]. destruct (Hnew id e He) as (? & ? & ?).
    unfold Protocol.step. cbn [Protocol.expire Protocol.now]. auto.
  - intros id r Hr. unfold Protocol.step in Hr. apply expire_completed_Some in Hr.
    destruct Hr as [Hr|(_ & e & He & _)]; [|apply (Hnew id e He)].
    destruct (Protocol.completed st !! id) as [r0|] eqn:Hold.
    + rewrite sent_ids_app, in_app_iff. left. eapply Hcom. exact Hold.
    + destruct (apply_completed_new st ev id r Hold Hr) as ([e He] & _).
      rewrite sent_ids_app, in_app_iff. left. apply (Htab id e He).
Qed.

(** In a reachable state nothing is due, so a sweep changes nothing. *)
Lemma reachable_expire (sid : string) (t0 : Z) (tr : list Protocol.Event) :
  Protocol.expire (Protocol.run (Protocol.open_session sid t0) tr) =
  Protocol.run (Protocol.open_session sid t0) tr.
Proof.
  apply expire_nothing_due. intros id e He.
  apply (reachable_invariant sid t0 tr) in He. tauto.
Qed.

Lemma collision_free_app_l (tr1 tr2 : list Protocol.Event) :
  collision_free (tr1 ++ tr2) -> collision_free tr1.
Proof.
  unfold collision_free. rewrite sent_ids_app. intros H. apply NoDup_app in H. tauto.
Qed.

Lemma collision_free_snoc_send (tr : list Protocol.Event) (env : Protocol.RequestEnvelope)
    (timeout : Z) :
  collision_free (tr ++ [Protocol.Send env timeout]) ->
  ~ In (Protocol.request_id env) (sent_ids tr).
Proof.
  unfold collision_free. rewrite sent_ids_app. cbn. intros H Hin.
  apply NoDup_app in H. destruct H as (_ & Hdis & _).
  apply (Hdis (Protocol.request_id env)); [apply list_elem_of_In; exact Hin|].
  apply list_elem_of_In. left. reflexivity.
Qed.

Lemma now_apply (st : Protocol.Initiator) (ev : Protocol.Event) :
  Protocol.now (Protocol.apply ev st) = Protocol.now st + ticks [ev].
Proof. exact (now_step st ev). Qed.

(** The entries of the table, described by the trace that built it. *)
Lemma pending_characterization (sid : string) (t0 : Z) (tr : list Protocol.Event) :
  collision_free tr ->
  forall (id : Z) (e : Protocol.PendingEntry),
    Protocol.table (Protocol.run (Protocol.open_session sid t0) tr) !! id = Some e <->
    exists (pre : list Protocol.Event) env timeout (post : list Protocol.Event),
      tr = (pre ++ Protocol.Send env timeout :: post)%list /\
      Protocol.request_id env = id /\
      accepts (Protocol.run (Protocol.open_session sid t0) pre) = true /\
      Forall (fun ev => ~ resolves sid id ev) post /\
      ticks post < timeout /\
      e = {| Protocol.entry_id := id;
             Protocol.deadline :=
               Protocol.now (Protocol.run (Protocol.open_session sid t0) pre) + timeout;
             Protocol.owner := sid |}.
Proof.
  induction tr as [|ev tr IH] using rev_ind; intros Hcf id e.
  { cbn. rewrite lookup_empty. split; [discriminate|].
    intros (pre & env & timeout & post & Heq & _). destruct pre; discriminate Heq. }
  specialize (IH (collision_free_app_l _ _ Hcf)).
  rewrite run_snoc.
  set (st0 := Protocol.open_session sid t0) in *.
  set (st := Protocol.run st0 tr) in *.
  assert (Hsid : Protocol.session_id (Protocol.session st) = sid) by apply session_id_run.
  destruct (reachable_invariant sid t0 tr) as (Hidle & Htab & _). fold st0 st in Hidle, Htab.
  unfold Protocol.step. rewrite expire_table_Some, now_apply. split.
  - intros [He Hnow].
    destruct (apply_table_Some st ev id e He) as [Hold|(env & timeout & -> & Hid & Hacc & ->)].
    + pose proof Hold as Hold'. apply IH in Hold'.
      destruct Hold' as (pre & env & timeout & post & Htr & Hid & Hacc & Hun & Hticks & Hent).
      exists pre, env, timeout, (post ++ [ev])%list.
      split; [rewrite Htr, <- app_assoc; reflexivity|].
      split; [exact Hid|]. split; [exact Hacc|].
      split.
      { apply Forall_app. split; [exact Hun|]. constructor; [|constructor].
        rewrite <- Hsid. apply (apply_table_unresolved st ev id e Hold).
        - rewrite Hsid. apply (Htab id e Hold).
        - exact Hidle.
        - eauto. }
      split; [|exact Hent].
      rewrite ticks_app.
      assert (Hst : Protocol.now st = Protocol.now (Protocol.run st0 pre) + ticks post).
      { unfold st. rewrite Htr, run_app, now_run. cbn [ticks]. reflexivity. }
      rewrite Hent in Hnow. cbn [Protocol.deadline] in Hnow. lia.
    + exists tr, env, timeout, []. cbn [ticks Protocol.deadline] in *.
      split; [reflexivity|]. split; [exact Hid|]. split; [exact Hacc|].
      split; [constructor|]. split; [lia|]. rewrite Hsid. reflexivity.
  - intros (pre & env & timeout & post & Htr & Hid & Hacc & Hun & Hticks & Hent).
    destruct post as [|ev' post' _] using rev_ind.
    + apply app_inj_tail in Htr. destruct Htr as [-> ->].
      cbn [ticks] in *. fold st0 st in Hacc. cbn [Protocol.apply].
      destruct (send_cases st env timeout) as [[_ ->]|[Hrej _]]; [|congruence].
      cbn [fst Protocol.table]. rewrite Hid, lookup_insert_eq, Hent, Hsid. fold st.
      split; [reflexivity|]. cbn [Protocol.deadline]. lia.
    + rewrite app_comm_cons, app_assoc in Htr. apply app_inj_tail in Htr.
      destruct Htr as [Htr <-].
      apply Forall_app in Hun. destruct Hun as [Hun Hev].
      apply Forall_inv in Hev.
      rewrite ticks_app in Hticks. pose proof (ticks_nonneg [ev]) as Hev0.
      assert (Hold : Protocol.table st !! id = Some e).
      { apply IH. exists pre, env, timeout, post'.
        split; [exact Htr|]. split; [exact Hid|]. split; [exact Hacc|].
        split; [exact Hun|]. split; [lia|exact Hent]. }
      assert (Hst : Protocol.now st = Protocol.now (Protocol.run st0 pre) + ticks post').
      { unfold st. rewrite Htr, run_app, now_run. cbn [ticks]. reflexivity. }
      split.
      * apply apply_table_keep; [exact Hold| | |].
        -- rewrite Hsid. apply (Htab id e Hold).
        -- rewrite Hsid. exact Hev.
        -- intros env' timeout' ->. apply collision_free_snoc_send in Hcf.
           intros Heq. apply Hcf. rewrite Heq. apply (Htab id e Hold).
      * rewrite Hent. cbn [Protocol.deadline]. lia.
Qed.

(** Single assignment: a fulfilled slot keeps its value. *)
Lemma step_completed_keeps (st : Protocol.Initiator) (ev : Protocol.Event) (id : Z)
    (r : Protocol.Resolution) :
  Protocol.completed st !! id = Some r ->
  Protocol.completed (Protocol.step st ev) !! id = Some r.
Proof.
  intros Hr. unfold Protocol.step.
  apply expire_completed_keeps, apply_completed_keeps. exact Hr.
Qed.

Lemma run_completed_keeps (st : Protocol.Initiator) (tr : list Protocol.Event) (id : Z)
    (r : Protocol.Resolution) :
  Protocol.completed st !! id = Some r ->
  Protocol.completed (Protocol.run st tr) !! id = Some r.
Proof.
  revert st. induction tr as [|ev tr IH]; intros st Hr; [exact Hr|].
  rewrite run_cons. apply IH, step_completed_keeps. exact Hr.
Qed.

(** A resolved request is no longer pending. *)
Lemma resolved_not_pending (sid : string) (t0 : Z) (tr : list Protocol.Event) :
  collision_free tr ->
  forall id : Z,
    is_Some (Protocol.completed (Protocol.run (Protocol.open_session sid t0) tr) !! id) ->
    Protocol.table (Protocol.run (Protocol.open_session sid t0) tr) !! id = None.
Proof.
  induction tr as [|ev tr IH] using rev_ind; intros Hcf id.
  { cbn. rewrite lookup_empty. intros [? [=]]. }
  specialize (IH (collision_free_app_l _ _ Hcf)).
  rewrite run_snoc.
  set (st := Protocol.run (Protocol.open_session sid t0) tr) in *.
  destruct (reachable_invariant sid t0 tr) as (_ & _ & Hcom). fold st in Hcom.
  intros [r Hr].
  destruct (Protocol.table (Protocol.step st ev) !! id) as [e|] eqn:He; [exfalso|reflexivity].
  unfold Protocol.step in He, Hr.
  apply expire_table_Some in He. destruct He as [He Hnow].
  apply expire_completed_Some in Hr.
  destruct Hr as [Hr|(_ & e' & He' & Hdue & _)].
  - destruct (Protocol.completed st !! id) as [r0|] eqn:Hold.
    + destruct (apply_table_Some st ev id e He) as [Hpend|(env & timeout & -> & Hid & _)].
      * rewrite IH in Hpend by eauto. discriminate Hpend.
      * apply collision_free_snoc_send in Hcf. apply Hcf. rewrite Hid. eauto.
    + destruct (apply_completed_new st ev id r Hold Hr) as (_ & Hgone & _). congruence.
  - rewrite He in He'. injection He' as <-. lia.
Qed.

Lemma expire_same_but_counter (a b : Protocol.Initiator) :
  same_but_counter a b -> same_but_counter (Protocol.expire a) (Protocol.expire b).
Proof.
  unfold same_but_counter, Protocol.expire. cbn.
  intros (-> & -> & -> & -> & ->). auto.
Qed.

(** A response for an identifier that is not pending changes nothing
    but the diagnostic counter. *)
Lemma stale_deliver_noop (sid : string) (t0 : Z) (tr : list Protocol.Event)
    (sid' : string) (resp : Protocol.ResponseEnvelope) :
  let st := Protocol.run (Protocol.open_session sid t0) tr in
  Protocol.table st !! Protocol.response_id resp = None ->
  same_but_counter (Protocol.step st (Protocol.Deliver sid' resp)) st.
Proof.
  intros st Hnone. unfold Protocol.step. cbn [Protocol.apply].
  assert (Hsame : same_but_counter (Protocol.deliver st sid' resp) st).
  { destruct (deliver_cases st sid' resp) as [(o & e & _ & He & _)|[Hsame _]];
      [congruence|exact Hsame]. }
  apply expire_same_but_counter in Hsame.
  unfold st in Hsame at 2. rewrite reachable_expire in Hsame. exact Hsame.
Qed.

(** C1: in every state a session reaches with collision-free request
    identifiers,
    - an identifier is in the pending request table exactly when its
      request was sent and accepted and no response, timeout or closure
      has resolved it since;
    - two entries with the same identifier are the same entry;
    - a fulfilled completion slot keeps its value through every later
      event, and a resolved identifier is not in the table;
    - once a response has resolved an identifier, the identifier is gone
      from the table and a second response for it changes nothing but the
      diagnostic counter. *)
Theorem pending_table_invariant (sid : string) (t0 : Z) (tr : list Protocol.Event) :
  collision_free tr ->
  let st := Protocol.run (Protocol.open_session sid t0) tr in
  (forall id : Z, id ∈ dom (Protocol.table st) <-> outstanding sid t0 tr id) /\
  (forall (k1 k2 : Z) (e1 e2 : Protocol.PendingEntry),
     Protocol.table st !! k1 = Some e1 -> Protocol.table st !! k2 = Some e2 ->
     Protocol.entry_id e1 = Protocol.entry_id e2 -> k1 = k2 /\ e1 = e2) /\
  (forall (id : Z) (r : Protocol.Resolution) (later : list Protocol.Event),
     Protocol.completed st !! id = Some r ->
     Protocol.table st !! id = None /\
     Protocol.completed (Protocol.run st later) !! id = Some r) /\
  (forall (resp : Protocol.ResponseEnvelope),
     is_Some (Protocol.table st !! Protocol.response_id resp) ->
     is_Some (Protocol.response_outcome resp) ->
     let st1 := Protocol.step st (Protocol.Deliver sid resp) in
     Protocol.table st1 !! Protocol.response_id resp = None /\
     is_Some (Protocol.completed st1 !! Protocol.response_id resp) /\
     forall (sid' : string) (late : Protocol.ResponseEnvelope),
       Protocol.response_id late = Protocol.response_id resp ->
       same_but_counter (Protocol.step st1 (Protocol.Deliver sid' late)) st1).
Proof.
  intros Hcf st.
  pose proof (pending_characterization sid t0 tr Hcf) as Hchar. fold st in Hchar.
  destruct (reachable_invariant sid t0 tr) as (_ & Htab & _). fold st in Htab.
  split; [|split; [|split]].
  - intros id. rewrite elem_of_dom. unfold outstanding. split.
    + intros [e He]. apply Hchar in He.
      destruct He as (pre & env & timeout & post & ? & ? & ? & ? & ? & _). eauto 10.
    + intros (pre & env & timeout & post & ? & ? & ? & ? & ?).
      eexists. apply Hchar. eauto 12.
  - intros k1 k2 e1 e2 H1 H2 Heq.
    destruct (Htab k1 e1 H1) as (Hk1 & _). destruct (Htab k2 e2 H2) as (Hk2 & _).
    assert (Hk : k1 = k2) by congruence.
    split; [exact Hk|]. rewrite Hk in H1. congruence.
  - intros id r later Hr. split.
    + apply (resolved_not_pending sid t0 tr Hcf). eauto.
    + apply run_completed_keeps. exact Hr.
  - intros resp [e He] [o Ho] st1.
    assert (Hcf1 : collision_free (tr ++ [Protocol.Deliver sid resp])).
    { unfold collision_free. rewrite sent_ids_app. cbn. rewrite app_nil_r. exact Hcf. }
    assert (Hst1 : st1 = Protocol.run (Protocol.open_session sid t0)
                           (tr ++ [Protocol.Deliver sid resp])).
    { unfold st1, st. rewrite run_snoc. reflexivity. }
    assert (Hdone : is_Some (Protocol.completed st1 !! Protocol.response_id resp)).
    { unfold st1, Protocol.step. cbn [Protocol.apply].
      destruct (deliver_cases st sid resp)
        as [(o' & e' & _ & _ & _ & Heq)|[_ [Hn|[Hn|(e' & He' & Hne)]]]].
      - rewrite Heq.
        destruct (Protocol.completed st !! Protocol.response_id resp) as [r0|] eqn:Hr0.
        + exists r0. apply expire_completed_keeps. cbn. apply fulfil_keeps. exact Hr0.
        + eexists. apply expire_completed_keeps. cbn. apply fulfil_Some. right. eauto.
      - congruence.
      - congruence.
      - rewrite He in He'. injection He' as <-. exfalso. apply Hne. apply (Htab _ _ He). }
    assert (Hgone : Protocol.table st1 !! Protocol.response_id resp = None).
    { rewrite Hst1. apply (resolved_not_pending sid t0 _ Hcf1). rewrite <- Hst1. exact Hdone. }
    split; [exact Hgone|]. split; [exact Hdone|].
    intros sid' late Hid. rewrite Hst1.
    apply (stale_deliver_noop sid t0 (tr ++ [Protocol.Deliver sid resp]) sid' late).
    rewrite <- Hst1, Hid. exact Hgone.
Qed.

Lemma ticks_single_le (ev : Protocol.Event) : ticks [ev] <= 1.
Proof. destruct ev; cbn; lia. Qed.

(** An entry removed by an event was resolved by it, and its slot
    fulfilled at the current time. *)
Lemma apply_table_removed (st : Protocol.Initiator) (ev : Protocol.Event) (id : Z)
    (e : Protocol.PendingEntry) :
  Protocol.table st !! id = Some e ->
  Protocol.completed st !! id = None ->
  Protocol.table (Protocol.apply ev st) !! id = None ->
  exists r, Protocol.completed (Protocol.apply ev st) !! id = Some r /\
            Protocol.resolved_at r = Protocol.now st /\
            resolves (Protocol.owner e) id ev.
Proof.
  intros He Hn.
  destruct ev as [|caps|env timeout|sid resp| | |]; cbn [Protocol.apply].
  - destruct (Protocol.state _); cbn; congruence.
  - destruct (Protocol.state _); cbn; congruence.
  - destruct (send_cases st env timeout) as [[Hacc ->]|[_ (f & -> & _)]]; cbn; [|congruence].
    rewrite lookup_insert_None. intros [? _]. congruence.
  - destruct (deliver_cases st sid resp)
      as [(o & e' & Ho & He' & Hown & ->)|[(_ & _ & -> & _) _]]; cbn; [|congruence].
    rewrite lookup_delete_None. intros [Hid|Hc]; [|congruence].
    rewrite Hid in He'. rewrite He in He'. injection He' as <-.
    eexists. split; [apply fulfil_Some; right; rewrite Hid; eauto|].
    split; [reflexivity|]. rewrite Ho. cbn. eauto.
  - cbn. congruence.
  - unfold Protocol.close. destruct (Protocol.state _); cbn; try congruence.
    intros _. exists (Protocol.session_closed (Protocol.now st) e).
    split; [|split; [reflexivity|exact I]].
    rewrite lookup_union_r by exact Hn. rewrite lookup_fmap, He. reflexivity.
  - destruct (Protocol.state _); cbn; congruence.
Qed.

(** The fate of one accepted request along the events that follow it:
    either it is still pending, its slot empty and its deadline ahead, or
    it has left the table and its slot holds an outcome stamped no later
    than the deadline, which is [Timeout] at the deadline when no response
    or closure came first. *)
Lemma request_fate (sid : string) (t0 : Z) (pre : list Protocol.Event)
    (env : Protocol.RequestEnvelope) (timeout : Z) (mid : list Protocol.Event) :
  collision_free (pre ++ Protocol.Send env timeout :: mid) ->
  accepts (Protocol.run (Protocol.open_session sid t0) pre) = true ->
  let st0 := Protocol.run (Protocol.open_session sid t0) pre in
  let id := Protocol.request_id env in
  let e0 := {| Protocol.entry_id := id; Protocol.deadline := Protocol.now st0 + timeout;
               Protocol.owner := sid |} in
  let bound := Protocol.now st0 + Z.max 0 timeout in
  let s := Protocol.run st0 (Protocol.Send env timeout :: mid) in
  (Protocol.table s !! id = Some e0 /\ Protocol.completed s !! id = None /\
   Protocol.now s < Protocol.deadline e0) \/
  (Protocol.table s !! id = None /\
   exists r, Protocol.completed s !! id = Some r /\ Protocol.resolved_at r <= bound /\
     (Forall (fun ev => ~ resolves sid id ev) mid ->
      r = {| Protocol.outcome := Protocol.Failed Protocol.Timeout;
             Protocol.resolved_at := bound |})).
Proof.
  intros Hcf Hacc st0 id e0 bound.
  induction mid as [|ev mid IH] using rev_ind; intros s.
  - unfold s. rewrite run_cons. cbn [Protocol.run fold_left]. unfold Protocol.step.
    cbn [Protocol.apply].
    assert (Hfresh : Protocol.completed st0 !! id = None).
    { destruct (Protocol.completed st0 !! id) as [r|] eqn:Hr; [exfalso|reflexivity].
      destruct (reachable_invariant sid t0 pre) as (_ & _ & Hcom).
      apply (Hcom id r) in Hr. unfold collision_free in Hcf.
      rewrite sent_ids_app in Hcf. cbn in Hcf. apply NoDup_app in Hcf.
      destruct Hcf as (_ & Hdis & _). apply (Hdis id); [apply list_elem_of_In; exact Hr|].
      apply list_elem_of_In. left. reflexivity. }
    destruct (send_cases st0 env timeout) as [[_ ->]|[Hrej _]]; [|unfold st0 in Hrej; congruence].
    assert (Hsid0 : Protocol.session_id (Protocol.session st0) = sid)
      by apply session_id_run.
    cbn [fst]. rewrite Hsid0. fold id e0.
    destruct (Z_lt_le_dec 0 timeout) as [Hpos|Hneg].
    + left. split; [|split].
      * apply expire_table_Some. cbn. rewrite lookup_insert_eq. split; [reflexivity|lia].
      * destruct (Protocol.completed (Protocol.expire _) !! id) as [r|] eqn:Hr; [|reflexivity].
        apply expire_completed_Some in Hr. cbn in Hr.
        destruct Hr as [Hr|(_ & e & He & Hdue & _)]; [congruence|].
        rewrite lookup_insert_eq in He. injection He as <-. cbn in Hdue. lia.
      * cbn. lia.
    + right. split.
      * apply expire_table_None. cbn. intros e. rewrite lookup_insert_eq.
        intros [= <-]. cbn. lia.
      * exists (Protocol.timed_out (Protocol.now st0) e0). split; [|split].
        -- apply expire_completed_Some. right. cbn. split; [exact Hfresh|].
           exists e0. rewrite lookup_insert_eq. split; [reflexivity|].
           split; [unfold e0; cbn; lia|reflexivity].
        -- cbn. unfold bound. lia.
        -- intros _. unfold Protocol.timed_out, bound. f_equal. lia.
  - assert (Hcf' : collision_free (pre ++ Protocol.Send env timeout :: mid)).
    { rewrite app_comm_cons, app_assoc in Hcf. exact (collision_free_app_l _ _ Hcf). }
    specialize (IH Hcf'). cbv zeta in IH.
    set (s0 := Protocol.run st0 (Protocol.Send env timeout :: mid)) in *.
    assert (Hs : s = Protocol.step s0 ev).
    { unfold s, s0. rewrite app_comm_cons, run_app. reflexivity. }
    assert (Hreach : s0 = Protocol.run (Protocol.open_session sid t0)
                            (pre ++ Protocol.Send env timeout :: mid)).
    { unfold s0, st0. rewrite run_app. reflexivity. }
    assert (Hsid : Protocol.session_id (Protocol.session s0) = sid).
    { rewrite Hreach. apply session_id_run. }
    assert (Hnotsend : forall env' timeout',
              ev = Protocol.Send env' timeout' -> Protocol.request_id env' <> id).
    { intros env' timeout' -> Heq.
      rewrite app_comm_cons, app_assoc in Hcf. apply collision_free_snoc_send in Hcf.
      apply Hcf. rewrite sent_ids_app. apply in_app_iff. right. cbn. left. symmetry. exact Heq. }
    assert (Hnow0 : Protocol.now st0 <= Protocol.now s0).
    { unfold s0. rewrite now_run. pose proof (ticks_nonneg (Protocol.Send env timeout :: mid)).
      lia. }
    rewrite Hs. unfold Protocol.step.
    destruct IH as [(Hpend & Hempty & Hahead)|(Hgone & r & Hr & Hle & Htimeout)].
    + unfold e0 in Hahead. cbn [Protocol.deadline] in Hahead.
      destruct (Protocol.table (Protocol.apply ev s0) !! id) as [e|] eqn:He.
      * assert (e = e0) as ->.
        { destruct (apply_table_Some s0 ev id e He) as [Hold|(env' & timeout' & Hev & Hid & _)].
          - congruence.
          - exfalso. exact (Hnotsend env' timeout' Hev Hid). }
        assert (Hstill : Protocol.completed (Protocol.apply ev s0) !! id = None).
        { destruct (Protocol.completed (Protocol.apply ev s0) !! id) as [r|] eqn:Hr;
            [|reflexivity].
          destruct (apply_completed_new s0 ev id r Hempty Hr) as (_ & Hc & _). congruence. }
        destruct (Z_lt_le_dec (Protocol.now (Protocol.apply ev s0)) (Protocol.now st0 + timeout))
          as [Hlt|Hge].
        -- left. split; [|split].
           ++ apply expire_table_Some. split; [exact He|exact Hlt].
           ++ destruct (Protocol.completed (Protocol.expire _) !! id) as [r|] eqn:Hr;
                [|reflexivity].
              apply expire_completed_Some in Hr.
              destruct Hr as [Hr|(_ & e & He' & Hdue & _)]; [congruence|].
              rewrite He in He'. injection He' as <-.
              unfold e0 in Hdue. cbn [Protocol.deadline] in Hdue. exfalso. lia.
           ++ cbn [Protocol.expire Protocol.now Protocol.deadline]. exact Hlt.
        -- right. split.
           ++ apply expire_table_None. intros e. rewrite He. intros [= <-]. exact Hge.
           ++ pose proof (now_apply s0 ev) as Hstep. pose proof (ticks_single_le ev) as Hone.
              assert (Hat : Protocol.now (Protocol.apply ev s0) = bound).
              { unfold bound. lia. }
              exists (Protocol.timed_out (Protocol.now (Protocol.apply ev s0)) e0).
              split; [|split].
              ** apply expire_completed_Some. right. split; [exact Hstill|].
                 exists e0. split; [exact He|]. split; [exact Hge|reflexivity].
              ** unfold Protocol.timed_out. cbn [Protocol.resolved_at]. lia.
              ** intros _. unfold Protocol.timed_out. rewrite Hat. reflexivity.
      * destruct (apply_table_removed s0 ev id e0 Hpend Hempty He) as (r & Hr & Hat & Hres).
        right. split.
        -- apply expire_table_None. intros e. rewrite He. discriminate.
        -- exists r. split; [apply expire_completed_keeps; exact Hr|].
           split; [unfold bound; lia|].
           intros Hall. apply Forall_app in Hall. destruct Hall as [_ Hev].
           apply Forall_inv in Hev. contradiction.
    + right. split.
      * apply expire_table_None. intros e He. exfalso.
        destruct (apply_table_Some s0 ev id e He) as [Hold|(env' & timeout' & Hev & Hid & _)].
        -- congruence.
        -- exact (Hnotsend env' timeout' Hev Hid).
      * exists r. split; [apply expire_completed_keeps, apply_completed_keeps; exact Hr|].
        split; [exact Hle|].
        intros Hall. apply Forall_app in Hall. destruct Hall as [Hall _]. auto.
Qed.

(** The trace of the running example: after it, request 42 is pending
    with deadline 2, request 7 is answered at time 1, and one more tick
    times request 42 out. *)
Example trace_pending :
  let st := Protocol.run (Protocol.open_session "s1" 0) Demo.trace in
  Protocol.table st !! 42 =
    Some {| Protocol.entry_id := 42; Protocol.deadline := 2; Protocol.owner := "s1" |} /\
  Protocol.table st !! 7 = None /\
  Protocol.outcome <$> Protocol.completed st !! 7 =
    Some (Protocol.Answered
            {| Protocol.content :=
                 mcp.TextContent "text"
                   "MOCK RESPONSE: This is a summary of the requested file. The sampling workflow is working correctly!";
               Protocol.model := "mock-test-model"; Protocol.stopReason := "endTurn" |}) /\
  Protocol.completed (Protocol.step st Protocol.Tick) !! 42 =
    Some {| Protocol.outcome := Protocol.Failed Protocol.Timeout; Protocol.resolved_at := 2 |} /\
  Protocol.pushed st = [Demo.text_envelope 7; Demo.text_envelope 42].
Proof. vm_compute. repeat split; reflexivity. Qed.

Lemma trace_collision_free : collision_free Demo.trace.
Proof.
  unfold collision_free. cbn. apply NoDup_cons. split.
  - rewrite list_elem_of_singleton. discriminate.
  - apply NoDup_singleton.
Qed.

(** C1 on the running example: request 42 is in the table, and it is
    outstanding in the sense of the trace. *)
Lemma pending_table_invariant_witness :
  collision_free Demo.trace /\
  (42 ∈ dom (Protocol.table (Protocol.run (Protocol.open_session "s1" 0) Demo.trace)) <->
   outstanding "s1" 0 Demo.trace 42).
Proof.
  split; [exact trace_collision_free|].
  exact (proj1 (pending_table_invariant "s1" 0 Demo.trace trace_collision_free) 42).
Defined.

(** C2: a call to [send] has a definitive outcome.  A send that is not
    accepted fails at once and leaves the state alone.  An accepted send
    with timeout [timeout] is resolved once the clock has advanced by
    [timeout]: its identifier has left the table and its slot holds an
    outcome stamped no later than the deadline.  When no response or
    closure for it came before the deadline, the outcome is [Timeout] at
    the deadline, it survives whatever comes after, and a response that
    arrives later changes nothing but the diagnostic counter.  The
    server's tool handler asks for a timeout of five minutes and turns
    whatever the sampling call returns into a tool result. *)
Theorem send_resolves_by_deadline :
  (forall (sid : string) (t0 : Z) (pre : list Protocol.Event)
          (env : Protocol.RequestEnvelope) (timeout : Z) (before after : list Protocol.Event),
     collision_free (pre ++ Protocol.Send env timeout :: before ++ after) ->
     timeout <= ticks before ->
     let st0 := Protocol.run (Protocol.open_session sid t0) pre in
     let id := Protocol.request_id env in
     let bound := Protocol.now st0 + Z.max 0 timeout in
     let st := Protocol.run st0 (Protocol.Send env timeout :: before ++ after) in
     (accepts st0 = false -> exists f, Protocol.send st0 env timeout = (st0, Some f)) /\
     (accepts st0 = true ->
      snd (Protocol.send st0 env timeout) = None /\
      Protocol.table st !! id = None /\
      (exists r, Protocol.completed st !! id = Some r /\ Protocol.resolved_at r <= bound) /\
      (Forall (fun ev => ~ resolves sid id ev) before ->
       Protocol.completed st !! id =
         Some {| Protocol.outcome := Protocol.Failed Protocol.Timeout;
                 Protocol.resolved_at := bound |} /\
       forall (sid' : string) (late : Protocol.ResponseEnvelope),
         Protocol.response_id late = id ->
         same_but_counter (Protocol.step st (Protocol.Deliver sid' late)) st))) /\
  (forall (P : Platform) (request : mcp.CallToolRequest) (t : Z)
          (req : mcp.CreateMessageRequest),
     In (Server.ERequestSampling t req) (snd (Server.analyze_file P request)) ->
     t = 5 * time_Minute /\
     exists result, fst (Server.analyze_file P request) = (Some result, None)).
Proof.
  split.
  2:{ intros P request t req Hin.
      destruct (analyze_file_sampling P request t req Hin)
        as (filename & absFilePath & absDirPath & fileContent & H).
      cbv zeta in H. destruct H as (_ & _ & _ & _ & _ & _ & Ht & _ & _ & Hret).
      split; [exact Ht|]. rewrite Hret.
      destruct (RequestSampling P t req); eexists; reflexivity. }
  intros sid t0 pre env timeout before after Hcf Hticks st0 id bound st. split.
  - intros Hrej. destruct (send_cases st0 env timeout) as [[Hacc _]|[_ (f & Hf & _)]];
      [congruence|eauto].
  - intros Hacc.
    assert (Hsend : snd (Protocol.send st0 env timeout) = None).
    { destruct (send_cases st0 env timeout) as [[_ ->]|[Hrej _]]; [reflexivity|congruence]. }
    assert (Hgone : Protocol.table st !! id = None /\
              exists r, Protocol.completed st !! id = Some r /\ Protocol.resolved_at r <= bound).
    { destruct (request_fate sid t0 pre env timeout (before ++ after) Hcf Hacc)
        as [(_ & _ & Hahead)|(Hnone & r & Hr & Hle & _)].
      - exfalso. cbn [Protocol.deadline] in Hahead. rewrite now_run in Hahead.
        cbn [ticks] in Hahead. rewrite ticks_app in Hahead.
        pose proof (ticks_nonneg after). lia.
      - split; [exact Hnone|]. exists r. auto. }
    destruct Hgone as [Hnone Hsome].
    split; [exact Hsend|]. split; [exact Hnone|]. split; [exact Hsome|].
    intros Hquiet.
    assert (Hcf' : collision_free (pre ++ Protocol.Send env timeout :: before)).
    { rewrite app_comm_cons, app_assoc in Hcf. exact (collision_free_app_l _ _ Hcf). }
    split.
    + destruct (request_fate sid t0 pre env timeout before Hcf' Hacc)
        as [(_ & _ & Hahead)|(_ & r & Hr & _ & Htimeout)].
      * exfalso. cbn [Protocol.deadline] in Hahead. rewrite now_run in Hahead.
        cbn [ticks] in Hahead. lia.
      * unfold st. rewrite app_comm_cons, run_app.
        apply run_completed_keeps. rewrite (Htimeout Hquiet) in Hr. exact Hr.
    + intros sid' late Hid.
      assert (Hst : st = Protocol.run (Protocol.open_session sid t0)
                           (pre ++ Protocol.Send env timeout :: before ++ after)).
      { unfold st, st0. rewrite run_app. reflexivity. }
      rewrite Hst. apply stale_deliver_noop. rewrite <- Hst, Hid. exact Hnone.
Qed.

(** C2 on the running example: request 42, sent with timeout 2 and never
    answered, is timed out by the second tick, and the answer that comes
    afterwards is discarded. *)
Lemma send_resolves_by_deadline_witness :
  collision_free
    (Demo.opening ++ Protocol.Send (Demo.text_envelope 42) 2
       :: [Protocol.Tick; Protocol.Tick] ++ [Protocol.Deliver "s1" (Demo.answer 42)]) /\
  2 <= ticks [Protocol.Tick; Protocol.Tick] /\
  accepts (Protocol.run (Protocol.open_session "s1" 0) Demo.opening) = true /\
  Forall (fun ev => ~ resolves "s1" 42 ev) [Protocol.Tick; Protocol.Tick] /\
  Protocol.completed
    (Protocol.run (Protocol.run (Protocol.open_session "s1" 0) Demo.opening)
       (Protocol.Send (Demo.text_envelope 42) 2
          :: [Protocol.Tick; Protocol.Tick] ++ [Protocol.Deliver "s1" (Demo.answer 42)]))
    !! 42
  = Some {| Protocol.outcome := Protocol.Failed Protocol.Timeout;
            Protocol.resolved_at := 0 + Z.max 0 2 |}.
Proof.
  assert (Hcf : collision_free
    (Demo.opening ++ Protocol.Send (Demo.text_envelope 42) 2
       :: [Protocol.Tick; Protocol.Tick] ++ [Protocol.Deliver "s1" (Demo.answer 42)])).
  { unfold collision_free. cbn. apply NoDup_singleton. }
  assert (Hticks : 2 <= ticks [Protocol.Tick; Protocol.Tick]) by (cbn; lia).
  assert (Hacc : accepts (Protocol.run (Protocol.open_session "s1" 0) Demo.opening) = true)
    by reflexivity.
  assert (Hquiet : Forall (fun ev => ~ resolves "s1" 42 ev) [Protocol.Tick; Protocol.Tick]).
  { repeat constructor; cbn; tauto. }
  split; [exact Hcf|]. split; [exact Hticks|]. split; [exact Hacc|]. split; [exact Hquiet|].
  destruct (proj1 send_resolves_by_deadline "s1" 0 Demo.opening (Demo.text_envelope 42) 2
              [Protocol.Tick; Protocol.Tick] [Protocol.Deliver "s1" (Demo.answer 42)]
              Hcf Hticks) as [_ H].
  destruct (H Hacc) as (_ & _ & _ & Hout).
  exact (proj1 (Hout Hquiet)).
Defined.

(** While the peer has not declared the push capability, no entry is
    registered and no frame is written. *)
Lemma no_capability_no_entry (sid : string) (t0 : Z) (tr : list Protocol.Event) :
  Forall (fun ev => forall caps, ev = Protocol.Announce caps ->
                      Protocol.supportsSamplingPush caps = false) tr ->
  let st := Protocol.run (Protocol.open_session sid t0) tr in
  Protocol.supportsSamplingPush (Protocol.peer (Protocol.session st)) = false /\
  Protocol.table st = ∅ /\ Protocol.pushed st = [].
Proof.
  induction tr as [|ev tr IH] using rev_ind; intros Hall st; [cbn; auto|].
  apply Forall_app in Hall. destruct Hall as [Hall Hev]. apply Forall_inv in Hev.
  specialize (IH Hall). cbv zeta in IH. destruct IH as (Hcap & Htab & Hpush).
  unfold st. rewrite run_snoc.
  set (s := Protocol.run (Protocol.open_session sid t0) tr) in *.
  assert (Happ : Protocol.supportsSamplingPush
                   (Protocol.peer (Protocol.session (Protocol.apply ev s))) = false /\
                 Protocol.table (Protocol.apply ev s) = ∅ /\
                 Protocol.pushed (Protocol.apply ev s) = []).
  { destruct ev as [|caps|env timeout|sid' resp| | |]; cbn [Protocol.apply].
    - destruct (Protocol.state _); cbn; auto.
    - destruct (Protocol.state _); cbn; auto.
    - unfold Protocol.send. rewrite Hcap. cbn. auto.
    - destruct (deliver_cases s sid' resp)
        as [(o & e & _ & He & _)|[(Hs & _ & Ht & Hp & _) _]].
      + rewrite Htab, lookup_empty in He. discriminate He.
      + rewrite Hs, Ht, Hp. auto.
    - cbn. auto.
    - unfold Protocol.close. destruct (Protocol.state _); cbn; auto.
    - destruct (Protocol.state _); cbn; auto. }
  destruct Happ as (Hcap' & Htab' & Hpush').
  unfold Protocol.step. cbn [Protocol.expire Protocol.session Protocol.table Protocol.pushed].
  rewrite Htab'. split; [exact Hcap'|]. split; [apply map_filter_empty|exact Hpush'].
Qed.

(** C3: against a session whose peer did not declare the push
    capability, [send] fails at once with [CapabilityNotSupported] and
    returns the state it was given: nothing is written on the push
    channel and the pending request table is the same.  In a session that
    never hears the capability declared, the table stays empty and the
    channel silent whatever is sent. *)
Theorem send_without_capability (st : Protocol.Initiator) (env : Protocol.RequestEnvelope)
    (timeout : Z) :
  Protocol.supportsSamplingPush (Protocol.peer (Protocol.session st)) = false ->
  Protocol.send st env timeout = (st, Some Protocol.CapabilityNotSupported) /\
  Protocol.table (fst (Protocol.send st env timeout)) = Protocol.table st /\
  Protocol.pushed (fst (Protocol.send st env timeout)) = Protocol.pushed st /\
  Protocol.apply (Protocol.Send env timeout) st = st /\
  forall (sid : string) (t0 : Z) (tr : list Protocol.Event),
    Forall (fun ev => forall caps, ev = Protocol.Announce caps ->
                        Protocol.supportsSamplingPush caps = false) tr ->
    Protocol.table (Protocol.run (Protocol.open_session sid t0) tr) = ∅ /\
    Protocol.pushed (Protocol.run (Protocol.open_session sid t0) tr) = [].
Proof.
  intros Hcap.
  assert (Hsend : Protocol.send st env timeout = (st, Some Protocol.CapabilityNotSupported)).
  { unfold Protocol.send. rewrite Hcap. reflexivity. }
  split; [exact Hsend|]. cbn [Protocol.apply]. rewrite Hsend. cbn [fst].
  repeat split; try reflexivity; apply (no_capability_no_entry sid t0 tr); assumption.
Qed.

(** C3 on a session that was negotiated without the capability. *)
Lemma send_without_capability_witness :
  Protocol.supportsSamplingPush (Protocol.peer (Protocol.session Demo.mute)) = false /\
  Protocol.state (Protocol.session Demo.mute) = Protocol.Active /\
  Protocol.send Demo.mute (Demo.text_envelope 7) 2 =
    (Demo.mute, Some Protocol.CapabilityNotSupported).
Proof.
  assert (H : Protocol.supportsSamplingPush (Protocol.peer (Protocol.session Demo.mute)) = false)
    by reflexivity.
  split; [exact H|]. split; [reflexivity|].
  exact (proj1 (send_without_capability Demo.mute (Demo.text_envelope 7) 2 H)).
Defined.

(** C7: when the handler fails with a message, the response the
    responder builds resolves the waiting request with [HandlerError] and
    that message, removes its entry, and leaves every other slot as it
    would be without the response.  And every error the sampling call
    gives the server's tool handler comes back to the tool caller as an
    error result whose text ends with the error message. *)
Theorem handler_error_reaches_caller :
  (forall (st : Protocol.Initiator) (code id : Z) (sid err : string)
          (res : option mcp.CreateMessageResult) (entry : Protocol.PendingEntry),
     Protocol.table st !! id = Some entry ->
     Protocol.owner entry = sid ->
     Protocol.completed st !! id = None ->
     let st' := Protocol.step st (Protocol.Deliver sid (Protocol.respond code id (res, Some err))) in
     Protocol.completed st' !! id =
       Some {| Protocol.outcome := Protocol.Failed (Protocol.HandlerError err);
               Protocol.resolved_at := Protocol.now st |} /\
     Protocol.table st' !! id = None /\
     forall id', id' <> id ->
       Protocol.completed st' !! id' = Protocol.completed (Protocol.expire st) !! id') /\
  (forall (P : Platform) (request : mcp.CallToolRequest) (t : Z)
          (req : mcp.CreateMessageRequest) (err : error),
     In (Server.ERequestSampling t req) (snd (Server.analyze_file P request)) ->
     RequestSampling P t req = inr err ->
     fst (Server.analyze_file P request) =
       (Some {| mcp.ToolContent :=
                  [mcp.TextContent "text" ("Error requesting sampling: " ++ err)];
                mcp.IsError := true |}, None)).
Proof.
  split.
  - intros st code id sid err res entry Hentry Hown Hempty st'.
    assert (Hdel : Protocol.deliver st sid (Protocol.respond code id (res, Some err)) =
              {| Protocol.session := Protocol.touch (Protocol.session st) (Protocol.now st);
                 Protocol.now := Protocol.now st;
                 Protocol.table := delete id (Protocol.table st);
                 Protocol.pushed := Protocol.pushed st;
                 Protocol.completed :=
                   <[id := {| Protocol.outcome := Protocol.Failed (Protocol.HandlerError err);
                              Protocol.resolved_at := Protocol.now st |}]>
                     (Protocol.completed st);
                 Protocol.stale := Protocol.stale st |}).
    { unfold Protocol.deliver, Protocol.respond, Protocol.response_outcome, Protocol.fulfil.
      cbn. rewrite Hentry, Hown, String.eqb_refl, Hempty. reflexivity. }
    unfold st', Protocol.step. cbn [Protocol.apply]. rewrite Hdel.
    split; [|split].
    + apply expire_completed_keeps. cbn. apply lookup_insert_eq.
    + apply expire_table_None. cbn. intros e. rewrite lookup_delete_eq. discriminate.
    + intros id' Hne. apply option_eq. intros r.
      rewrite !expire_completed_Some. cbn.
      rewrite !lookup_insert_ne by congruence.
      setoid_rewrite lookup_delete_ne; [reflexivity|congruence].
  - intros P request t req err Hin Herr.
    destruct (analyze_file_sampling P request t req Hin)
      as (filename & absFilePath & absDirPath & fileContent & H).
    cbv zeta in H. destruct H as (_ & _ & _ & _ & _ & _ & _ & _ & _ & Hret).
    rewrite Hret, Herr. reflexivity.
Qed.

(** C7 on the running example: the handler's error resolves request 7,
    and the server reports the error of a sampling call that failed. *)
Lemma handler_error_reaches_caller_witness :
  (Protocol.table Demo.waiting !! 7 =
     Some {| Protocol.entry_id := 7; Protocol.deadline := 2; Protocol.owner := "s1" |} /\
   Protocol.completed Demo.waiting !! 7 = None /\
   Protocol.completed
     (Protocol.step Demo.waiting
        (Protocol.Deliver "s1"
           (Protocol.respond (-32603) 7 (None, Some "API request failed with status 529"))))
     !! 7
   = Some {| Protocol.outcome :=
               Protocol.Failed (Protocol.HandlerError "API request failed with status 529");
             Protocol.resolved_at := Protocol.now Demo.waiting |}) /\
  (In (Server.ERequestSampling (5 * time_Minute) Demo.notes_request)
      (snd (Server.analyze_file Demo.Q (Demo.call "notes.md"))) /\
   RequestSampling Demo.Q (5 * time_Minute) Demo.notes_request
     = inr "context deadline exceeded" /\
   fst (Server.analyze_file Demo.Q (Demo.call "notes.md")) =
     (Some {| mcp.ToolContent :=
                [mcp.TextContent "text"
                   ("Error requesting sampling: " ++ "context deadline exceeded")];
              mcp.IsError := true |}, None)).
Proof.
  assert (H1 : Protocol.table Demo.waiting !! 7 =
     Some {| Protocol.entry_id := 7; Protocol.deadline := 2; Protocol.owner := "s1" |})
    by (vm_compute; reflexivity).
  assert (H2 : Protocol.completed Demo.waiting !! 7 = None) by (vm_compute; reflexivity).
  assert (H3 : In (Server.ERequestSampling (5 * time_Minute) Demo.notes_request)
      (snd (Server.analyze_file Demo.Q (Demo.call "notes.md")))).
  { vm_compute. right. right. left. reflexivity. }
  assert (H4 : RequestSampling Demo.Q (5 * time_Minute) Demo.notes_request
     = inr "context deadline exceeded") by reflexivity.
  split.
  - split; [exact H1|]. split; [exact H2|].
    exact (proj1 (proj1 handler_error_reaches_caller Demo.waiting (-32603) 7 "s1"
                    "API request failed with status 529" None _ H1 eq_refl H2)).
  - split; [exact H3|]. split; [exact H4|].
    exact (proj2 handler_error_reaches_caller Demo.Q (Demo.call "notes.md") _ _ _ H3 H4).
Defined.


(** * More facts about the server's tools *)

Lemma prefix_append (a b : string) : String.prefix a (a ++ b) = true.
Proof.
  induction a as [|c a IH]; simpl.
  - destruct b; reflexivity.
  - destruct (Ascii.ascii_dec c c) as [_|Hne]; [exact IH|contradiction].
Qed.

(** The handler's runs, one case per return statement of the source. *)
Lemma analyze_file_paths (P : Platform) (request : mcp.CallToolRequest) :
  let run := Server.analyze_file P request in
  (exists err, mcp.RequireString request "filename" = inr err /\ run = ((None, Some err), [])) \/
  exists filename,
    let filePath := filepath_Join P Server.DEFAULT_FILES_DIR filename in
    mcp.RequireString request "filename" = inl filename /\
    ((exists text, run = (Server.text_result text true, [])) \/
     (os_IsNotExist (os_Stat P filePath) = true /\
      run = (Server.text_result ("File not found: " ++ filename) true, [Server.EStat filePath])) \/
     (exists err,
        os_IsNotExist (os_Stat P filePath) = false /\
        os_ReadFile P filePath = inr err /\
        run = (Server.text_result ("Error reading file: " ++ err) true,
               [Server.EStat filePath; Server.EReadFile filePath])) \/
     (exists req,
        snd run = [Server.EStat filePath; Server.EReadFile filePath;
                   Server.ERequestSampling (5 * time_Minute) req] /\
        ((exists err,
            RequestSampling P (5 * time_Minute) req = inr err /\
            fst run = Server.text_result ("Error requesting sampling: " ++ err) true) \/
         (exists result text,
            RequestSampling P (5 * time_Minute) req = inl result /\
            fst run = Server.text_result text false)))).
Proof.
  cbv zeta. unfold Server.analyze_file.
  destruct (mcp.RequireString request "filename") as [filename|e0]; [right|left; eauto].
  exists filename. split; [reflexivity|].
  destruct (filepath_Abs P (filepath_Join P Server.DEFAULT_FILES_DIR filename))
    as [absFilePath|e1]; [|left; eauto].
  destruct (filepath_Abs P Server.DEFAULT_FILES_DIR) as [absDirPath|e2]; [|left; eauto].
  destruct (strings_HasPrefix absFilePath absDirPath); cbn [negb]; [|left; eauto].
  destruct (os_IsNotExist (os_Stat P (filepath_Join P Server.DEFAULT_FILES_DIR filename)));
    [right; left; auto|].
  destruct (os_ReadFile P (filepath_Join P Server.DEFAULT_FILES_DIR filename))
    as [fileContent|e3]; [|right; right; left; eauto].
  right. right. right. eexists.
  destruct (RequestSampling P (5 * time_Minute) _) as [result|err] eqn:Hs; cbn [fst snd].
  - split; [reflexivity|]. right. rewrite Hs. eauto.
  - split; [reflexivity|]. left. rewrite Hs. eauto.
Qed.

(** X1: the handler returns a Go error exactly when the call has no
    string argument [filename]; it then touches nothing.  In every other
    case it returns a tool result and no error: a failure to resolve,
    find, read or analyze the file is reported inside the result. *)
Theorem analyze_file_error_iff_no_filename (P : Platform) (request : mcp.CallToolRequest) :
  let ret := fst (Server.analyze_file P request) in
  exactly_one (fst ret) (snd ret) /\
  (is_Some (snd ret) <->
   forall s, mcp.Arguments request !! "filename" <> Some (mcp.AnyString s)) /\
  (is_Some (snd ret) -> snd (Server.analyze_file P request) = []).
Proof.
  cbv zeta.
  destruct (analyze_file_paths P request) as [(err & Hname & Hrun)|(filename & Hname & Hcases)];
    cbv zeta in *.
  - rewrite Hrun. cbn. split; [right; eauto|]. split; [|reflexivity].
    split; [|eauto]. intros _ s Hs. unfold mcp.RequireString in Hname.
    rewrite Hs in Hname. discriminate Hname.
  - assert (Hret : exists result,
              fst (Server.analyze_file P request) = (Some result, None)).
    { destruct Hcases as [(text & ->)|[(_ & ->)|[(err & _ & _ & ->)|(req & _ & Hs)]]];
        cbn; eauto.
      destruct Hs as [(err & _ & ->)|(result & text & _ & ->)]; cbn; eauto. }
    destruct Hret as [result Hret]. rewrite Hret. cbn.
    split; [left; eauto|]. split.
    + split; [intros [? [=]]|]. intros Hno. exfalso.
      unfold mcp.RequireString in Hname.
      destruct (mcp.Arguments request !! "filename") as [[s|]|] eqn:Harg;
        try discriminate Hname. exact (Hno s eq_refl).
    + intros [? [=]].
Qed.

(** X2: the calls of one run are an initial part of the sequence
    [os.Stat] of the file, [os.ReadFile] of the same file, one sampling
    request with a timeout of five minutes: the file is never read without
    having been looked up, never read twice, and at most one sampling
    request is issued. *)
Theorem analyze_file_call_sequence (P : Platform) (request : mcp.CallToolRequest) :
  let calls := snd (Server.analyze_file P request) in
  calls = [] \/
  exists filename,
    let filePath := filepath_Join P Server.DEFAULT_FILES_DIR filename in
    mcp.RequireString request "filename" = inl filename /\
    (calls = [Server.EStat filePath] \/
     calls = [Server.EStat filePath; Server.EReadFile filePath] \/
     exists req,
       calls = [Server.EStat filePath; Server.EReadFile filePath;
                Server.ERequestSampling (5 * time_Minute) req]).
Proof.
  cbv zeta.
  destruct (analyze_file_paths P request) as [(err & Hname & Hrun)|(filename & Hname & Hcases)];
    cbv zeta in *.
  - left. rewrite Hrun. reflexivity.
  - destruct Hcases as [(text & ->)|[(_ & ->)|[(err & _ & _ & ->)|(req & Hcalls & _)]]];
      cbn [snd]; [left; reflexivity| | |]; right; exists filename; split; eauto.
Qed.


(** X4: a file that passes the path check but is missing is reported as
    "File not found" after the single call [os.Stat]; a file that is there
    but cannot be read is reported as "Error reading file" with the
    system's message.  In both cases nothing is sent to the client. *)
Theorem analyze_file_missing_or_unreadable
    (P : Platform) (request : mcp.CallToolRequest) (filename absFilePath absDirPath : string) :
  mcp.RequireString request "filename" = inl filename ->
  filepath_Abs P (filepath_Join P Server.DEFAULT_FILES_DIR filename) = inl absFilePath ->
  filepath_Abs P Server.DEFAULT_FILES_DIR = inl absDirPath ->
  strings_HasPrefix absFilePath absDirPath = true ->
  let filePath := filepath_Join P Server.DEFAULT_FILES_DIR filename in
  (os_IsNotExist (os_Stat P filePath) = true ->
   Server.analyze_file P request =
     (Server.text_result ("File not found: " ++ filename) true, [Server.EStat filePath])) /\
  (forall err,
     os_IsNotExist (os_Stat P filePath) = false ->
     os_ReadFile P filePath = inr err ->
     Server.analyze_file P request =
       (Server.text_result ("Error reading file: " ++ err) true,
        [Server.EStat filePath; Server.EReadFile filePath])).
Proof.
  intros Hname Habs Hdir Hpre filePath. unfold filePath, Server.analyze_file.
  rewrite Hname, Habs, Hdir, Hpre. cbn [negb]. split.
  - intros ->. reflexivity.
  - intros err -> ->. reflexivity.
Qed.

(** X4 on the running example: [nothing.txt] is missing, and on the
    locked platform [notes.md] cannot be read. *)
Lemma analyze_file_missing_or_unreadable_witness :
  Server.analyze_file Demo.P (Demo.call "nothing.txt") =
    (Server.text_result "File not found: nothing.txt" true, [Server.EStat "files/nothing.txt"]) /\
  Server.analyze_file Samples.locked (Demo.call "notes.md") =
    (Server.text_result "Error reading file: open files/notes.md: permission denied" true,
     [Server.EStat "files/notes.md"; Server.EReadFile "files/notes.md"]).
Proof.
  split.
  - refine (proj1 (analyze_file_missing_or_unreadable Demo.P (Demo.call "nothing.txt")
                     "nothing.txt" "/srv/app/files/nothing.txt" "/srv/app/files"
                     _ _ _ _) _); vm_compute; reflexivity.
  - refine (proj2 (analyze_file_missing_or_unreadable Samples.locked (Demo.call "notes.md")
                     "notes.md" "/srv/app/files/notes.md" "/srv/app/files"
                     _ _ _ _) "open files/notes.md: permission denied" _ _);
      vm_compute; reflexivity.
Defined.

(** X5: the system prompt of the sampling request starts with the
    caller's custom prompt whenever one is given, whatever the analysis
    type; without a custom prompt it starts with the summary prompt when
    no analysis type is given, and with the general prompt when the
    analysis type is none of the four the tool knows. *)
Theorem analyze_file_system_prompt
    (P : Platform) (request : mcp.CallToolRequest) (t : Z) (req : mcp.CreateMessageRequest) :
  In (Server.ERequestSampling t req) (snd (Server.analyze_file P request)) ->
  let customPrompt := mcp.GetString request "custom_prompt" EmptyString in
  (customPrompt <> EmptyString ->
   String.prefix customPrompt (mcp.SystemPrompt req) = true) /\
  (customPrompt = EmptyString ->
   mcp.Arguments request !! "analysis_type" = None ->
   String.prefix "Please provide a clear and concise summary of this content."
     (mcp.SystemPrompt req) = true) /\
  (customPrompt = EmptyString ->
   ~ In (mcp.GetString request "analysis_type" "summarize")
        ["summarize"; "explain"; "analyze"; "extract_key_points"] ->
   String.prefix "Please analyze this content and provide insights."
     (mcp.SystemPrompt req) = true).
Proof.
  intros Hin customPrompt.
  destruct (analyze_file_sampling P request t req Hin)
    as (filename & absFilePath & absDirPath & fileContent & H).
  cbv zeta in H. destruct H as (_ & _ & _ & _ & _ & _ & _ & Hreq & _).
  assert (Hpre : String.prefix
            (Server.basePrompt (mcp.GetString request "analysis_type" "summarize") customPrompt)
            (mcp.SystemPrompt req) = true).
  { rewrite Hreq. cbn [Server.samplingRequest mcp.SystemPrompt]. unfold Server.systemPrompt.
    destruct (Server.text_branch _ _); [|destruct (Server.image_branch _)];
      apply prefix_append. }
  unfold Server.basePrompt in Hpre. split; [|split].
  - intros Hcustom. apply String.eqb_neq in Hcustom. rewrite Hcustom in Hpre. exact Hpre.
  - intros Hcustom Hnone. apply String.eqb_eq in Hcustom. rewrite Hcustom in Hpre.
    unfold mcp.GetString in Hpre. rewrite Hnone in Hpre. exact Hpre.
  - intros Hcustom Hother. apply String.eqb_eq in Hcustom. rewrite Hcustom in Hpre.
    cbn [negb] in Hpre.
    destruct (String.eqb_spec (mcp.GetString request "analysis_type" "summarize") "summarize")
      as [Heq|_]; [exfalso; apply Hother; rewrite Heq; cbn; auto|].
    destruct (String.eqb_spec (mcp.GetString request "analysis_type" "summarize") "explain")
      as [Heq|_]; [exfalso; apply Hother; rewrite Heq; cbn; auto|].
    destruct (String.eqb_spec (mcp.GetString request "analysis_type" "summarize") "analyze")
      as [Heq|_]; [exfalso; apply Hother; rewrite Heq; cbn; auto|].
    destruct (String.eqb_spec (mcp.GetString request "analysis_type" "summarize")
                "extract_key_points")
      as [Heq|_]; [exfalso; apply Hother; rewrite Heq; cbn; auto|].
    exact Hpre.
Qed.

(** X5 on the running example: a call with the analysis type [explain]
    and a custom prompt is sent with the custom prompt. *)
Lemma analyze_file_system_prompt_witness :
  In (Server.ERequestSampling (5 * time_Minute)
        (Server.samplingRequest (mcp.TextContent "text" "# Notes")
           "List the headings. The content is a application/octet-stream file named 'notes.md'."))
     (snd (Server.analyze_file Demo.P Samples.custom_call)) /\
  mcp.GetString Samples.custom_call "custom_prompt" EmptyString <> EmptyString /\
  String.prefix (mcp.GetString Samples.custom_call "custom_prompt" EmptyString)
    "List the headings. The content is a application/octet-stream file named 'notes.md'."
  = true.
Proof.
  assert (Hin : In (Server.ERequestSampling (5 * time_Minute)
        (Server.samplingRequest (mcp.TextContent "text" "# Notes")
           "List the headings. The content is a application/octet-stream file named 'notes.md'."))
     (snd (Server.analyze_file Demo.P Samples.custom_call))).
  { vm_compute. right. right. left. reflexivity. }
  assert (Hcustom : mcp.GetString Samples.custom_call "custom_prompt" EmptyString
                    <> EmptyString).
  { vm_compute. discriminate. }
  split; [exact Hin|]. split; [exact Hcustom|].
  exact (proj1 (analyze_file_system_prompt Demo.P Samples.custom_call _ _ Hin) Hcustom).
Defined.

(** The loop of [list_files] appends, for each entry in order, its line
    or nothing. *)
Lemma fileList_from (P : Platform) (entries : list Tools.DirEntry) (acc : list string) :
  fold_left (Tools.list_step P) entries acc =
  (acc ++ flat_map (fun entry => Tools.list_step P [] entry) entries)%list.
Proof.
  revert acc. induction entries as [|entry entries IH]; intros acc; cbn [fold_left flat_map].
  - rewrite app_nil_r. reflexivity.
  - rewrite IH, app_assoc. f_equal. unfold Tools.list_step.
    destruct (Tools.IsDir entry); cbn [negb]; [rewrite app_nil_r; reflexivity|].
    destruct (Tools.Info entry); [reflexivity|rewrite app_nil_r; reflexivity].
Qed.

(** X6: every result the three tool handlers of the server return holds
    exactly one content, a text content, so that a client reading
    [result.Content[0]] as a text, as the workflow test does without
    testing the length, never indexes out of range and always finds a
    text.  [list_files] and [echo] never return a Go error, and [echo]
    never an error result. *)
Theorem tool_results_hold_one_text
    (P : Platform) (os_ReadDir : string -> list Tools.DirEntry + error)
    (request : mcp.CallToolRequest) :
  (forall result,
     fst (fst (Server.analyze_file P request)) = Some result ->
     exists text, mcp.ToolContent result = [mcp.TextContent "text" text] /\
                  Reader.first_text result = Reader.Text text) /\
  (exists result text,
     Tools.list_files P os_ReadDir request = (Some result, None) /\
     mcp.ToolContent result = [mcp.TextContent "text" text] /\
     Reader.first_text result = Reader.Text text) /\
  (exists result,
     Tools.echo request = (Some result, None) /\
     mcp.IsError result = false /\
     mcp.ToolContent result =
       [mcp.TextContent "text" ("Echo: " ++ mcp.GetString request "message" EmptyString)] /\
     Reader.first_text result =
       Reader.Text ("Echo: " ++ mcp.GetString request "message" EmptyString)).
Proof.
  split; [|split].
  - intros result Hres.
    destruct (analyze_file_paths P request) as [(err & _ & Hrun)|(filename & _ & Hcases)];
      cbv zeta in *.
    { rewrite Hrun in Hres. discriminate Hres. }
    assert (Htext : exists text b, fst (Server.analyze_file P request) = Server.text_result text b).
    { destruct Hcases as [(text & ->)|[(_ & ->)|[(err & _ & _ & ->)|(req & _ & Hs)]]];
        cbn [fst]; eauto.
      destruct Hs as [(err & _ & ->)|(answer & text & _ & ->)]; eauto. }
    destruct Htext as (text & b & Htext). rewrite Htext in Hres. cbn in Hres.
    injection Hres as <-. exists text. split; reflexivity.
  - unfold Tools.list_files. destruct (os_ReadDir Server.DEFAULT_FILES_DIR) as [entries|err].
    + destruct (Tools.fileList P entries); eexists; eexists; repeat split.
    + eexists. eexists. repeat split.
  - eexists. repeat split.
Qed.

(** X7: the listing has one line per entry that is not a directory and
    whose [Info] call succeeds, in the order of the directory; the
    handler answers "No files found" exactly when there is no such entry
    (an empty directory, or one that holds only directories and entries
    whose information cannot be read), and an error result exactly when
    the directory cannot be read. *)
Theorem list_files_listing
    (P : Platform) (os_ReadDir : string -> list Tools.DirEntry + error)
    (request : mcp.CallToolRequest) :
  (forall entries,
     Tools.fileList P entries =
       flat_map (fun entry =>
                   match Tools.IsDir entry, Tools.Info entry with
                   | false, inl size => [Tools.file_line P entry size]
                   | _, _ => []
                   end) entries) /\
  (forall entries,
     os_ReadDir Server.DEFAULT_FILES_DIR = inl entries ->
     (Tools.list_files P os_ReadDir request =
        Server.text_result "No files found in ./files directory" false <->
      Forall (fun entry => Tools.IsDir entry = true \/ exists err, Tools.Info entry = inr err)
             entries) /\
     (Tools.fileList P entries <> [] ->
      Tools.list_files P os_ReadDir request =
        Server.text_result
          ("Available files in ./files:" ++ Server.nl ++ Server.nl
           ++ Tools.strings_Join (Tools.fileList P entries) Server.nl) false)) /\
  (forall result,
     Tools.list_files P os_ReadDir request = (Some result, None) ->
     (mcp.IsError result = true <-> exists err, os_ReadDir Server.DEFAULT_FILES_DIR = inr err)).
Proof.
  assert (Hflat : forall entries,
     Tools.fileList P entries =
       flat_map (fun entry =>
                   match Tools.IsDir entry, Tools.Info entry with
                   | false, inl size => [Tools.file_line P entry size]
                   | _, _ => []
                   end) entries).
  { intros entries. unfold Tools.fileList. rewrite fileList_from. cbn [app].
    apply flat_map_ext. intros entry. unfold Tools.list_step.
    destruct (Tools.IsDir entry), (Tools.Info entry); reflexivity. }
  assert (Hnil : forall entries,
     Tools.fileList P entries = [] <->
     Forall (fun entry => Tools.IsDir entry = true \/ exists err, Tools.Info entry = inr err)
            entries).
  { intros entries. rewrite Hflat. induction entries as [|entry entries IH]; cbn [flat_map].
    - split; [constructor|reflexivity].
    - rewrite Forall_cons. rewrite <- IH.
      destruct (Tools.IsDir entry), (Tools.Info entry) as [size|err]; cbn [app].
      + intuition.
      + intuition.
      + split; [discriminate|]. intros [[H|[err H]] _]; discriminate H.
      + split; [intros H; split; [eauto|exact H]|tauto]. }
  split; [exact Hflat|]. split.
  - intros entries Hdir. unfold Tools.list_files. rewrite Hdir. split.
    + rewrite <- Hnil. destruct (Tools.fileList P entries) as [|line lines].
      * split; reflexivity.
      * split; [intros H; discriminate H|intros H; discriminate H].
    + intros Hne. destruct (Tools.fileList P entries) as [|line lines];
        [contradiction|reflexivity].
  - intros result. unfold Tools.list_files.
    destruct (os_ReadDir Server.DEFAULT_FILES_DIR) as [entries|err].
    + destruct (Tools.fileList P entries); intros [= <-]; cbn;
        (split; [discriminate|intros [? [=]]]).
    + intros [= <-]. cbn. split; eauto.
Qed.

(** X7 on the running example: of the four entries, the directory and
    the entry without information are left out. *)
Lemma list_files_listing_witness :
  Samples.readDir Server.DEFAULT_FILES_DIR = inl Samples.entries /\
  Tools.fileList Demo.P Samples.entries <> [] /\
  Tools.list_files Demo.P Samples.readDir (Demo.call "x") =
    Server.text_result
      ("Available files in ./files:" ++ Server.nl ++ Server.nl
       ++ Tools.strings_Join
            [ "- notes.md (7 bytes, application/octet-stream)";
              "- logo.PNG (3 bytes, image/png)" ] Server.nl) false.
Proof.
  assert (H1 : Samples.readDir Server.DEFAULT_FILES_DIR = inl Samples.entries) by reflexivity.
  assert (H2 : Tools.fileList Demo.P Samples.entries <> []) by (vm_compute; discriminate).
  split; [exact H1|]. split; [exact H2|].
  exact (proj2 (proj1 (proj2 (list_files_listing Demo.P Samples.readDir (Demo.call "x")))
                  Samples.entries H1) H2).
Defined.

(** X8: for a file name that [list_files] shows, the type at the end of
    its line is the type [analyze_file] reports for that name: both
    handlers derive it from the lower-cased extension with the same
    fallback. *)
Theorem listed_type_is_reported_type
    (P : Platform) (entry : Tools.DirEntry) (size : Z) (request : mcp.CallToolRequest)
    (t : Z) (req : mcp.CreateMessageRequest) (answer : mcp.CreateMessageResult) :
  mcp.RequireString request "filename" = inl (Tools.Name entry) ->
  In (Server.ERequestSampling t req) (snd (Server.analyze_file P request)) ->
  RequestSampling P t req = inl answer ->
  exists mimeType,
    Tools.file_line P entry size =
      "- " ++ Tools.Name entry ++ " (" ++ Client.Sprint_d size ++ " bytes, " ++ mimeType ++ ")" /\
    fst (Server.analyze_file P request) =
      Server.text_result
        (Server.analysis_report (Tools.Name entry) mimeType
           (mcp.GetString request "analysis_type" "summarize")
           (mcp.Model answer) (Server.responseText P answer)) false.
Proof.
  intros Hname Hin Hans.
  destruct (analyze_file_sampling P request t req Hin)
    as (filename & absFilePath & absDirPath & fileContent & H).
  cbv zeta in H. destruct H as (Hname' & _ & _ & _ & _ & _ & _ & _ & _ & Hfst).
  rewrite Hname in Hname'. injection Hname' as <-.
  exists (Server.mimeType_of P (strings_ToLower P (filepath_Ext P (Tools.Name entry)))).
  split; [reflexivity|]. rewrite Hfst, Hans. reflexivity.
Qed.

(** X8 on the running example: [notes.md] is listed and reported with
    the type [application/octet-stream]. *)
Lemma listed_type_is_reported_type_witness :
  exists mimeType,
    Tools.file_line Demo.P
      {| Tools.Name := "notes.md"; Tools.IsDir := false; Tools.Info := inl 7 |} 7 =
      "- notes.md (" ++ Client.Sprint_d 7 ++ " bytes, " ++ mimeType ++ ")" /\
    fst (Server.analyze_file Demo.P (Demo.call "notes.md")) =
      Server.text_result
        (Server.analysis_report "notes.md" mimeType "summarize" "mock-test-model"
           "MOCK RESPONSE: This is a summary of the requested file. The sampling workflow is working correctly!")
        false.
Proof.
  assert (Hin : In (Server.ERequestSampling (5 * time_Minute) Demo.notes_request)
                   (snd (Server.analyze_file Demo.P (Demo.call "notes.md")))).
  { vm_compute. right. right. left. reflexivity. }
  destruct (listed_type_is_reported_type Demo.P
              {| Tools.Name := "notes.md"; Tools.IsDir := false; Tools.Info := inl 7 |} 7
              (Demo.call "notes.md") _ _
              {| mcp.ResultRole := mcp.RoleAssistant;
                 mcp.ResultContent :=
                   mcp.TextContent "text"
                     "MOCK RESPONSE: This is a summary of the requested file. The sampling workflow is working correctly!";
                 mcp.Model := "mock-test-model"; mcp.StopReason := "endTurn" |}
              eq_refl Hin eq_refl) as (mimeType & Hline & Hret).
  exists mimeType. split; [exact Hline|exact Hret].
Defined.

(** * More facts about the sampling handlers *)



(** X10: when the backend answers with a status other than 200, the
    handler fails with "API request failed with status" and the status in
    decimal, whatever the body holds; it returns no result and has sent
    exactly one request. *)
Theorem CreateMessage_status_not_ok
    (h : Client.AnthropicSamplingHandler) (request : mcp.CreateMessageRequest)
    (httpReq : Client.HTTPRequest) (resp : Client.HTTPResponse) :
  In httpReq (snd (Client.CreateMessage h request)) ->
  Client.HTTPClient_Do (Client.HTTPClient h) httpReq = inl resp ->
  Client.StatusCode resp <> 200 ->
  Client.CreateMessage h request =
    ((None, Some ("API request failed with status " ++ Client.Sprint_d (Client.StatusCode resp))),
     [httpReq]).
Proof.
  unfold Client.CreateMessage.
  destruct (mcp.Messages request) as [|m ms]; [intros []|].
  destruct (Client.json_Marshal _ _) as [reqBody|e1]; [|intros []].
  destruct (Client.http_NewRequestWithContext _ _ _ _) as [base|e2]; [|intros []].
  set (sent := Client.Header_Set _ "anthropic-version" "2023-06-01").
  intros Hin Hdo Hstatus.
  assert (Hsent : httpReq = sent).
  { destruct (Client.HTTPClient_Do _ sent) as [resp'|e3];
      [destruct (negb _); [|destruct (Client.json_Decode _ _)]|];
      cbn in Hin; destruct Hin as [Hin|[]]; auto. }
  subst httpReq. rewrite Hdo.
  assert (Hne : (Client.StatusCode resp =? Client.http_StatusOK) = false).
  { apply Z.eqb_neq. exact Hstatus. }
  rewrite Hne. reflexivity.
Qed.

(** X10 on a backend that answers 529. *)
Lemma CreateMessage_status_not_ok_witness :
  fst (Client.CreateMessage
         {| Client.APIKey := "sk-test"; Client.HTTPClient := Samples.overloaded |}
         Demo.notes_request)
  = (None, Some "API request failed with status 529").
Proof.
  destruct (snd (Client.CreateMessage
                   {| Client.APIKey := "sk-test"; Client.HTTPClient := Samples.overloaded |}
                   Demo.notes_request))
    as [|httpReq rest] eqn:Hsent; [vm_compute in Hsent; discriminate Hsent|].
  assert (Hin : In httpReq
                  (snd (Client.CreateMessage
                          {| Client.APIKey := "sk-test"; Client.HTTPClient := Samples.overloaded |}
                          Demo.notes_request))).
  { rewrite Hsent. left. reflexivity. }
  rewrite (CreateMessage_status_not_ok _ _ httpReq
             {| Client.StatusCode := 529; Client.ResponseBody := "overloaded" |}
             Hin eq_refl ltac:(discriminate)).
  reflexivity.
Defined.

(** X11: when the backend answers 200 with a body that decodes, the
    handler succeeds whatever the response holds: the result is an
    assistant message whose text is the text of the first content block,
    the empty text when the response has no block, and later blocks are
    dropped; model and stop reason are the response's. *)
Theorem CreateMessage_success
    (h : Client.AnthropicSamplingHandler) (request : mcp.CreateMessageRequest)
    (httpReq : Client.HTTPRequest) (resp : Client.HTTPResponse)
    (anthropicResp : Client.AnthropicResponse) :
  In httpReq (snd (Client.CreateMessage h request)) ->
  Client.HTTPClient_Do (Client.HTTPClient h) httpReq = inl resp ->
  Client.StatusCode resp = 200 ->
  Client.json_Decode (Client.HTTPClient h) (Client.ResponseBody resp) = inl anthropicResp ->
  fst (Client.CreateMessage h request) =
    (Some {| mcp.ResultRole := mcp.RoleAssistant;
             mcp.ResultContent :=
               mcp.TextContent "text"
                 (hd EmptyString (map Client.Block_Text (Client.Response_Content anthropicResp)));
             mcp.Model := Client.Response_Model anthropicResp;
             mcp.StopReason := Client.Response_StopReason anthropicResp |}, None).
Proof.
  unfold Client.CreateMessage.
  destruct (mcp.Messages request) as [|m ms]; [intros []|].
  destruct (Client.json_Marshal _ _) as [reqBody|e1]; [|intros []].
  destruct (Client.http_NewRequestWithContext _ _ _ _) as [base|e2]; [|intros []].
  set (sent := Client.Header_Set _ "anthropic-version" "2023-06-01").
  intros Hin Hdo Hstatus Hdecode.
  assert (Hsent : httpReq = sent).
  { destruct (Client.HTTPClient_Do _ sent) as [resp'|e3];
      [destruct (negb _); [|destruct (Client.json_Decode _ _)]|];
      cbn in Hin; destruct Hin as [Hin|[]]; auto. }
  subst httpReq. rewrite Hdo, Hstatus. cbn [Z.eqb Pos.eqb negb Client.http_StatusOK].
  rewrite Hdecode. cbn [fst]. destruct (Client.Response_Content anthropicResp); reflexivity.
Qed.

(** X11 on a backend whose response has no content block. *)
Lemma CreateMessage_success_witness :
  fst (Client.CreateMessage
         {| Client.APIKey := "sk-test"; Client.HTTPClient := Samples.wordless |}
         Demo.notes_request)
  = (Some {| mcp.ResultRole := mcp.RoleAssistant;
             mcp.ResultContent := mcp.TextContent "text" EmptyString;
             mcp.Model := "claude-3-5-sonnet-20241022";
             mcp.StopReason := "max_tokens" |}, None).
Proof.
  destruct (snd (Client.CreateMessage
                   {| Client.APIKey := "sk-test"; Client.HTTPClient := Samples.wordless |}
                   Demo.notes_request))
    as [|httpReq rest] eqn:Hsent; [vm_compute in Hsent; discriminate Hsent|].
  assert (Hin : In httpReq
                  (snd (Client.CreateMessage
                          {| Client.APIKey := "sk-test"; Client.HTTPClient := Samples.wordless |}
                          Demo.notes_request))).
  { rewrite Hsent. left. reflexivity. }
  exact (CreateMessage_success _ _ httpReq
           {| Client.StatusCode := 200; Client.ResponseBody := "{}" |}
           Samples.wordless_response Hin eq_refl eq_refl eq_refl).
Defined.



(** What the simulation's handler hands to the HTTP client. *)
Lemma Simulate_sent (h : Simulate.AnthropicSamplingHandler) (request : mcp.CreateMessageRequest)
    (httpReq : Client.HTTPRequest) :
  In httpReq (snd (Simulate.CreateMessage h request)) ->
  snd (Simulate.CreateMessage h request) = [httpReq] /\
  Client.Header httpReq !! "x-api-key" = Some (Simulate.APIKey h).
Proof.
  unfold Simulate.CreateMessage.
  destruct (Simulate.json_Marshal _ _) as [reqBody|e1]; [|intros []].
  destruct (Simulate.http_NewRequestWithContext _ _ _ _) as [base|e2]; [|intros []].
  set (sent := Client.Header_Set _ "anthropic-version" "2023-06-01").
  assert (Hkey : Client.Header sent !! "x-api-key" = Some (Simulate.APIKey h)).
  { unfold sent, Client.Header_Set. cbn.
    rewrite lookup_insert_ne by discriminate. apply lookup_insert_eq. }
  destruct (Simulate.HTTPClient_Do _ sent) as [resp|e3];
    [destruct (negb _); [|destruct (Simulate.json_Decode _ _)]|];
    cbn [snd]; intros [<-|[]]; auto.
Qed.

(** X13: the simulation's handler returns a result or an error, never
    both or neither, and hands at most one request to the HTTP client.
    Its result is an assistant text message whose stop reason is always
    [endTurn], whatever the backend reported. *)
Theorem Simulate_CreateMessage_outcome
    (h : Simulate.AnthropicSamplingHandler) (request : mcp.CreateMessageRequest) :
  let ret := fst (Simulate.CreateMessage h request) in
  exactly_one (fst ret) (snd ret) /\
  (length (snd (Simulate.CreateMessage h request)) <= 1)%nat /\
  (forall r, fst ret = Some r ->
     mcp.StopReason r = "endTurn" /\ mcp.ResultRole r = mcp.RoleAssistant /\
     exists text, mcp.ResultContent r = mcp.TextContent "text" text).
Proof.
  unfold Simulate.CreateMessage, exactly_one.
  destruct (Simulate.json_Marshal _ _) as [reqBody|e1];
    [|cbn; split; [right; eauto|split; [lia|discriminate]]].
  destruct (Simulate.http_NewRequestWithContext _ _ _ _) as [base|e2];
    [|cbn; split; [right; eauto|split; [lia|discriminate]]].
  destruct (Simulate.HTTPClient_Do _ _) as [resp|e3];
    [|cbn; split; [right; eauto|split; [lia|discriminate]]].
  destruct (negb _); [cbn; split; [right; eauto|split; [lia|discriminate]]|].
  destruct (Simulate.json_Decode _ _) as [anthropicResp|e4];
    [|cbn; split; [right; eauto|split; [lia|discriminate]]].
  cbn. split; [left; eauto|]. split; [lia|].
  intros r [= <-]. cbn. eauto.
Qed.

(** X14: the simulation's handler has no guard on the message list:
    whenever the request can be marshalled and the HTTP request built, it
    hands one request with the handler's API key to the HTTP client, even
    for a sampling request without messages, for which the enhanced
    client's handler sends nothing. *)
Theorem Simulate_CreateMessage_sends
    (h : Simulate.AnthropicSamplingHandler) (request : mcp.CreateMessageRequest)
    (reqBody : string) (base : Client.HTTPRequest) :
  Simulate.json_Marshal (Simulate.HTTPClient h)
    {| Simulate.Request_Model := "claude-3-5-sonnet-20241022";
       Simulate.Request_MaxTokens := mcp.MaxTokens request;
       Simulate.Request_Messages :=
         map (Simulate.convert_message (Simulate.HTTPClient h)) (mcp.Messages request);
       Simulate.Request_System := mcp.SystemPrompt request;
       Simulate.Request_Temperature := mcp.Temperature request |} = inl reqBody ->
  Simulate.http_NewRequestWithContext (Simulate.HTTPClient h) "POST"
    "https://api.anthropic.com/v1/messages" reqBody = inl base ->
  (exists httpReq,
     snd (Simulate.CreateMessage h request) = [httpReq] /\
     Client.Body httpReq = Client.Body base /\
     Client.Header httpReq !! "x-api-key" = Some (Simulate.APIKey h)) /\
  (mcp.Messages request = [] ->
   forall h' : Client.AnthropicSamplingHandler, snd (Client.CreateMessage h' request) = []).
Proof.
  intros Hbody Hbase. split.
  - unfold Simulate.CreateMessage. rewrite Hbody, Hbase.
    set (sent := Client.Header_Set _ "anthropic-version" "2023-06-01").
    exists sent.
    assert (Hkey : Client.Header sent !! "x-api-key" = Some (Simulate.APIKey h)).
    { unfold sent, Client.Header_Set. cbn.
      rewrite lookup_insert_ne by discriminate. apply lookup_insert_eq. }
    destruct (Simulate.HTTPClient_Do _ sent) as [resp|e3];
      [destruct (negb _); [|destruct (Simulate.json_Decode _ _)]|];
      cbn [snd]; auto.
  - intros Hempty h'. unfold Client.CreateMessage. rewrite Hempty. reflexivity.
Qed.

(** X14 on the running example: the request without messages. *)
Lemma Simulate_CreateMessage_sends_witness :
  mcp.Messages Demo.empty_request = [] /\
  (exists httpReq,
     snd (Simulate.CreateMessage Samples.sim_handler Demo.empty_request) = [httpReq] /\
     Client.Header httpReq !! "x-api-key" = Some "sk-test") /\
  snd (Client.CreateMessage Demo.handler Demo.empty_request) = [].
Proof.
  split; [reflexivity|].
  destruct (Simulate_CreateMessage_sends Samples.sim_handler Demo.empty_request "{}"
              {| Client.Method := "POST"; Client.URL := "https://api.anthropic.com/v1/messages";
                 Client.Header := ∅; Client.Body := "{}" |} eq_refl eq_refl)
    as [(httpReq & Hsent & _ & Hkey) Hnone].
  split; [exists httpReq; split; [exact Hsent|exact Hkey]|].
  exact (Hnone eq_refl Demo.handler).
Defined.

(** * Facts about the test programs *)

(** X15: the simulation contacts the backend only when the API key is
    set, the connection to the server and the [list_files] call succeeded
    with a content to show, and the document could be read and has at
    least 100 bytes.  It then sends one request, carrying that API key,
    for a sampling request with the document's text as its only message,
    a limit of 2000 tokens and the temperature 0.3. *)
Theorem Simulate_main_request (E : Simulate.Environment) (httpReq : Client.HTTPRequest) :
  In httpReq (snd (Simulate.main E)) ->
  Simulate.ANTHROPIC_API_KEY E <> EmptyString /\
  Simulate.transport_NewStreamableHTTP E = None /\
  Simulate.mcpClient_Start E = None /\
  Simulate.mcpClient_Initialize E = None /\
  (exists listResult,
     Simulate.CallTool_list_files E = inl listResult /\ mcp.ToolContent listResult <> []) /\
  exists content,
    Simulate.os_ReadFile E "files/sample_document.md" = inl content /\
    (100 <= length content)%nat /\
    Simulate.main E =
      (Simulate.Returned,
       snd (Simulate.CreateMessage
              (Simulate.NewAnthropicSamplingHandler (Simulate.backend E)
                 (Simulate.ANTHROPIC_API_KEY E))
              {| mcp.Messages :=
                   [ {| mcp.Role_ := mcp.RoleUser;
                        mcp.Content_ := mcp.TextContent "text" (string_of_bytes content) |} ];
                 mcp.SystemPrompt :=
                   "Please summarize this content. The content is a markdown file named 'sample_document.md'.";
                 mcp.MaxTokens := 2000;
                 mcp.Temperature := 3 # 10 |})) /\
    snd (Simulate.main E) = [httpReq] /\
    Client.Header httpReq !! "x-api-key" = Some (Simulate.ANTHROPIC_API_KEY E).
Proof.
  unfold Simulate.main.
  destruct (String.eqb_spec (Simulate.ANTHROPIC_API_KEY E) EmptyString) as [_|Hkey];
    [intros []|].
  destruct (Simulate.transport_NewStreamableHTTP E); [intros []|].
  destruct (Simulate.mcpClient_Start E); [intros []|].
  destruct (Simulate.mcpClient_Initialize E); [intros []|].
  destruct (Simulate.CallTool_list_files E) as [listResult|e]; [|intros []].
  assert (Hlist : Reader.first_text listResult = Reader.IndexOutOfRange \/
                  mcp.ToolContent listResult <> []).
  { unfold Reader.first_text. destruct (mcp.ToolContent listResult) as [|c cs];
      [left; reflexivity|right; discriminate]. }
  change (String.append "files/" "sample_document.md") with "files/sample_document.md".
  destruct (Simulate.os_ReadFile E "files/sample_document.md") as [content|e] eqn:Hread.
  2:{ destruct (Reader.first_text listResult); intros []. }
  unfold Simulate.head100.
  destruct (Nat.ltb_spec (length content) 100) as [Hshort|Hlong].
  { destruct (Reader.first_text listResult); intros []. }
  destruct Hlist as [Hpanic|Hlist]; [rewrite Hpanic; intros []|].
  intros Hin.
  assert (Hsent : In httpReq
            (snd (Simulate.CreateMessage
                    (Simulate.NewAnthropicSamplingHandler (Simulate.backend E)
                       (Simulate.ANTHROPIC_API_KEY E))
                    (Simulate.samplingRequest "summarize" "sample_document.md" content)))).
  { destruct (Reader.first_text listResult); [destruct Hin| |]; exact Hin. }
  destruct (Simulate_sent _ _ _ Hsent) as [Hone Hheader].
  repeat (split; [auto; fail|]). split; [eauto|].
  exists content. split; [reflexivity|]. split; [exact Hlong|].
  destruct (Reader.first_text listResult); [destruct Hin| |];
    (split; [reflexivity|]); cbn [snd]; auto.
Qed.

(** X15 on the running example: the document of 120 bytes. *)
Lemma Simulate_main_request_witness :
  exists httpReq,
    snd (Simulate.main (Samples.environment Samples.long_document)) = [httpReq] /\
    Client.Header httpReq !! "x-api-key" = Some "sk-test".
Proof.
  destruct (snd (Simulate.main (Samples.environment Samples.long_document)))
    as [|httpReq rest] eqn:Hsent; [vm_compute in Hsent; discriminate Hsent|].
  exists httpReq.
  assert (Hin : In httpReq (snd (Simulate.main (Samples.environment Samples.long_document)))).
  { rewrite Hsent. left. reflexivity. }
  destruct (Simulate_main_request _ httpReq Hin)
    as (_ & _ & _ & _ & _ & content & _ & _ & _ & Hone & Hkey).
  rewrite <- Hsent. split; [exact Hone|exact Hkey].
Defined.

(** X16: the simulation ends in a run-time panic exactly when, with the
    API key set and the connection made, the result of [list_files] has
    no content, or has one and the document was read but is shorter than
    100 bytes.  In that case the backend has not been contacted. *)
Theorem Simulate_main_panics (E : Simulate.Environment) :
  (fst (Simulate.main E) = Simulate.Panicked <->
   Simulate.ANTHROPIC_API_KEY E <> EmptyString /\
   Simulate.transport_NewStreamableHTTP E = None /\
   Simulate.mcpClient_Start E = None /\
   Simulate.mcpClient_Initialize E = None /\
   exists listResult,
     Simulate.CallTool_list_files E = inl listResult /\
     (mcp.ToolContent listResult = [] \/
      exists content,
        Simulate.os_ReadFile E "files/sample_document.md" = inl content /\
        (length content < 100)%nat)) /\
  (fst (Simulate.main E) = Simulate.Panicked -> snd (Simulate.main E) = []).
Proof.
  set (cond :=
    Simulate.ANTHROPIC_API_KEY E <> EmptyString /\
    Simulate.transport_NewStreamableHTTP E = None /\
    Simulate.mcpClient_Start E = None /\
    Simulate.mcpClient_Initialize E = None /\
    exists listResult,
      Simulate.CallTool_list_files E = inl listResult /\
      (mcp.ToolContent listResult = [] \/
       exists content,
         Simulate.os_ReadFile E "files/sample_document.md" = inl content /\
         (length content < 100)%nat)).
  unfold Simulate.main.
  change (String.append "files/" "sample_document.md") with "files/sample_document.md".
  destruct (String.eqb_spec (Simulate.ANTHROPIC_API_KEY E) EmptyString) as [Hkey|Hkey].
  { cbn. split; [|discriminate]. split; [discriminate|]. unfold cond. tauto. }
  destruct (Simulate.transport_NewStreamableHTTP E) eqn:Ht.
  { cbn. split; [|discriminate]. split; [discriminate|].
    unfold cond. intros (_ & H & _). congruence. }
  destruct (Simulate.mcpClient_Start E) eqn:Hs.
  { cbn. split; [|discriminate]. split; [discriminate|].
    unfold cond. intros (_ & _ & H & _). congruence. }
  destruct (Simulate.mcpClient_Initialize E) eqn:Hi.
  { cbn. split; [|discriminate]. split; [discriminate|].
    unfold cond. intros (_ & _ & _ & H & _). congruence. }
  destruct (Simulate.CallTool_list_files E) as [listResult|e] eqn:Hl.
  2:{ cbn. split; [|discriminate]. split; [discriminate|].
      unfold cond. intros (_ & _ & _ & _ & l & H & _). congruence. }
  assert (Hcond : cond <->
            mcp.ToolContent listResult = [] \/
            exists content,
              Simulate.os_ReadFile E "files/sample_document.md" = inl content /\
              (length content < 100)%nat).
  { unfold cond. split.
    - intros (_ & _ & _ & _ & l & Heq & H). congruence.
    - intros H. repeat (split; [auto; fail|]). exists listResult. auto. }
  rewrite Hcond. clear Hcond cond.
  unfold Reader.first_text, Simulate.head100.
  destruct (mcp.ToolContent listResult) as [|c cs] eqn:Hcontent.
  { cbn. split; [|reflexivity]. split; auto. }
  assert (Hrest :
    forall run : Simulate.Exit * list Client.HTTPRequest,
      run = match Simulate.os_ReadFile E "files/sample_document.md" with
            | inl content =>
              match (if (length content <? 100)%nat then None
                     else Some (String.substring 0 100 (string_of_bytes content))) with
              | Some _ =>
                (Simulate.Returned,
                 snd (Simulate.CreateMessage
                        (Simulate.NewAnthropicSamplingHandler (Simulate.backend E)
                           (Simulate.ANTHROPIC_API_KEY E))
                        (Simulate.samplingRequest "summarize" "sample_document.md" content)))
              | None => (Simulate.Panicked, [])
              end
            | inr _ => (Simulate.Returned, [])
            end ->
      (fst run = Simulate.Panicked <->
       c :: cs = [] \/
       exists content,
         Simulate.os_ReadFile E "files/sample_document.md" = inl content /\
         (length content < 100)%nat) /\
      (fst run = Simulate.Panicked -> snd run = [])).
  { intros run ->.
    destruct (Simulate.os_ReadFile E "files/sample_document.md") as [content|e].
    - destruct (Nat.ltb_spec (length content) 100) as [Hshort|Hlong]; cbn.
      + split; [|reflexivity]. split; [eauto|reflexivity].
      + split; [|discriminate]. split; [discriminate|].
        intros [H|(content' & [= <-] & Hlt)]; [discriminate H|lia].
    - cbn. split; [|discriminate]. split; [discriminate|].
      intros [H|(content & H & _)]; discriminate H. }
  destruct c; apply Hrest; reflexivity.
Qed.

(** X16 on the running example: the document of 7 bytes. *)
Lemma Simulate_main_panics_witness :
  fst (Simulate.main (Samples.environment Samples.short_document)) = Simulate.Panicked /\
  snd (Simulate.main (Samples.environment Samples.short_document)) = [].
Proof.
  assert (H : fst (Simulate.main (Samples.environment Samples.short_document))
              = Simulate.Panicked).
  { apply (proj1 (Simulate_main_panics (Samples.environment Samples.short_document))).
    split; [discriminate|]. repeat (split; [reflexivity|]).
    exists Samples.listing. split; [reflexivity|]. right.
    exists Samples.short_document. split; [reflexivity|]. cbn. lia. }
  split; [exact H|].
  exact (proj2 (Simulate_main_panics (Samples.environment Samples.short_document)) H).
Defined.

(** X17: for the document the simulation reads, the sampling request it
    builds carries the same message, token limit and temperature as the
    request the server's [analyze_file] issues for that file; the two
    differ in the system prompt only. *)
Theorem simulation_sends_what_server_sends
    (P : Platform) (request : mcp.CallToolRequest) (t : Z) (req : mcp.CreateMessageRequest)
    (content : list byte) (analysisType : string) :
  mcp.RequireString request "filename" = inl "sample_document.md" ->
  strings_ToLower P (filepath_Ext P "sample_document.md") = ".md" ->
  os_ReadFile P (filepath_Join P Server.DEFAULT_FILES_DIR "sample_document.md") = inl content ->
  In (Server.ERequestSampling t req) (snd (Server.analyze_file P request)) ->
  mcp.Messages req =
    mcp.Messages (Simulate.samplingRequest analysisType "sample_document.md" content) /\
  mcp.MaxTokens req =
    mcp.MaxTokens (Simulate.samplingRequest analysisType "sample_document.md" content) /\
  mcp.Temperature req =
    mcp.Temperature (Simulate.samplingRequest analysisType "sample_document.md" content).
Proof.
  intros Hname Hext Hread Hin.
  destruct (analyze_file_sampling P request t req Hin)
    as (filename & absFilePath & absDirPath & fileContent & H).
  cbv zeta in H. destruct H as (Hname' & _ & _ & _ & _ & Hread' & _ & Hreq & _).
  rewrite Hname in Hname'. injection Hname' as <-.
  rewrite Hread in Hread'. injection Hread' as <-.
  rewrite Hreq, Hext. cbn [Server.samplingRequest Simulate.samplingRequest mcp.Messages
                           mcp.MaxTokens mcp.Temperature].
  unfold Server.contentForLLM.
  assert (Htext : Server.text_branch (Server.mimeType_of P ".md") ".md" = true).
  { apply text_branch_spec. right. cbn. auto. }
  rewrite Htext. auto.
Qed.

(** X17 on a platform that holds the document. *)
Lemma simulation_sends_what_server_sends_witness :
  mcp.Messages
    (Server.samplingRequest
       (mcp.TextContent "text" (string_of_bytes Samples.long_document))
       "Please provide a clear and concise summary of this content. The content is a application/octet-stream file named 'sample_document.md'.")
  = mcp.Messages (Simulate.samplingRequest "summarize" "sample_document.md" Samples.long_document).
Proof.
  refine (proj1 (simulation_sends_what_server_sends Samples.library
                   (Demo.call "sample_document.md") (5 * time_Minute) _
                   Samples.long_document "summarize" _ _ _ _)).
  - vm_compute. reflexivity.
  - vm_compute. reflexivity.
  - vm_compute. reflexivity.
  - vm_compute. right. right. left. reflexivity.
Defined.

Lemma length_substring_0 (n : nat) (s : string) :
  String.length (String.substring 0 n s) = Nat.min n (String.length s).
Proof.
  revert s. induction n as [|n IH]; intros [|c s]; cbn [String.substring String.length Nat.min];
    try reflexivity.
  rewrite IH. reflexivity.
Qed.

Lemma length_append (a b : string) :
  String.length (a ++ b) = (String.length a + String.length b)%nat.
Proof. induction a as [|c a IH]; simpl; [reflexivity|rewrite IH; reflexivity]. Qed.

Lemma prefix_substring_0 (n : nat) (s : string) :
  String.prefix (String.substring 0 n s) s = true.
Proof.
  revert s. induction n as [|n IH]; intros [|c s]; cbn [String.substring]; try reflexivity.
  simpl. destruct (Ascii.ascii_dec c c) as [_|Hne]; [apply IH|contradiction].
Qed.

(** The cut of a text after [n] bytes, for every [n]. *)
Lemma cut_bounded (n : nat) (text : string) :
  let shown := if (n <? String.length text)%nat
               then String.substring 0 n text ++ "..." else text in
  (String.length shown <= n + 3)%nat /\
  String.prefix (String.substring 0 n text) shown = true /\
  ((String.length text <= n)%nat -> shown = text) /\
  ((n < String.length text)%nat ->
   shown = String.substring 0 n text ++ "..." /\ String.length shown = (n + 3)%nat).
Proof.
  cbv zeta. destruct (Nat.ltb_spec n (String.length text)) as [Hlong|Hshort].
  - assert (Hlen : String.length (String.substring 0 n text ++ "...") = (n + 3)%nat).
    { rewrite length_append, length_substring_0. cbn [String.length]. lia. }
    split; [lia|]. split; [apply prefix_append|]. split; [lia|auto].
  - split; [lia|]. split; [apply prefix_substring_0|]. split; [auto|lia].
Qed.

(** X18: the text the all-in-one client shows is never longer than 503
    bytes and always starts with the first 500 bytes of the result; a
    text of at most 500 bytes is shown as it is, and a longer one is cut
    after 500 bytes and followed by three dots. *)
Theorem display_text_bounded (text : string) :
  (String.length (Reader.display_text text) <= 500 + 3)%nat /\
  String.prefix (String.substring 0 500 text) (Reader.display_text text) = true /\
  ((String.length text <= 500)%nat -> Reader.display_text text = text) /\
  ((500 < String.length text)%nat ->
   Reader.display_text text = String.substring 0 500 text ++ "..." /\
   String.length (Reader.display_text text) = (500 + 3)%nat).
Proof.
  pose proof (cut_bounded 500 text) as Hcut. cbv zeta in Hcut.
  unfold Reader.display_text. exact Hcut.
Qed.
